(** * Protocol client of the MIS integration prototype

    Shallow embedding of [examples/mis-integration/mis_integration.py]:
    envelope construction, transport, response validation, the two
    operations [clients_change_list] and [client_add], and the entry point
    [main] from the parsed arguments on.

    Conventions of the embedding.
    - A Python [str] is a [string] holding the UTF-8 encoding of the text, so
      [str.encode("utf-8")] is the identity and [bytes.decode("utf-8")]
      checks that the bytes are well-formed UTF-8.
    - A Python [dict] with string keys and values is a [gmap string string].
    - A call either returns, raises, or lies outside the fragment of a
      library function that was transcribed ([Beyond]); nothing is claimed
      about a call that ends in [Beyond].
    - The code after a call is given as a function of what the call
      returned, so that what the program does with a parsed response can be
      stated for every response: [clients_change_list_result] and
      [client_add_result] are the two operations from the line after
      [_send_request] on, and [fetch] is the [try] block of [_send_request].
    - Console output ([print]) is not part of the embedding, except for the
      warning of the transport, which is kept as an event because it is the
      only use the transport makes of an error body. *)

From Stdlib Require Import ZArith Ascii String List Bool Lia.
From Stdlib Require Import DecimalString DecimalPos DecimalNat DecimalZ DecimalFacts.
From stdpp Require Import base strings gmap list.

Local Open Scope string_scope.
Local Open Scope Z_scope.

(** ** Outcomes of calls *)

Inductive exn : Type :=
| KeyError (key : string)
| ValueError (literal : string)
| TypeError (what : string)
| UnicodeDecodeError
| ParseError
| HTTPError (code : Z) (fp : string)
| OSError (what : string).

Inductive outcome (A : Type) : Type :=
| Ret (a : A)
| Raise (e : exn)
| Beyond.

Arguments Ret {A} a.
Arguments Raise {A} e.
Arguments Beyond {A}.

Definition bind {A B : Type} (m : outcome A) (k : A -> outcome B) : outcome B :=
  match m with
  | Ret a => k a
  | Raise e => Raise e
  | Beyond => Beyond
  end.

(** ** Text: the parts of [str] the program relies on *)

Module Text.

Definition code (c : ascii) : nat := nat_of_ascii c.

Definition between (lo hi : nat) (c : ascii) : bool :=
  (Nat.leb lo (code c)) && (Nat.leb (code c) hi).

Definition is_byte (n : nat) (c : ascii) : bool := Nat.eqb (code c) n.

Definition non_ascii (c : ascii) : bool := Nat.leb 128 (code c).

(** The C locale's [isspace]: tab, newline, vertical tab, form feed,
    carriage return and space. *)
Definition c_space (c : ascii) : bool := between 9 13 c || is_byte 32 c.

(** White space of [str] below U+0080: the above and U+001C..U+001F. *)
Definition space1 (c : ascii) : bool := c_space c || between 28 31 c.

(** White space encoded on two bytes: U+0085 and U+00A0. *)
Definition space2 (a b : ascii) : bool :=
  is_byte 194 a && (is_byte 133 b || is_byte 160 b).

(** White space encoded on three bytes: U+1680, U+2000..U+200A, U+2028,
    U+2029, U+202F, U+205F and U+3000. *)
Definition space3 (a b c : ascii) : bool :=
  (is_byte 225 a && is_byte 154 b && is_byte 128 c)
  || (is_byte 226 a && is_byte 128 b
      && (between 128 138 c || is_byte 168 c || is_byte 169 c || is_byte 175 c))
  || (is_byte 226 a && is_byte 129 b && is_byte 159 c)
  || (is_byte 227 a && is_byte 128 b && is_byte 128 c).

Section Strip.
Variable p1 : ascii -> bool.
Variable p2 : ascii -> ascii -> bool.
Variable p3 : ascii -> ascii -> ascii -> bool.

Fixpoint drop_while (s : string) : string :=
  match s with
  | String a s1 =>
      if p1 a then drop_while s1 else
      match s1 with
      | String b s2 =>
          if p2 a b then drop_while s2 else
          match s2 with
          | String c s3 => if p3 a b c then drop_while s3 else s
          | EmptyString => s
          end
      | EmptyString => s
      end
  | EmptyString => s
  end.
End Strip.

Fixpoint rev_onto (acc s : string) : string :=
  match s with
  | String c r => rev_onto (String c acc) r
  | EmptyString => acc
  end.

Definition rev (s : string) : string := rev_onto "" s.

Definition lstrip (s : string) : string := drop_while space1 space2 space3 s.

Definition rstrip (s : string) : string :=
  rev (drop_while space1 (fun b a => space2 a b) (fun c b a => space3 a b c) (rev s)).

(** [str.strip()] *)
Definition strip (s : string) : string := lstrip (rstrip s).

Fixpoint all_chars (p : ascii -> bool) (s : string) : bool :=
  match s with
  | String c r => p c && all_chars p r
  | EmptyString => true
  end.

Fixpoint any_char (p : ascii -> bool) (s : string) : bool :=
  match s with
  | String c r => p c || any_char p r
  | EmptyString => false
  end.

(** [s.startswith(prefix)] *)
Fixpoint starts_with (prefix s : string) : bool :=
  match prefix, s with
  | EmptyString, _ => true
  | String a p, String b r => Ascii.eqb a b && starts_with p r
  | String _ _, EmptyString => false
  end.

(** [needle in hay] *)
Fixpoint contains (needle hay : string) : bool :=
  starts_with needle hay
  || match hay with
     | String _ r => contains needle r
     | EmptyString => false
     end.

(** No occurrence of [needle] starts inside [chunk], whatever text follows
    the chunk. *)
Fixpoint clear (needle chunk : string) : bool :=
  match chunk with
  | EmptyString => true
  | String _ r =>
      negb (starts_with needle chunk) && negb (starts_with chunk needle) && clear needle r
  end.

(** [str(n)] for an [int] *)
Definition str_of_int (n : Z) : string := NilZero.string_of_int (Z.to_int n).

(** [s.replace(c, "")] for a one-character [c] *)
Fixpoint remove_char (c : ascii) (s : string) : string :=
  match s with
  | String a r => if Ascii.eqb a c then remove_char c r else String a (remove_char c r)
  | EmptyString => EmptyString
  end.

(** [s[:n]] *)
Fixpoint take (n : nat) (s : string) : string :=
  match n, s with
  | S k, String a r => String a (take k r)
  | _, _ => EmptyString
  end.

End Text.

(** ** [int(s)] for a [str] argument in base ten

    Transcribed for text below U+0080; a string with a byte above that may
    hold a non-ASCII digit or space and is left outside ([Beyond]), as is a
    literal of more than 4300 digits, whose treatment depends on the
    interpreter's digit limit. *)

Module PyInt.
Import Text.

Fixpoint skip_space (s : string) : string :=
  match s with
  | String c r => if c_space c then skip_space r else s
  | EmptyString => s
  end.

Definition is_digit (c : ascii) : bool := between 48 57 c.

Definition digit_value (c : ascii) : Z := Z.of_nat (code c) - 48.

(** Digits and underscores: no underscore first, last or doubled. *)
Fixpoint digits (prev_underscore : bool) (count : nat) (acc : Z) (s : string)
  : option (nat * Z * string) :=
  match s with
  | String c r =>
      if is_digit c then digits false (S count) (10 * acc + digit_value c) r
      else if is_byte 95 c then
        if prev_underscore then None else digits true count acc r
      else if prev_underscore then None else Some (count, acc, s)
  | EmptyString => if prev_underscore then None else Some (count, acc, s)
  end.

Definition max_str_digits : nat := 4300.

Definition signed (s : string) : Z * string :=
  match s with
  | String c r =>
      if is_byte 43 c then (1, r)
      else if is_byte 45 c then (-1, r)
      else (1, s)
  | EmptyString => (1, s)
  end.

Definition int (s : string) : outcome Z :=
  if any_char non_ascii s then Beyond else
  let '(sign, body) := signed (skip_space s) in
  match body with
  | String c _ =>
      if is_byte 95 c then Raise (ValueError s) else
      match digits false 0 0 body with
      | Some (count, value, rest) =>
          match count, skip_space rest with
          | O, _ => Raise (ValueError s)
          | _, EmptyString =>
              if Nat.ltb max_str_digits count then Beyond
              else Ret (sign * value)
          | _, String _ _ => Raise (ValueError s)
          end
      | None => Raise (ValueError s)
      end
  | EmptyString => Raise (ValueError s)
  end.

End PyInt.

(** ** Element trees ([xml.etree.ElementTree.Element])

    The program reads the tag, the text and the children of an element and
    nothing else; attributes and tails are therefore not kept. *)

Inductive Element : Type :=
| Elem (tag : string) (text : option string) (children : list Element).

Definition tag (e : Element) : string := let 'Elem t _ _ := e in t.
Definition text (e : Element) : option string := let 'Elem _ x _ := e in x.
Definition children (e : Element) : list Element := let 'Elem _ _ k := e in k.

(** [e.text or ""] *)
Definition text_or_empty (e : Element) : string := default "" (text e).

Module ElementPath.

(** [e.iter()]: the element and its descendants in document order. *)
Fixpoint iter (e : Element) : list Element :=
  match e with
  | Elem _ _ kids => e :: flat_map iter kids
  end.

(** The steps of the paths the program uses: [//tag] and [/tag]. *)
Inductive step : Type :=
| Descendant (name : string)
| Child (name : string).

Definition has_tag (name : string) (e : Element) : bool := String.eqb (tag e) name.

Definition select (s : step) (result : list Element) : list Element :=
  match s with
  | Descendant name =>
      flat_map (fun e => filter (fun d => has_tag name d = true)
                                (flat_map iter (children e))) result
  | Child name =>
      flat_map (fun e => filter (fun d => has_tag name d = true) (children e)) result
  end.

(** [root.iterfind(path)] for a path [.] followed by the given steps. *)
Definition iterfind (root : Element) (path : list step) : list Element :=
  fold_left (fun result s => select s result) path [root].

Definition findall (root : Element) (path : list step) : list Element :=
  iterfind root path.

Definition find (root : Element) (path : list step) : option Element :=
  head (iterfind root path).

(** [root.findtext(path, default)]: the text of the first match, the empty
    string when that element has no text, [default] when nothing matches. *)
Definition findtext (root : Element) (path : list step) (default : string) : string :=
  match find root path with
  | Some e => text_or_empty e
  | None => default
  end.

End ElementPath.

Import ElementPath.

(** ** Response validation *)

(** [_check_msa(root, method)] *)
Definition _check_msa (root : Element) (method : string) : bool :=
  let msa1 := findtext root [Descendant "MSA.1"] "" in
  let msa3 := findtext root [Descendant "MSA.3"] "" in
  if String.eqb msa1 "AA" then true else false.

(** [_spresult(root, out_tag)], where [out_tag] is an element name. *)
Definition _spresult (root : Element) (out_tag : string) : outcome (Z * string) :=
  let found := findtext root [Descendant out_tag; Child "SPRESULT"] "-999" in
  bind (if String.eqb found "" then Ret (-999) else PyInt.int found) (fun result =>
  let comment := findtext root [Descendant out_tag; Child "SPCOMMENT"] "" in
  Ret (result, comment)).

(** ** [bytes.decode("utf-8")] *)

Module Utf8.
Import Text.

Inductive state : Type :=
| Boundary
| Continue (more : nat) (lo hi : nat)
| Invalid.

(** After a lead byte: how many bytes follow and the range of the next. *)
Definition lead (c : ascii) : state :=
  if negb (non_ascii c) then Boundary
  else if between 194 223 c then Continue 1 128 191
  else if is_byte 224 c then Continue 2 160 191
  else if between 225 236 c then Continue 2 128 191
  else if is_byte 237 c then Continue 2 128 159
  else if between 238 239 c then Continue 2 128 191
  else if is_byte 240 c then Continue 3 144 191
  else if between 241 243 c then Continue 3 128 191
  else if is_byte 244 c then Continue 3 128 143
  else Invalid.

Definition step (st : state) (c : ascii) : state :=
  match st with
  | Boundary => lead c
  | Continue more lo hi =>
      if between lo hi c then
        match more with
        | 1%nat => Boundary
        | _ => Continue (Nat.pred more) 128 191
        end
      else Invalid
  | Invalid => Invalid
  end.

Fixpoint run (st : state) (s : string) : state :=
  match s with
  | String c r => run (step st c) r
  | EmptyString => st
  end.

Definition well_formed (s : string) : bool :=
  match run Boundary s with
  | Boundary => true
  | _ => false
  end.

Definition decode (raw : string) : outcome string :=
  if well_formed raw then Ret raw else Raise UnicodeDecodeError.

End Utf8.

(** ** The substitution that removes namespace declarations

    [re.sub] with the pattern of [_send_request]: a run of white space, the
    word xmlns, optionally a colon and a run of word characters, an equals
    sign, and a value between double quotes that holds no double quote; each
    match is replaced by the empty string.

    The pattern has one way to match at a given position: the run of white
    space is followed by a letter, so it is taken whole, and so is the run of
    word characters, which is followed by the equals sign. Which characters
    above U+007F are word characters is not transcribed: a match that
    depends on it is [Unknown]. *)

Module NsRegex.
Import Text.

Definition dquote : ascii := ascii_of_nat 34.

(** [\s+], greedy: the number of bytes of the run of white space. *)
Fixpoint space_run (s : string) : nat :=
  match s with
  | String a s1 =>
      if space1 a then S (space_run s1) else
      match s1 with
      | String b s2 =>
          if space2 a b then S (S (space_run s2)) else
          match s2 with
          | String c s3 => if space3 a b c then S (S (S (space_run s3))) else O
          | EmptyString => O
          end
      | EmptyString => O
      end
  | EmptyString => O
  end.

Fixpoint drop (n : nat) (s : string) : string :=
  match n, s with
  | S k, String _ r => drop k r
  | _, _ => s
  end.

Fixpoint strip_prefix (lit s : string) : option string :=
  match lit, s with
  | EmptyString, _ => Some s
  | String a l, String b r => if Ascii.eqb a b then strip_prefix l r else None
  | String _ _, EmptyString => None
  end.

Definition word_char (c : ascii) : bool :=
  between 48 57 c || between 65 90 c || between 97 122 c || is_byte 95 c.

(** [\w+], greedy: the length of the run, and whether it holds a byte
    above U+007F. *)
Fixpoint word_run (s : string) : nat * bool :=
  match s with
  | String c r =>
      if word_char c then let '(n, high) := word_run r in (S n, high)
      else if non_ascii c then let '(n, _) := word_run r in (S n, true)
      else (O, false)
  | EmptyString => (O, false)
  end.

(** The value and its closing quote: the number of bytes up to and with
    the next double quote. *)
Fixpoint to_quote (s : string) : option nat :=
  match s with
  | String c r => if Ascii.eqb c dquote then Some 1%nat else option_map S (to_quote r)
  | EmptyString => None
  end.

Inductive matched : Type :=
| NoMatch
| Match (len : nat)
| Unknown.

(** The equals sign and the quoted value. *)
Definition value_part (before : nat) (high : bool) (s : string) : matched :=
  match s with
  | String e (String q r) =>
      if Ascii.eqb e "=" && Ascii.eqb q dquote then
        match to_quote r with
        | Some n => if high then Unknown else Match (before + 2 + n)
        | None => NoMatch
        end
      else NoMatch
  | _ => NoMatch
  end.

(** The match of the whole pattern at the start of [s]. *)
Definition match_here (s : string) : matched :=
  match space_run s with
  | O => NoMatch
  | n1 =>
      match strip_prefix "xmlns" (drop n1 s) with
      | Some s2 =>
          match s2 with
          | String c s3 =>
              if Ascii.eqb c ":" then
                match word_run s3 with
                | (O, _) => NoMatch
                | (n2, high) => value_part (n1 + 5 + 1 + n2) high (drop n2 s3)
                end
              else value_part (n1 + 5) false s2
          | EmptyString => NoMatch
          end
      | None => NoMatch
      end
  end.

(** Leftmost matches, none overlapping, are removed; [skip] counts the
    bytes of the current match that are still to be dropped. *)
Fixpoint sub_go (skip : nat) (s : string) : option string :=
  match s with
  | EmptyString => Some EmptyString
  | String c r =>
      match skip with
      | S k => sub_go k r
      | O =>
          match match_here s with
          | NoMatch => option_map (String c) (sub_go O r)
          | Match n => sub_go (Nat.pred n) r
          | Unknown => None
          end
      end
  end.

Definition strip_namespaces (xml_str : string) : outcome string :=
  match sub_go O xml_str with
  | Some s => Ret s
  | None => Beyond
  end.

End NsRegex.

(** ** [ET.fromstring]

    Transcribed for documents made of the declaration the client itself
    writes, elements without attributes, character data and the five
    predefined entity references. The parser reads one byte at a time and
    keeps the open elements on a stack, as the tree builder does. A document
    that uses anything else (attributes, comments, processing instructions,
    CDATA sections, character references, prefixed names, carriage returns
    or a closing angle bracket in character data, names above U+007F, the
    lead byte of U+F000..U+FFFF) is [Unsupported]. *)

Module Xml.
Import Text.

Inductive class : Type :=
| Lt | Gt | Amp | Slash | Bang | Quest | Semi | Hash | Colon
| Space | CarriageReturn | NameStart | NameChar | Other | Control | High | HighEF.

Definition classify (c : ascii) : class :=
  if is_byte 60 c then Lt
  else if is_byte 62 c then Gt
  else if is_byte 38 c then Amp
  else if is_byte 47 c then Slash
  else if is_byte 33 c then Bang
  else if is_byte 63 c then Quest
  else if is_byte 59 c then Semi
  else if is_byte 35 c then Hash
  else if is_byte 58 c then Colon
  else if is_byte 9 c || is_byte 10 c || is_byte 32 c then Space
  else if is_byte 13 c then CarriageReturn
  else if between 65 90 c || between 97 122 c || is_byte 95 c then NameStart
  else if between 48 57 c || is_byte 45 c || is_byte 46 c then NameChar
  else if between 0 31 c then Control
  else if is_byte 239 c then HighEF
  else if non_ascii c then High
  else Other.

(** An open element: its tag, the text before its first child, and its
    closed children, latest first. *)
Record frame : Type := Frame {
  ftag : string;
  ftext : string;
  fkids : list Element
}.

Inductive state : Type :=
| Prolog
| Markup (stack : list frame)
| OpenName (name : string) (stack : list frame)
| OpenSpace (name : string) (stack : list frame)
| OpenSlash (name : string) (stack : list frame)
| CloseName (name : string) (stack : list frame)
| CloseSpace (name : string) (stack : list frame)
| Content (stack : list frame)
| Reference (name : string) (stack : list frame)
| Epilog (root : Element)
| Malformed
| Unsupported.

Definition snoc (s : string) (c : ascii) : string := s +:+ String c EmptyString.

(** Character data goes to the text of the open element until its first
    child is closed; after that it would go to a tail. *)
Definition data (c : ascii) (stack : list frame) : state :=
  match stack with
  | f :: rest =>
      match fkids f with
      | [] => Content (Frame (ftag f) (snoc (ftext f) c) [] :: rest)
      | _ :: _ => Content stack
      end
  | [] => Malformed
  end.

Definition add_child (e : Element) (stack : list frame) : state :=
  match stack with
  | f :: rest => Content (Frame (ftag f) (ftext f) (e :: fkids f) :: rest)
  | [] => Epilog e
  end.

(** The text of an element that received the character data [s]. *)
Definition text_of (s : string) : option string :=
  match s with
  | EmptyString => None
  | _ => Some s
  end.

Definition element_of (f : frame) : Element :=
  Elem (ftag f) (text_of (ftext f)) (List.rev (fkids f)).

Definition close (name : string) (stack : list frame) : state :=
  match stack with
  | f :: rest =>
      if String.eqb name (ftag f) then add_child (element_of f) rest else Malformed
  | [] => Malformed
  end.

Definition entity (name : string) : option ascii :=
  if String.eqb name "lt" then Some "<"%char
  else if String.eqb name "gt" then Some ">"%char
  else if String.eqb name "amp" then Some "&"%char
  else if String.eqb name "apos" then Some "'"%char
  else if String.eqb name "quot" then Some (ascii_of_nat 34)
  else None.

Definition step (st : state) (c : ascii) : state :=
  match st with
  | Prolog =>
      match classify c with
      | Space | CarriageReturn => Prolog
      | Lt => Markup []
      | High | HighEF => Unsupported
      | _ => Malformed
      end
  | Markup stack =>
      match classify c with
      | NameStart => OpenName (String c EmptyString) stack
      | Slash => match stack with [] => Malformed | _ => CloseName EmptyString stack end
      | Bang | Quest | Colon | High | HighEF => Unsupported
      | _ => Malformed
      end
  | OpenName name stack =>
      match classify c with
      | NameStart | NameChar => OpenName (snoc name c) stack
      | Gt => Content (Frame name EmptyString [] :: stack)
      | Slash => OpenSlash name stack
      | Space | CarriageReturn => OpenSpace name stack
      | Colon | High | HighEF => Unsupported
      | _ => Malformed
      end
  | OpenSpace name stack =>
      match classify c with
      | Space | CarriageReturn => OpenSpace name stack
      | Gt => Content (Frame name EmptyString [] :: stack)
      | Slash => OpenSlash name stack
      | NameStart | Colon | High | HighEF => Unsupported
      | _ => Malformed
      end
  | OpenSlash name stack =>
      match classify c with
      | Gt => add_child (Elem name None []) stack
      | _ => Malformed
      end
  | CloseName name stack =>
      match classify c with
      | NameStart | NameChar => CloseName (snoc name c) stack
      | Gt => close name stack
      | Space | CarriageReturn => CloseSpace name stack
      | Colon | High | HighEF => Unsupported
      | _ => Malformed
      end
  | CloseSpace name stack =>
      match classify c with
      | Space | CarriageReturn => CloseSpace name stack
      | Gt => close name stack
      | _ => Malformed
      end
  | Content stack =>
      match classify c with
      | Lt => Markup stack
      | Amp => Reference EmptyString stack
      | Gt | CarriageReturn | HighEF => Unsupported
      | Control => Malformed
      | _ => data c stack
      end
  | Reference name stack =>
      match classify c with
      | NameStart | NameChar => Reference (snoc name c) stack
      | Semi =>
          match entity name with
          | Some x => data x stack
          | None => Malformed
          end
      | Hash | Colon | High | HighEF => Unsupported
      | _ => Malformed
      end
  | Epilog root =>
      match classify c with
      | Space | CarriageReturn => Epilog root
      | Lt | High | HighEF => Unsupported
      | _ => Malformed
      end
  | Malformed => Malformed
  | Unsupported => Unsupported
  end.

Fixpoint run (st : state) (s : string) : state :=
  match s with
  | String c r => run (step st c) r
  | EmptyString => st
  end.

Definition quoted (s : string) : string :=
  String (ascii_of_nat 34) (s +:+ String (ascii_of_nat 34) EmptyString).

(** The declaration both request bodies start with. *)
Definition declaration : string :=
  "<?xml version=" +:+ quoted "1.0" +:+ " encoding=" +:+ quoted "UTF-8" +:+ "?>".

Definition finish (st : state) : outcome Element :=
  match st with
  | Epilog root => Ret root
  | Unsupported => Beyond
  | _ => Raise ParseError
  end.

Definition fromstring (s : string) : outcome Element :=
  match NsRegex.strip_prefix declaration s with
  | Some rest => finish (run Prolog rest)
  | None => finish (run Prolog s)
  end.

End Xml.

(** ** The world a call runs in, and what a call leaves behind *)

Record datetime : Type := DateTime {
  year : nat; month : nat; day : nat;
  hour : nat; minute : nat; second : nat
}.

Record Request : Type := {
  url : string;
  data : string;
  headers : gmap string string;
  method : string
}.

(** What [urllib.request.urlopen] followed by [resp.read()] gives: the body
    of the response, or an exception. The exception for an error status is
    [HTTPError code fp], where [fp] is the body still to be read. *)
Inductive reply : Type :=
| Response (raw : string)
| Failure (e : exn).

Record World : Type := {
  now : datetime;                 (* datetime.datetime.now() *)
  urandom16 : N;                  (* os.urandom(16), read as a number *)
  urlopen : Request -> reply
}.

(** What a call leaves behind. [Sent req]: [urlopen] was called with the
    request [req]; what the library does with it on the network (a redirect it
    follows is a second exchange) is its own affair. [Warned code raw]: the
    warning of line 135 was printed for the status [code] and the bytes [raw]
    that were read from the error; the printed line shows a lenient decoding
    of [raw], cut short. *)
Inductive event : Type :=
| Sent (req : Request)
| Warned (code : Z) (raw : string).

Definition call (A : Type) : Type := outcome A * list event.

Definition ret {A : Type} (a : A) : call A := (Ret a, []).

Definition lift {A : Type} (o : outcome A) : call A := (o, []).

Definition raise {A : Type} (e : exn) : call A := (Raise e, []).

Definition emit (ev : event) : call unit := (Ret tt, [ev]).

Definition cbind {A B : Type} (m : call A) (k : A -> call B) : call B :=
  match m with
  | (Ret a, t) => let '(o, t') := k a in (o, (t ++ t')%list)
  | (Raise e, t) => (Raise e, t)
  | (Beyond, t) => (Beyond, t)
  end.

Notation "'let*' x ':=' m 'in' k" := (cbind m (fun x => k))
  (at level 10, x name, m at level 100, k at level 200).

Notation "'let*' ( x , y ) ':=' m 'in' k" := (cbind m (fun p => let '(x, y) := p in k))
  (at level 10, x name, y name, m at level 100, k at level 200).

(** ** Configuration *)

Definition SSL_CERT_FILE : string := "client.crt".
Definition SSL_KEY_FILE : string := "client.key".
Definition CLINIC_HOST : string := "demo.infoclinica.ru".
Definition FILIAL_ID : Z := 1.
Definition EXTERNAL_SYSTEM_ID : string := "CRM_IDEAV".
Definition API_URL : string := "https://api.infoclinica.ru/api/xml".

Definition TEST_PATIENT : gmap string string :=
  <["LASTNAME" := "Тестов"]> (
  <["FIRSTNAME" := "Тест"]> (
  <["MIDNAME" := "Тестович"]> (
  <["EMAIL" := "test@example.com"]> (
  <["PHONE" := "+7(999)000-00-00"]> (
  <["BDATE" := "19900101"]> (
  <["GENDER" := "1"]> (
  <["CHECKMODE" := "1"]> ∅))))))).

(** ** Envelope builder *)

(** A number in decimal, padded with zeros on the left. *)
Definition zero_pad (width n : nat) : string :=
  let s := NilZero.string_of_uint (Nat.to_uint n) in
  Nat.iter (width - String.length s) (String "0") s.

(** [_now_ts()]: [strftime] with year, month, day, hour, minute, second. *)
Definition _now_ts (w : World) : string :=
  let t := now w in
  zero_pad 4 (year t) +:+ zero_pad 2 (month t) +:+ zero_pad 2 (day t)
  +:+ zero_pad 2 (hour t) +:+ zero_pad 2 (minute t) +:+ zero_pad 2 (second t).

Module Uuid.

(** [uuid.uuid4()]: sixteen random bytes with the variant and the version
    bits set. *)
Definition uuid4 (random : N) : N :=
  let i := N.land random (N.ones 128) in
  let i := N.ldiff i (N.shiftl 49152 48) in
  let i := N.lor i (N.shiftl 32768 48) in
  let i := N.ldiff i (N.shiftl 61440 64) in
  N.lor i (N.shiftl 4 76).

Definition hex_digit (n : N) : ascii :=
  match n with
  | 0 => "0" | 1 => "1" | 2 => "2" | 3 => "3" | 4 => "4" | 5 => "5" | 6 => "6" | 7 => "7"
  | 8 => "8" | 9 => "9" | 10 => "a" | 11 => "b" | 12 => "c" | 13 => "d" | 14 => "e"
  | _ => "f"
  end%N%char.

(** The lowest [digits] hexadecimal digits of [n], in front of [acc]. *)
Fixpoint hex (digits : nat) (n : N) (acc : string) : string :=
  match digits with
  | O => acc
  | S k => hex k (N.shiftr n 4) (String (hex_digit (N.land n 15)) acc)
  end.

Fixpoint substring_from (n : nat) (s : string) : string :=
  match n, s with
  | S k, String _ r => substring_from k r
  | _, _ => s
  end.

(** [str(u)]: thirty-two digits in groups of 8, 4, 4, 4 and 12. *)
Definition str (u : N) : string :=
  let h := hex 32 u EmptyString in
  Text.take 8 h +:+ "-" +:+ Text.take 4 (substring_from 8 h) +:+ "-"
  +:+ Text.take 4 (substring_from 12 h) +:+ "-"
  +:+ Text.take 4 (substring_from 16 h) +:+ "-" +:+ substring_from 20 h.

End Uuid.

(** [_msg_id()] *)
Definition _msg_id (w : World) : string :=
  Text.take 20 (Text.remove_char "-" (Uuid.str (Uuid.uuid4 (urandom16 w)))).

(** [_build_msh_xml(msg_type, filial_id)] *)
Definition _build_msh_xml (w : World) (msg_type : string) (filial_id : option Z) : string :=
  let filial_tag :=
    match filial_id with
    | Some n => "<MSH.99>" +:+ Text.str_of_int n +:+ "</MSH.99>"
    | None => ""
    end in
  "<MSH>
    <MSH.3>" +:+ EXTERNAL_SYSTEM_ID +:+ "</MSH.3>
    <MSH.7><TS.1>" +:+ _now_ts w +:+ "</TS.1></MSH.7>
    <MSH.9>
        <MSG.1>WEB</MSG.1>
        <MSG.2>" +:+ msg_type +:+ "</MSG.2>
    </MSH.9>
    <MSH.10>" +:+ _msg_id w +:+ "</MSH.10>
    <MSH.18>UTF-8</MSH.18>
    " +:+ filial_tag +:+ "
</MSH>".

(** ** Transport *)

(** What [ctx.load_verify_locations] raises when no file, no directory and
    no data is named. *)
Definition nothing_to_load : exn :=
  TypeError "cafile, capath and cadata cannot be all omitted".

(** [_ssl_context()]. After the context is made, the second line of the
    body is [ctx.load_verify_locations(cafile=None)]: it names no file, no
    directory and no data, and the library refuses such a call with a
    [TypeError] before it looks at anything else. The function therefore
    raises on every call; its remaining lines, which switch the verification
    off and load the certificate and the key, are never reached. *)
Definition _ssl_context : call unit := raise nothing_to_load.

(** [exc.read()] on an [HTTPError]: what was read, and what is left. *)
Definition read (fp : string) : string * string := (fp, EmptyString).

(** The request [_send_request] builds: headers, encoded body, POST. *)
Definition request_for (xml_body : string) (filial_id : option Z) : Request :=
  let headers : gmap string string :=
    <["Content-Type" := "application/xml; charset=utf-8"]> (
    <["Accept" := "application/xml"]> ∅) in
  let headers :=
    match filial_id with
    | Some _ => <["X-Forwarded-Host" := CLINIC_HOST]> headers
    | None => headers
    end in
  let data := xml_body in
  {| url := API_URL; data := data; headers := headers; method := "POST" |}.

(** The three steps from the bytes of a response to its tree. *)
Definition parse_response (raw : string) : outcome Element :=
  bind (Utf8.decode raw) (fun xml_str =>
  bind (NsRegex.strip_namespaces xml_str) (fun xml_str =>
  Xml.fromstring xml_str)).

(** The [try] block of [_send_request] (lines 130 to 136): [urlopen] is
    called with the request and the answer is read. On an [HTTPError] the
    body is read from the error, the warning is printed, and the same error,
    now read to its end, is raised again; any other exception passes. *)
Definition fetch (w : World) (req : Request) : call string :=
  let* _ := emit (Sent req) in
  match urlopen w req with
  | Response raw => ret raw
  | Failure (HTTPError code fp) =>
      let '(raw, fp') := read fp in
      let* _ := emit (Warned code raw) in
      raise (HTTPError code fp')
  | Failure e => raise e
  end.

(** [_send_request(xml_body, filial_id)] *)
Definition _send_request (w : World) (xml_body : string) (filial_id : option Z)
  : call Element :=
  let req := request_for xml_body filial_id in
  let* ctx := _ssl_context in
  let* raw := fetch w req in
  lift (parse_response raw).

(** ** Operations *)

(** One change record: the comprehension over the children of a node. *)
Definition change_of (node : Element) : gmap string string :=
  fold_left (fun d child => <[tag child := Text.strip (text_or_empty child)]> d)
            (children node) ∅.

(** The body of the request of [clients_change_list]. *)
Definition clients_change_list_body (msh : string) : string :=
  Xml.declaration +:+ "
<WEB_CLIENTS_CHANGE_LIST xmlns=" +:+ Xml.quoted "http://sdsys.ru/" +:+ ">
    " +:+ msh +:+ "
    <CLIENTS_CHANGE_LIST_IN/>
</WEB_CLIENTS_CHANGE_LIST>".

(** [clients_change_list] from line 185 on: what it makes of the parsed
    response [root]. *)
Definition clients_change_list_result (root : Element)
  : outcome (list (gmap string string)) :=
  let ok := _check_msa root "CLIENTS_CHANGE_LIST" in
  bind (_spresult root "CLIENTS_CHANGE_LIST_OUT") (fun rc =>
  let '(result, comment) := rc in
  let changes :=
    if ok && (result =? 1)
    then map change_of (findall root [Descendant "CLIENT_CHANGE_INFO"])
    else [] in
  Ret changes).

(** [clients_change_list(filial_id)] *)
Definition clients_change_list (w : World) (filial_id : Z) : call (list (gmap string string)) :=
  let msh := _build_msh_xml w "CLIENTS_CHANGE_LIST" (Some filial_id) in
  let xml_body := clients_change_list_body msh in
  let* root := _send_request w xml_body (Some filial_id) in
  lift (clients_change_list_result root).

(** [patient[key]] *)
Definition subscript (patient : gmap string string) (key : string) : outcome string :=
  match patient !! key with
  | Some v => Ret v
  | None => Raise (KeyError key)
  end.

(** The local function [_opt] of [client_add]. *)
Definition _opt (patient : gmap string string) (key : string) : string :=
  let val := default "" (patient !! key) in
  match val with
  | EmptyString => ""
  | _ => "<" +:+ key +:+ ">" +:+ val +:+ "</" +:+ key +:+ ">"
  end.

Record Registration : Type := {
  pcode : string;
  spresult : Z;
  spcomment : string
}.

(** The body of the request of [client_add]: the formatted string, whose
    evaluation looks the three required keys up in this order. *)
Definition client_add_body (msh : string) (patient : gmap string string) : outcome string :=
  bind (subscript patient "LASTNAME") (fun lastname =>
  bind (subscript patient "FIRSTNAME") (fun firstname =>
  bind (subscript patient "BDATE") (fun bdate =>
  Ret (Xml.declaration +:+ "
<WEB_CLIENT_ADD xmlns=" +:+ Xml.quoted "http://sdsys.ru/" +:+ ">
    " +:+ msh +:+ "
    <CLIENT_ADD_IN>
        <LASTNAME>" +:+ lastname +:+ "</LASTNAME>
        <FIRSTNAME>" +:+ firstname +:+ "</FIRSTNAME>
        " +:+ _opt patient "MIDNAME" +:+ "
        " +:+ _opt patient "EMAIL" +:+ "
        " +:+ _opt patient "PHONE" +:+ "
        <BDATE>" +:+ bdate +:+ "</BDATE>
        " +:+ _opt patient "GENDER" +:+ "
        " +:+ _opt patient "SNILS" +:+ "
        " +:+ _opt patient "NSP" +:+ "
        " +:+ _opt patient "CHECKMODE" +:+ "
        " +:+ _opt patient "REFUSECALL" +:+ "
        " +:+ _opt patient "REFUSESMS" +:+ "
    </CLIENT_ADD_IN>
</WEB_CLIENT_ADD>")))).

(** [client_add] from line 260 on: what it makes of the parsed response
    [root]. *)
Definition client_add_result (root : Element) : outcome Registration :=
  let ok := _check_msa root "CLIENT_ADD" in
  bind (_spresult root "CLIENT_ADD_OUT") (fun rc =>
  let '(result, comment) := rc in
  let pcode := findtext root [Descendant "CLIENT_ADD_OUT"; Child "PCODE"] "" in
  Ret {| pcode := pcode; spresult := result; spcomment := comment |}).

(** [client_add(patient)] *)
Definition client_add (w : World) (patient : option (gmap string string)) : call Registration :=
  let patient := default TEST_PATIENT patient in
  let msh := _build_msh_xml w "CLIENT_ADD" None in
  let* xml_body := lift (client_add_body msh patient) in
  let* root := _send_request w xml_body None in
  lift (client_add_result root).

(** ** Entry point *)

Module Main.

(** The arguments, as [parse_args] returns them. *)
Record Args : Type := {
  get_changes : bool;
  add_patient : bool;
  all : bool;
  filial : Z;
  patient : option string
}.

(** What [json.loads] returns: a mapping from strings to strings, [None]
    for the text null, or a value of another shape. *)
Inductive value : Type :=
| Mapping (d : gmap string string)
| Null
| OtherValue.

(** How [json.loads] ends: with a value, with the [JSONDecodeError] that
    [main] catches, or in another way, which is not transcribed. *)
Inductive decoded : Type :=
| Value (v : value)
| JSONDecodeError
| OtherEnd.

(** How [main] ends: at its last line, or in [sys.exit]. *)
Inductive ending : Type :=
| Returned
| Exited (status : Z).

(** [try: ... except Exception as exc: print(...)] around a call. *)
Definition attempt {A : Type} (c : call A) : call unit :=
  match c with
  | (Beyond, t) => (Beyond, t)
  | (_, t) => (Ret tt, t)
  end.

(** [client_add(patient=patient_data)]; what the call does with a value
    that is no mapping from strings to strings is not transcribed. *)
Definition client_add_with (w : World) (patient_data : option value) : call Registration :=
  match patient_data with
  | None | Some Null => client_add w None
  | Some (Mapping d) => client_add w (Some d)
  | Some OtherValue => lift Beyond
  end.

(** The block that reads the patient. *)
Inductive read : Type :=
| Data (patient_data : option value)
| Exit1
| NotTranscribed.

Section Main.

Variable json_loads : string -> decoded.

(** The world at the time of the first operation and at the time of the
    second. *)
Variables first second : World.

Definition load (args : Args) : read :=
  match patient args with
  | Some (String _ _ as text) =>
      match json_loads text with
      | Value v => Data (Some v)
      | JSONDecodeError => Exit1
      | OtherEnd => NotTranscribed
      end
  | _ => Data None
  end.

Definition operations (args : Args) (patient_data : option value) : call ending :=
  let* _ :=
    if get_changes args || all args
    then attempt (clients_change_list first (filial args))
    else ret tt in
  let* _ :=
    if add_patient args || all args
    then attempt (client_add_with second patient_data)
    else ret tt in
  ret Returned.

(** [main()], after [parse_args]. *)
Definition main (args : Args) : call ending :=
  if negb (get_changes args || add_patient args || all args) then ret (Exited 0)
  else
    match load args with
    | Data patient_data => operations args patient_data
    | Exit1 => ret (Exited 1)
    | NotTranscribed => lift Beyond
    end.

End Main.

End Main.

(** ** Notions used to state the properties *)

(** The number of elements named [name] below [e], at any depth. *)
Fixpoint count_elements (name : string) (e : Element) : nat :=
  match e with
  | Elem _ _ kids =>
      list_sum (map (fun k => ((if has_tag name k then 1 else 0) + count_elements name k)%nat) kids)
  end.

Definition required_fields : list string := ["LASTNAME"; "FIRSTNAME"; "BDATE"].

Definition optional_fields : list string :=
  ["MIDNAME"; "EMAIL"; "PHONE"; "GENDER"; "SNILS"; "NSP"; "CHECKMODE"; "REFUSECALL"; "REFUSESMS"].

(** The value of a field, the empty string when the key is absent:
    [patient.get(key, "")]. *)
Definition field (patient : gmap string string) (key : string) : string :=
  default "" (patient !! key).

(** A byte that the parser takes as character data as it stands and that is
    no double quote. *)
Definition xml_plain (c : ascii) : bool :=
  match Xml.classify c with
  | Xml.Lt | Xml.Gt | Xml.Amp | Xml.CarriageReturn | Xml.Control | Xml.HighEF => false
  | _ => negb (Ascii.eqb c NsRegex.dquote)
  end.

(** Text that needs no escaping: well-formed UTF-8 made of such bytes. *)
Definition plain_text (s : string) : bool :=
  Utf8.well_formed s && Text.all_chars xml_plain s.

Definition not_lt (c : ascii) : bool := negb (Ascii.eqb c "<").

Definition no_lt (s : string) : bool := Text.all_chars not_lt s.

Definition is_hex (c : ascii) : bool := Text.between 48 57 c || Text.between 97 102 c.

(** The indentation of the request bodies. *)
Definition indent0 : string := "
".

Definition indent4 : string := "
    ".

Definition indent8 : string := "
        ".

Definition open_tag (key : string) : string := "<" +:+ key +:+ ">".

Definition close_tag (key : string) : string := "</" +:+ key +:+ ">".

(** The element the body holds for a field with the value [v]. *)
Definition element (key v : string) : string :=
  "<" +:+ key +:+ ">" +:+ v +:+ "</" +:+ key +:+ ">".

Definition not_quote (c : ascii) : bool := negb (Ascii.eqb c NsRegex.dquote).

Definition is_ascii (c : ascii) : bool := negb (Text.non_ascii c).

(** A name the parser accepts as a tag. *)
Definition name_char (c : ascii) : bool :=
  match Xml.classify c with
  | Xml.NameStart | Xml.NameChar => true
  | _ => false
  end.

Definition is_name (s : string) : bool :=
  match s with
  | String c r =>
      match Xml.classify c with
      | Xml.NameStart => Text.all_chars name_char r
      | _ => false
      end
  | EmptyString => false
  end.

(** ** The tree of a CLIENT_ADD body *)

(** An element without children that received the character data [v]. *)
Definition leaf (key v : string) : Element := Elem key (Xml.text_of v) [].

(** The elements an optional field gives: none or one. *)
Definition slot (patient : gmap string string) (key : string) : list Element :=
  match field patient key with
  | EmptyString => []
  | v => [leaf key v]
  end.

Definition header_tree (w : World) (msg_type : string) : Element :=
  Elem "MSH" (Some "
    ")
    [ leaf "MSH.3" EXTERNAL_SYSTEM_ID;
      Elem "MSH.7" None [leaf "TS.1" (_now_ts w)];
      Elem "MSH.9" (Some "
        ") [leaf "MSG.1" "WEB"; leaf "MSG.2" msg_type];
      leaf "MSH.10" (_msg_id w);
      leaf "MSH.18" "UTF-8" ].

Definition fields_tree (patient : gmap string string) : list Element :=
  [leaf "LASTNAME" (field patient "LASTNAME")]
  ++ [leaf "FIRSTNAME" (field patient "FIRSTNAME")]
  ++ slot patient "MIDNAME"
  ++ slot patient "EMAIL"
  ++ slot patient "PHONE"
  ++ [leaf "BDATE" (field patient "BDATE")]
  ++ slot patient "GENDER"
  ++ slot patient "SNILS"
  ++ slot patient "NSP"
  ++ slot patient "CHECKMODE"
  ++ slot patient "REFUSECALL"
  ++ slot patient "REFUSESMS".

Definition client_add_tree (w : World) (patient : gmap string string) : Element :=
  Elem "WEB_CLIENT_ADD" (Some "
    ")
    [ header_tree w "CLIENT_ADD";
      Elem "CLIENT_ADD_IN" (Some "
        ") (fields_tree patient) ].

(** What follows the closing bracket of the root tag in the body of
    [client_add], cut into tags, elements, slots and indentation. *)
Definition client_add_content (msh lastname firstname bdate : string)
    (patient : gmap string string) : string :=
  indent4 +:+ msh +:+ indent4
  +:+ open_tag "CLIENT_ADD_IN" +:+ indent8
  +:+ element "LASTNAME" lastname +:+ indent8
  +:+ element "FIRSTNAME" firstname +:+ indent8
  +:+ _opt patient "MIDNAME" +:+ indent8
  +:+ _opt patient "EMAIL" +:+ indent8
  +:+ _opt patient "PHONE" +:+ indent8
  +:+ element "BDATE" bdate +:+ indent8
  +:+ _opt patient "GENDER" +:+ indent8
  +:+ _opt patient "SNILS" +:+ indent8
  +:+ _opt patient "NSP" +:+ indent8
  +:+ _opt patient "CHECKMODE" +:+ indent8
  +:+ _opt patient "REFUSECALL" +:+ indent8
  +:+ _opt patient "REFUSESMS" +:+ indent4
  +:+ close_tag "CLIENT_ADD_IN" +:+ indent0
  +:+ close_tag "WEB_CLIENT_ADD".

(** ** Worlds and documents used as examples *)

Definition an_instant : datetime := DateTime 2026 11 4 9 5 7.

(** A server that answers every request with [raw]. *)
Definition canned (raw : string) : World :=
  {| now := an_instant; urandom16 := 0%N;
     urlopen := fun _ => Response raw |}.

(** A server that sends every request back. *)
Definition echo : World :=
  {| now := an_instant; urandom16 := 0%N;
     urlopen := fun req => Response (data req) |}.

(** A server that answers every request with an error status. *)
Definition failing (code : Z) (body : string) : World :=
  {| now := an_instant; urandom16 := 0%N;
     urlopen := fun _ => Failure (HTTPError code body) |}.

Definition rejected_with_pcode : string :=
  "<WEB_CLIENT_ADD>
  <MSA><MSA.1>AE</MSA.1><MSA.3>rejected</MSA.3></MSA>
  <CLIENT_ADD_OUT>
    <SPRESULT>0</SPRESULT>
    <SPCOMMENT>duplicate</SPCOMMENT>
    <PCODE>123</PCODE>
  </CLIENT_ADD_OUT>
</WEB_CLIENT_ADD>".

Definition registered : string :=
  "<WEB_CLIENT_ADD>
  <MSA><MSA.1>AA</MSA.1></MSA>
  <CLIENT_ADD_OUT>
    <SPRESULT>1</SPRESULT>
    <SPCOMMENT>ok</SPCOMMENT>
    <PCODE>777</PCODE>
  </CLIENT_ADD_OUT>
</WEB_CLIENT_ADD>".

Definition no_acknowledgment : string :=
  "<WEB_CLIENTS_CHANGE_LIST>
  <CLIENTS_CHANGE_LIST_OUT>
    <SPRESULT>1</SPRESULT>
    <CLIENT_CHANGE_INFO><CHANGEID>1</CHANGEID></CLIENT_CHANGE_INFO>
  </CLIENTS_CHANGE_LIST_OUT>
</WEB_CLIENTS_CHANGE_LIST>".

Definition comment_without_result : string :=
  "<WEB_CLIENTS_CHANGE_LIST>
  <MSA><MSA.1>AA</MSA.1></MSA>
  <CLIENTS_CHANGE_LIST_OUT>
    <SPCOMMENT>busy</SPCOMMENT>
  </CLIENTS_CHANGE_LIST_OUT>
</WEB_CLIENTS_CHANGE_LIST>".

Definition three_changes : string :=
  "<WEB_CLIENTS_CHANGE_LIST>
  <MSA><MSA.1>AA</MSA.1></MSA>
  <CLIENTS_CHANGE_LIST_OUT>
    <SPRESULT>1</SPRESULT>
    <SPCOMMENT>ok</SPCOMMENT>
    <CLIENT_CHANGE_INFO><CHANGEID> 1 </CHANGEID><PCODE>10</PCODE></CLIENT_CHANGE_INFO>
    <CLIENT_CHANGE_INFO><CHANGEID>2</CHANGEID><PCODE/></CLIENT_CHANGE_INFO>
    <CLIENT_CHANGE_INFO><CHANGEID>3</CHANGEID><LASTNAME>
      Ivanov </LASTNAME></CLIENT_CHANGE_INFO>
  </CLIENTS_CHANGE_LIST_OUT>
</WEB_CLIENTS_CHANGE_LIST>".

Definition rejected_changes : string :=
  "<WEB_CLIENTS_CHANGE_LIST>
  <MSA><MSA.1>AE</MSA.1><MSA.3>no access</MSA.3></MSA>
  <CLIENTS_CHANGE_LIST_OUT>
    <SPRESULT>1</SPRESULT>
    <CLIENT_CHANGE_INFO><CHANGEID>1</CHANGEID></CLIENT_CHANGE_INFO>
  </CLIENTS_CHANGE_LIST_OUT>
</WEB_CLIENTS_CHANGE_LIST>".

(** The tree of a canned document. *)
Definition tree (raw : string) : Element :=
  match parse_response raw with
  | Ret root => root
  | _ => Elem "" None []
  end.

Definition only_required : gmap string string :=
  <["LASTNAME" := "Ivanov"]> (<["FIRSTNAME" := "Ivan"]> (<["BDATE" := "19850315"]> ∅)).

Definition with_ampersand : gmap string string :=
  <["LASTNAME" := "Black & Sons"]> (<["FIRSTNAME" := "Ivan"]> (<["BDATE" := "19850315"]> ∅)).

Definition with_markup : gmap string string :=
  <["LASTNAME" := "Ivanov</LASTNAME><EMAIL>x@example.com</EMAIL><LASTNAME>Petrov"]> (
  <["FIRSTNAME" := "Ivan"]> (<["BDATE" := "19850315"]> ∅)).

Definition no_birth_date : gmap string string :=
  <["LASTNAME" := "Ivanov"]> (<["FIRSTNAME" := "Ivan"]> ∅).

(** ** Further notions and examples *)

(** The requests a call has sent, in order. *)
Definition sent_requests (trace : list event) : list Request :=
  flat_map (fun ev => match ev with Sent req => [req] | Warned _ _ => [] end) trace.

Definition is_http_error (e : exn) : bool :=
  match e with
  | HTTPError _ _ => true
  | _ => false
  end.

(** A world in which the server cannot be reached. *)
Definition unreachable : World :=
  {| now := an_instant; urandom16 := 0%N;
     urlopen := fun _ => Failure (OSError "timed out") |}.

Definition acknowledged_only : string :=
  "<WEB_CLIENT_ADD><MSA><MSA.1>AA</MSA.1></MSA></WEB_CLIENT_ADD>".

Definition with_unknown_key : gmap string string :=
  <["NOTE" := "<urgent>"]> only_required.

(** ** Notions and examples for the envelope, the parse path and the entry point *)

(** An output section with white space around the result code. *)
Definition padded_result : Element :=
  Elem "WEB_CLIENT_ADD" None
    [Elem "CLIENT_ADD_OUT" None
       [Elem "SPRESULT" (Some " -17
") []; Elem "SPCOMMENT" (Some "late") []]].

(** The ranges of the fields of a [datetime], for the years that
    [strftime] writes with four digits on every platform. *)
Definition in_range (t : datetime) : Prop :=
  (1000 <= year t <= 9999 /\ month t <= 12 /\ day t <= 31
   /\ hour t <= 23 /\ minute t <= 59 /\ second t <= 59)%nat.

(** A world with the given random bytes. *)
Definition with_random (r : N) : World :=
  {| now := an_instant; urandom16 := r;
     urlopen := fun req => Response (data req) |}.

(** The element the header holds for the branch: none or one. *)
Definition branch_tree (filial_id : option Z) : list Element :=
  match filial_id with
  | Some n => [leaf "MSH.99" (Text.str_of_int n)]
  | None => []
  end.

(** The tree of the header for a message type and a branch. *)
Definition msh_tree (w : World) (msg_type : string) (filial_id : option Z) : Element :=
  Elem "MSH" (Some indent4) (children (header_tree w msg_type) ++ branch_tree filial_id).

(** The tree of the request of [clients_change_list]. *)
Definition change_list_tree (w : World) (filial_id : Z) : Element :=
  Elem "WEB_CLIENTS_CHANGE_LIST" (Some indent4)
    [ msh_tree w "CLIENTS_CHANGE_LIST" (Some filial_id);
      Elem "CLIENTS_CHANGE_LIST_IN" None [] ].

(** The header, cut into tags, elements and indentation: what follows the
    opening tag. *)
Definition branch_element (filial_id : option Z) : string :=
  match filial_id with
  | Some n => element "MSH.99" (Text.str_of_int n)
  | None => ""
  end.

Definition msh_content (w : World) (msg_type : string) (filial_id : option Z) : string :=
  indent4
  +:+ element "MSH.3" EXTERNAL_SYSTEM_ID +:+ indent4
  +:+ open_tag "MSH.7" +:+ element "TS.1" (_now_ts w) +:+ close_tag "MSH.7" +:+ indent4
  +:+ open_tag "MSH.9" +:+ indent8
  +:+ element "MSG.1" "WEB" +:+ indent8
  +:+ element "MSG.2" msg_type +:+ indent4
  +:+ close_tag "MSH.9" +:+ indent4
  +:+ element "MSH.10" (_msg_id w) +:+ indent4
  +:+ element "MSH.18" "UTF-8" +:+ indent4
  +:+ branch_element filial_id +:+ indent0
  +:+ close_tag "MSH".

(** A byte below U+0080 that is no white space: no match of the pattern
    of [_send_request] starts at it. *)
Definition solid (c : ascii) : bool := is_ascii c && negb (Text.space1 c).

(** A declaration of the default namespace, with the white space in front
    of it. *)
Definition xmlns (space uri : string) : string :=
  space +:+ "xmlns=" +:+ Xml.quoted uri.

(** What follows the name of the root in an acknowledged response. *)
Definition after_root : string := "><MSA><MSA.1>AA</MSA.1></MSA></WEB_CLIENT_ADD>".

(** A change event that names LASTNAME twice. *)
Definition padded_change : Element :=
  Elem "CLIENT_CHANGE_INFO" None
    [Elem "LASTNAME" (Some " Ivanov ") []; Elem "LASTNAME" (Some "
  Petrov") []].

(** A command line that asks for both operations and gives no patient. *)
Definition both_operations : Main.Args :=
  {| Main.get_changes := false; Main.add_patient := false; Main.all := true;
     Main.filial := FILIAL_ID; Main.patient := None |}.

(** A decoder that is never reached. *)
Definition no_json (text : string) : Main.decoded := Main.JSONDecodeError.

(** ** White space at the ends of a text *)

Section Leading.

Variable p1 : ascii -> bool.
Variable p2 : ascii -> ascii -> bool.
Variable p3 : ascii -> ascii -> ascii -> bool.

(** The text starts with one byte that [p1] accepts, with two that [p2]
    accepts or with three that [p3] accepts. *)
Definition leading (s : string) : bool :=
  match s with
  | String a r =>
      p1 a
      || match r with
         | String b r' =>
             p2 a b
             || match r' with
                | String c _ => p3 a b c
                | EmptyString => false
                end
         | EmptyString => false
         end
  | EmptyString => false
  end.

End Leading.

(** The first character of the text is white space. *)
Definition starts_with_space (s : string) : bool :=
  leading Text.space1 Text.space2 Text.space3 s.

(** The last character of the text is white space: the bytes are looked at
    from the end. *)
Definition ends_with_space (s : string) : bool :=
  leading Text.space1 (fun b a => Text.space2 a b) (fun c b a => Text.space3 a b c)
    (Text.rev s).

(** The text is made of white space characters and of nothing else. *)
Fixpoint white_space (s : string) : bool :=
  match s with
  | EmptyString => true
  | String a s1 =>
      if Text.space1 a then white_space s1 else
      match s1 with
      | String b s2 =>
          if Text.space2 a b then white_space s2 else
          match s2 with
          | String c s3 => Text.space3 a b c && white_space s3
          | EmptyString => false
          end
      | EmptyString => false
      end
  end.

(** ** Further documents used as examples *)

(** A response that is not acknowledged and whose result code is no
    number. *)
Definition unreadable_result : string :=
  "<WEB_CLIENTS_CHANGE_LIST><MSA><MSA.1>AE</MSA.1></MSA><CLIENTS_CHANGE_LIST_OUT><SPRESULT>ERR</SPRESULT></CLIENTS_CHANGE_LIST_OUT></WEB_CLIENTS_CHANGE_LIST>".

(** An acknowledged registration whose result code is written with a
    fraction. *)
Definition fractional_result : string :=
  "<WEB_CLIENT_ADD><MSA><MSA.1>AA</MSA.1></MSA><CLIENT_ADD_OUT><SPRESULT>1.0</SPRESULT><PCODE>5</PCODE></CLIENT_ADD_OUT></WEB_CLIENT_ADD>".

(** An output section whose comment element has no text. *)
Definition empty_comment : string :=
  "<WEB_CLIENT_ADD><CLIENT_ADD_OUT><SPCOMMENT/></CLIENT_ADD_OUT></WEB_CLIENT_ADD>".

Definition a_request : Request := request_for "<request/>" None.

(** * Properties *)

(** ** The library models on small inputs *)

Example int_plain : PyInt.int "1" = Ret 1.
Proof. reflexivity. Qed.

Example int_sentinel : PyInt.int "-999" = Ret (-999).
Proof. reflexivity. Qed.

Example int_spaces : PyInt.int "  +1_000
" = Ret 1000.
Proof. reflexivity. Qed.

Example int_doubled_underscore : PyInt.int "1__0" = Raise (ValueError "1__0").
Proof. reflexivity. Qed.

Example int_word : PyInt.int "OK" = Raise (ValueError "OK").
Proof. reflexivity. Qed.

Example strip_both_sides : Text.strip "  Ivanov 	" = "Ivanov".
Proof. reflexivity. Qed.

Example str_of_int_negative : Text.str_of_int (-42) = "-42".
Proof. reflexivity. Qed.

Example uuid_all_ones : Uuid.str (Uuid.uuid4 (N.ones 128)) = "ffffffff-ffff-4fff-bfff-ffffffffffff".
Proof. reflexivity. Qed.

Example now_ts_an_instant : _now_ts echo = "20261104090507".
Proof. reflexivity. Qed.

Example strip_namespaces_root :
  NsRegex.strip_namespaces
    ("<R xmlns=" +:+ Xml.quoted "http://sdsys.ru/" +:+ " xmlns:xsi=" +:+ Xml.quoted "u"
       +:+ "><A>1</A></R>")
  = Ret "<R><A>1</A></R>".
Proof. reflexivity. Qed.

Example fromstring_small :
  Xml.fromstring "<R>
  <MSA><MSA.1>AA</MSA.1></MSA>
  <E/>
  <T> a &amp; b </T>
</R>
" = Ret (Elem "R" (Some "
  ")
          [Elem "MSA" None [Elem "MSA.1" (Some "AA") []];
           Elem "E" None [];
           Elem "T" (Some " a & b ") []]).
Proof. reflexivity. Qed.

Example fromstring_bare_ampersand : Xml.fromstring "<R>A&B</R>" = Raise ParseError.
Proof. reflexivity. Qed.

Example fromstring_mismatch : Xml.fromstring "<R><A></R></A>" = Raise ParseError.
Proof. reflexivity. Qed.

Example fromstring_attribute : Xml.fromstring "<R a='1'/>" = Beyond.
Proof. reflexivity. Qed.

Example decode_rejects_a_lone_continuation_byte :
  Utf8.decode (String (ascii_of_nat 128) "") = Raise UnicodeDecodeError.
Proof. reflexivity. Qed.

Example test_patient_body_parses :
  bind (client_add_body (_build_msh_xml echo "CLIENT_ADD" None) TEST_PATIENT) parse_response
  = Ret (client_add_tree echo TEST_PATIENT).
Proof. vm_compute. reflexivity. Qed.

(** ** The call monad *)

Lemma snd_cbind_raise {A B : Type} (m : call A) (k : A -> call B) e :
  fst m = Raise e -> cbind m k = (Raise e, snd m).
Proof. destruct m as [[a|e'|] t]; simpl; intros H; congruence. Qed.

(** ** Element trees *)

Lemma Element_forall_ind (P : Element -> Prop)
  (step : forall t x kids, Forall P kids -> P (Elem t x kids)) (e : Element) : P e.
Proof.
  revert e. fix IH 1. intros [t x kids]. apply step.
  revert kids. fix IHkids 1. intros [|k l].
  - constructor.
  - constructor; [apply IH | apply IHkids].
Qed.

Lemma iter_unfold e : iter e = e :: flat_map iter (children e).
Proof. destruct e; reflexivity. Qed.

Lemma length_filter_iter name e :
  length (filter (fun d => has_tag name d = true) (iter e))
  = ((if has_tag name e then 1 else 0) + count_elements name e)%nat.
Proof.
  induction e as [t x kids IH] using Element_forall_ind.
  rewrite iter_unfold. simpl children.
  assert (Hkids : length (filter (fun d => has_tag name d = true) (flat_map iter kids))
                  = count_elements name (Elem t x kids)).
  { simpl. induction IH as [|k l Hk _ IHl]; [reflexivity|].
    simpl. rewrite filter_app, length_app, Hk, IHl. reflexivity. }
  rewrite <- Hkids.
  destruct (has_tag name (Elem t x kids)) eqn:E.
  - rewrite filter_cons_True by exact E. reflexivity.
  - rewrite filter_cons_False by (rewrite E; discriminate). reflexivity.
Qed.

(** [findall] with a [//name] path finds as many elements as the tree has
    below its root. *)
Lemma length_findall_descendant name root :
  length (findall root [Descendant name]) = count_elements name root.
Proof.
  unfold findall, iterfind. simpl. rewrite app_nil_r.
  destruct root as [t x kids]. simpl.
  induction kids as [|k l IHl]; [reflexivity|].
  simpl. rewrite filter_app, length_app, IHl, length_filter_iter. reflexivity.
Qed.

(** A change record maps a name to the stripped text of the last child
    that bears it. *)
Lemma fold_insert_lookup (kids : list Element) (d : gmap string string) name :
  fold_left (fun d child => <[tag child := Text.strip (text_or_empty child)]> d) kids d !! name
  = match last (filter (fun c => has_tag name c = true) kids) with
    | Some c => Some (Text.strip (text_or_empty c))
    | None => d !! name
    end.
Proof.
  revert d. induction kids as [|k l IH]; intros d; [reflexivity|].
  simpl fold_left. rewrite IH.
  destruct (has_tag name k) eqn:E.
  - rewrite filter_cons_True by exact E. rewrite last_cons.
    destruct (last (filter _ l)); [reflexivity|].
    unfold has_tag in E. apply String.eqb_eq in E. subst name.
    apply lookup_insert_eq.
  - rewrite filter_cons_False by (rewrite E; discriminate).
    destruct (last (filter _ l)); [reflexivity|].
    unfold has_tag in E. apply String.eqb_neq in E.
    apply lookup_insert_ne. exact E.
Qed.

Lemma change_of_lookup node name :
  change_of node !! name
  = (fun c => Text.strip (text_or_empty c))
      <$> last (filter (fun c => has_tag name c = true) (children node)).
Proof.
  unfold change_of. rewrite fold_insert_lookup.
  destruct (last _); [reflexivity|]. apply lookup_empty.
Qed.

(** ** Response validation *)

Lemma int_raises_value_error s e : PyInt.int s = Raise e -> e = ValueError s.
Proof.
  unfold PyInt.int. destruct (Text.any_char _ s); [discriminate|].
  destruct (PyInt.signed _) as [sign body].
  destruct body as [|c body']; [congruence|].
  destruct (Text.is_byte 95 c); [congruence|].
  destruct (PyInt.digits _ _ _ _) as [[[count value] rest]|]; [|congruence].
  destruct count; [congruence|].
  destruct (PyInt.skip_space rest); [|congruence].
  destruct (Nat.ltb _ _); discriminate.
Qed.

Lemma spresult_raises_value_error root out_tag e :
  _spresult root out_tag = Raise e ->
  e = ValueError (findtext root [Descendant out_tag; Child "SPRESULT"] "-999").
Proof.
  unfold _spresult.
  destruct (String.eqb _ "") eqn:E; simpl; [discriminate|].
  destruct (PyInt.int _) eqn:I; simpl; try discriminate.
  intros H. injection H as <-. eapply int_raises_value_error. exact I.
Qed.

Lemma check_msa_true root method :
  _check_msa root method = true <-> findtext root [Descendant "MSA.1"] "" = "AA".
Proof.
  unfold _check_msa. destruct (String.eqb _ "AA") eqn:E.
  - apply String.eqb_eq in E. tauto.
  - apply String.eqb_neq in E. split; [discriminate|tauto].
Qed.

Lemma findtext_absent root path default :
  find root path = None -> findtext root path default = default.
Proof. unfold findtext. intros ->. reflexivity. Qed.

Lemma check_msa_absent root method :
  find root [Descendant "MSA.1"] = None -> _check_msa root method = false.
Proof.
  intros H. unfold _check_msa. rewrite (findtext_absent _ _ _ H). reflexivity.
Qed.

Lemma spresult_absent root out_tag :
  find root [Descendant out_tag; Child "SPRESULT"] = None ->
  _spresult root out_tag
  = Ret (-999, findtext root [Descendant out_tag; Child "SPCOMMENT"] "").
Proof.
  intros H. unfold _spresult. rewrite (findtext_absent _ _ _ H). reflexivity.
Qed.

Lemma findall_descendant root name :
  findall root [Descendant name]
  = filter (fun d => has_tag name d = true) (List.tl (iter root)).
Proof.
  unfold findall, iterfind. simpl. rewrite app_nil_r.
  rewrite iter_unfold. reflexivity.
Qed.

(** ** The calls as they are written *)

Lemma send_request_raises w xml_body filial_id :
  _send_request w xml_body filial_id = (Raise nothing_to_load, []).
Proof. reflexivity. Qed.

Lemma clients_change_list_raises w filial_id :
  clients_change_list w filial_id = (Raise nothing_to_load, []).
Proof. reflexivity. Qed.

Lemma client_add_ends w patient :
  client_add w patient
  = match client_add_body (_build_msh_xml w "CLIENT_ADD" None)
            (default TEST_PATIENT patient) with
    | Ret _ => (Raise nothing_to_load, [])
    | Raise e => (Raise e, [])
    | Beyond => (Beyond, [])
    end.
Proof.
  unfold client_add, lift. destruct (client_add_body _ _); reflexivity.
Qed.

(** ** The try block of the transport *)

Lemma fetch_response w req raw :
  urlopen w req = Response raw -> fetch w req = (Ret raw, [Sent req]).
Proof. intros H. unfold fetch. simpl. rewrite H. reflexivity. Qed.

Lemma fetch_http_error w req code body :
  urlopen w req = Failure (HTTPError code body) ->
  fetch w req = (Raise (HTTPError code ""), [Sent req; Warned code body]).
Proof. intros H. unfold fetch. simpl. rewrite H. reflexivity. Qed.

Lemma fetch_other_error w req e :
  urlopen w req = Failure e -> is_http_error e = false ->
  fetch w req = (Raise e, [Sent req]).
Proof.
  intros H He. unfold fetch. simpl. rewrite H.
  destruct e; try discriminate He; reflexivity.
Qed.

Lemma fetch_sent w req : sent_requests (snd (fetch w req)) = [req].
Proof.
  unfold fetch. simpl. destruct (urlopen w req) as [raw|e]; [reflexivity|].
  destruct e; reflexivity.
Qed.

(** ** What the operations make of a parsed response *)

Lemma clients_change_list_result_ret root result comment :
  _spresult root "CLIENTS_CHANGE_LIST_OUT" = Ret (result, comment) ->
  clients_change_list_result root
  = Ret (if _check_msa root "CLIENTS_CHANGE_LIST" && (result =? 1)
         then map change_of (findall root [Descendant "CLIENT_CHANGE_INFO"])
         else []).
Proof. intros H. unfold clients_change_list_result. rewrite H. reflexivity. Qed.

Lemma clients_change_list_result_raise root e :
  clients_change_list_result root = Raise e
  <-> _spresult root "CLIENTS_CHANGE_LIST_OUT" = Raise e.
Proof.
  unfold clients_change_list_result.
  destruct (_spresult root _) as [[r c]|e'|]; simpl; split; congruence.
Qed.

Lemma client_add_result_ret root result comment :
  _spresult root "CLIENT_ADD_OUT" = Ret (result, comment) ->
  client_add_result root
  = Ret {| pcode := findtext root [Descendant "CLIENT_ADD_OUT"; Child "PCODE"] "";
           spresult := result; spcomment := comment |}.
Proof. intros H. unfold client_add_result. rewrite H. reflexivity. Qed.

Lemma client_add_result_raise root e :
  client_add_result root = Raise e <-> _spresult root "CLIENT_ADD_OUT" = Raise e.
Proof.
  unfold client_add_result.
  destruct (_spresult root _) as [[r c]|e'|]; simpl; split; congruence.
Qed.

(** ** Patient registration: the identifier that is returned *)

(** C1, as amended: from a parsed response, [client_add] returns as
    identifier the text of the first PCODE element inside CLIENT_ADD_OUT, the
    empty string when there is none or when it has no text, whatever the
    acknowledgment status and the result code are; the result code and the
    comment are those [_spresult] extracts. The identifier is therefore not
    empty exactly when the response carries a PCODE element with text. When
    the text of SPRESULT is no integer numeral, reading it raises a
    ValueError and nothing is returned, no identifier either. *)
Theorem client_add_returns_pcode_field (root : Element) :
  (forall result comment,
      _spresult root "CLIENT_ADD_OUT" = Ret (result, comment) ->
      client_add_result root
      = Ret {| pcode := findtext root [Descendant "CLIENT_ADD_OUT"; Child "PCODE"] "";
               spresult := result; spcomment := comment |})
  /\ (forall e,
        _spresult root "CLIENT_ADD_OUT" = Raise e ->
        client_add_result root = Raise e
        /\ e = ValueError
                 (findtext root [Descendant "CLIENT_ADD_OUT"; Child "SPRESULT"] "-999"))
  /\ (forall registration,
        client_add_result root = Ret registration ->
        (pcode registration <> ""
         <-> exists e, find root [Descendant "CLIENT_ADD_OUT"; Child "PCODE"] = Some e
                       /\ text_or_empty e <> "")).
Proof.
  split; [|split].
  - intros result comment H. exact (client_add_result_ret root result comment H).
  - intros e H. split; [apply client_add_result_raise, H|].
    exact (spresult_raises_value_error _ _ _ H).
  - intros registration H. unfold client_add_result in H.
    destruct (_spresult root _) as [[r c]|e|]; try discriminate H.
    simpl in H. injection H as <-. simpl pcode.
    unfold findtext. destruct (find root _) as [e|].
    + split; [intros H; exists e; split; [reflexivity|exact H]|].
      intros [e' [He' Hne]]. injection He' as <-. exact Hne.
    + split; [intros H; contradiction H; reflexivity|].
      intros [e' [He' _]]. discriminate.
Qed.

(** C1, counterexample: a response that is not acknowledged (status AE)
    and reports result code 0, yet carries a PCODE element; the identifier
    that is returned is not empty. And an acknowledged response whose result
    code is written 1.0: nothing is returned for it, no empty identifier
    either. *)
Lemma client_add_pcode_without_success :
  (parse_response rejected_with_pcode = Ret (tree rejected_with_pcode)
   /\ findtext (tree rejected_with_pcode) [Descendant "MSA.1"] "" = "AE"
   /\ _check_msa (tree rejected_with_pcode) "CLIENT_ADD" = false
   /\ client_add_result (tree rejected_with_pcode)
      = Ret {| pcode := "123"; spresult := 0; spcomment := "duplicate" |}
   /\ "123" <> "")
  /\ (parse_response fractional_result = Ret (tree fractional_result)
      /\ client_add_result (tree fractional_result) = Raise (ValueError "1.0")).
Proof. repeat split; try (vm_compute; reflexivity). discriminate. Qed.

Lemma client_add_returns_pcode_field_witness :
  client_add_result (tree registered)
  = Ret {| pcode := "777"; spresult := 1; spcomment := "ok" |}
  /\ client_add_result (tree fractional_result) = Raise (ValueError "1.0").
Proof.
  split.
  - apply (proj1 (client_add_returns_pcode_field (tree registered)) 1 "ok").
    vm_compute. reflexivity.
  - apply (proj1 (proj2 (client_add_returns_pcode_field (tree fractional_result)))
             (ValueError "1.0")).
    vm_compute. reflexivity.
Defined.

(** ** A response without acknowledgment *)

(** C2, as amended: when the acknowledgment status field MSA.1 is absent
    from a parsed response, the acknowledgment check returns false: the
    response counts as not acknowledged, it is not taken for a success, and
    no ParseError is raised for it. What [clients_change_list] makes of such
    a response is the empty list, and what [client_add] makes of it is its
    usual record, whenever the result code can be read. *)
Theorem missing_acknowledgment_is_a_rejection (root : Element) (method : string) :
  find root [Descendant "MSA.1"] = None ->
  _check_msa root method = false
  /\ (forall result comment,
        _spresult root "CLIENTS_CHANGE_LIST_OUT" = Ret (result, comment) ->
        clients_change_list_result root = Ret [])
  /\ (forall result comment,
        _spresult root "CLIENT_ADD_OUT" = Ret (result, comment) ->
        client_add_result root
        = Ret {| pcode := findtext root [Descendant "CLIENT_ADD_OUT"; Child "PCODE"] "";
                 spresult := result; spcomment := comment |})
  /\ clients_change_list_result root <> Raise ParseError
  /\ client_add_result root <> Raise ParseError.
Proof.
  intros Habsent. split; [exact (check_msa_absent root method Habsent)|].
  split; [|split; [|split]].
  - intros result comment H. rewrite (clients_change_list_result_ret _ _ _ H).
    rewrite (check_msa_absent root _ Habsent). reflexivity.
  - intros result comment H. exact (client_add_result_ret _ _ _ H).
  - intros H. apply clients_change_list_result_raise in H.
    apply spresult_raises_value_error in H. discriminate H.
  - intros H. apply client_add_result_raise in H.
    apply spresult_raises_value_error in H. discriminate H.
Qed.

(** C2, counterexample: a response without MSA.1 that reports result code
    1 and holds a change event; what is made of it is the empty list, and
    nothing is raised. *)
Lemma missing_acknowledgment_returns_silently :
  parse_response no_acknowledgment = Ret (tree no_acknowledgment)
  /\ find (tree no_acknowledgment) [Descendant "MSA.1"] = None
  /\ clients_change_list_result (tree no_acknowledgment) = Ret []
  /\ clients_change_list_result (tree no_acknowledgment) <> Raise ParseError.
Proof. repeat split; try (vm_compute; reflexivity). vm_compute. discriminate. Qed.

Lemma missing_acknowledgment_is_a_rejection_witness :
  _check_msa (tree no_acknowledgment) "CLIENTS_CHANGE_LIST" = false.
Proof.
  apply (missing_acknowledgment_is_a_rejection (tree no_acknowledgment)).
  vm_compute. reflexivity.
Defined.

(** ** Retrieval of a change batch: when the list is populated *)

(** C3, as amended: from a parsed response, [clients_change_list] returns
    a non-empty list only when the acknowledgment status is AA and the result
    code is 1; for every other pair of status and result code that can be
    read it returns the empty list. When the text of SPRESULT is no integer
    numeral it raises the ValueError of reading it, whatever the
    acknowledgment status is, although the response was received and parsed;
    it raises nothing else. *)
Theorem clients_change_list_populates_only_on_success (root : Element) :
  (forall changes,
      clients_change_list_result root = Ret changes ->
      changes <> [] ->
      findtext root [Descendant "MSA.1"] "" = "AA"
      /\ exists comment, _spresult root "CLIENTS_CHANGE_LIST_OUT" = Ret (1, comment))
  /\ (forall result comment,
        _spresult root "CLIENTS_CHANGE_LIST_OUT" = Ret (result, comment) ->
        ~ (findtext root [Descendant "MSA.1"] "" = "AA" /\ result = 1) ->
        clients_change_list_result root = Ret [])
  /\ (forall e,
        clients_change_list_result root = Raise e
        <-> _spresult root "CLIENTS_CHANGE_LIST_OUT" = Raise e)
  /\ (forall e,
        clients_change_list_result root = Raise e ->
        e = ValueError
              (findtext root [Descendant "CLIENTS_CHANGE_LIST_OUT"; Child "SPRESULT"]
                 "-999")).
Proof.
  split; [|split; [|split]].
  - intros changes H Hne. unfold clients_change_list_result in H.
    destruct (_spresult root _) as [[r c]|e|]; try discriminate H.
    simpl in H. injection H as <-.
    destruct (_check_msa root _) eqn:Hok; [|contradiction Hne; reflexivity].
    destruct (r =? 1) eqn:Hr; [|contradiction Hne; reflexivity].
    apply check_msa_true in Hok. apply Z.eqb_eq in Hr. subst r.
    split; [exact Hok|]. exists c. reflexivity.
  - intros result comment H Hn. rewrite (clients_change_list_result_ret _ _ _ H).
    destruct (_check_msa root _) eqn:Hok; [|reflexivity].
    destruct (result =? 1) eqn:Hr; [|reflexivity].
    apply check_msa_true in Hok. apply Z.eqb_eq in Hr. tauto.
  - intros e. apply clients_change_list_result_raise.
  - intros e H. apply clients_change_list_result_raise in H.
    exact (spresult_raises_value_error _ _ _ H).
Qed.

(** C3, counterexample: a response that is received and parsed, is not
    acknowledged, and whose result code is no number; the call does not
    return the empty list, it raises. *)
Lemma unreadable_result_raises :
  parse_response unreadable_result = Ret (tree unreadable_result)
  /\ findtext (tree unreadable_result) [Descendant "MSA.1"] "" = "AE"
  /\ clients_change_list_result (tree unreadable_result) = Raise (ValueError "ERR")
  /\ clients_change_list_result (tree unreadable_result) <> Ret [].
Proof. repeat split; try (vm_compute; reflexivity). vm_compute. discriminate. Qed.

Lemma clients_change_list_populates_only_on_success_witness :
  clients_change_list_result (tree rejected_changes) = Ret [].
Proof.
  apply (proj1 (proj2 (clients_change_list_populates_only_on_success
                         (tree rejected_changes))) 1 "").
  - vm_compute. reflexivity.
  - intros [H _]. vm_compute in H. discriminate H.
Defined.

(** ** The result code and the gate of the extraction *)

(** C7, as amended: when the SPRESULT field of the named output section is
    absent, [_spresult] returns the sentinel -999; the comment is looked up
    on its own and is the text of the first SPCOMMENT of the section, so it
    is empty exactly when that field is absent or has no text, and not empty
    otherwise. From a response whose result code can be read,
    [clients_change_list] goes on to extract the payload exactly when the
    acknowledgment status is AA and the result code is 1: any other result
    code, the sentinel included, gives the empty list, and so does the result
    code 1 under another acknowledgment status. *)
Theorem spresult_sentinel_and_extraction_gate :
  (forall root out_tag,
      find root [Descendant out_tag; Child "SPRESULT"] = None ->
      _spresult root out_tag
      = Ret (-999, findtext root [Descendant out_tag; Child "SPCOMMENT"] ""))
  /\ (forall root out_tag,
        findtext root [Descendant out_tag; Child "SPCOMMENT"] "" = ""
        <-> (find root [Descendant out_tag; Child "SPCOMMENT"] = None
             \/ exists e, find root [Descendant out_tag; Child "SPCOMMENT"] = Some e
                          /\ text_or_empty e = ""))
  /\ (forall root result comment,
        _spresult root "CLIENTS_CHANGE_LIST_OUT" = Ret (result, comment) ->
        (findtext root [Descendant "MSA.1"] "" = "AA" /\ result = 1 ->
         clients_change_list_result root
         = Ret (map change_of (findall root [Descendant "CLIENT_CHANGE_INFO"])))
        /\ (result <> 1 -> clients_change_list_result root = Ret [])
        /\ (findtext root [Descendant "MSA.1"] "" <> "AA" ->
            clients_change_list_result root = Ret [])).
Proof.
  split; [|split].
  - intros root out_tag H. exact (spresult_absent _ _ H).
  - intros root out_tag. unfold findtext.
    destruct (find root _) as [e|].
    + split; [intros H; right; exists e; tauto|].
      intros [H|[e' [H He]]]; [discriminate H|]. injection H as <-. exact He.
    + split; [tauto|reflexivity].
  - intros root result comment Hres.
    rewrite (clients_change_list_result_ret _ _ _ Hres). repeat split.
    + intros [Hok ->]. apply (check_msa_true root "CLIENTS_CHANGE_LIST") in Hok.
      rewrite Hok. reflexivity.
    + intros Hr. apply Z.eqb_neq in Hr. rewrite Hr, andb_false_r. reflexivity.
    + intros Hn. destruct (_check_msa root _) eqn:Hok; [|reflexivity].
      apply check_msa_true in Hok. contradiction.
Qed.

(** C7, counterexample: an output section without SPRESULT and with
    SPCOMMENT, for which the comment that comes with the sentinel is not
    empty; and a response with result code 1 and a change event that is not
    acknowledged, for which the extraction is skipped. *)
Lemma sentinel_with_comment :
  (find (tree comment_without_result)
        [Descendant "CLIENTS_CHANGE_LIST_OUT"; Child "SPRESULT"] = None
   /\ _spresult (tree comment_without_result) "CLIENTS_CHANGE_LIST_OUT" = Ret (-999, "busy")
   /\ _spresult (tree comment_without_result) "CLIENTS_CHANGE_LIST_OUT" <> Ret (-999, ""))
  /\ (_spresult (tree rejected_changes) "CLIENTS_CHANGE_LIST_OUT" = Ret (1, "")
      /\ length (findall (tree rejected_changes) [Descendant "CLIENT_CHANGE_INFO"]) = 1%nat
      /\ clients_change_list_result (tree rejected_changes) = Ret []).
Proof. repeat split; try (vm_compute; reflexivity). vm_compute. discriminate. Qed.

Lemma spresult_sentinel_and_extraction_gate_witness :
  _spresult (tree comment_without_result) "CLIENTS_CHANGE_LIST_OUT" = Ret (-999, "busy")
  /\ _spresult (tree empty_comment) "CLIENT_ADD_OUT" = Ret (-999, "")
  /\ clients_change_list_result (tree comment_without_result) = Ret [].
Proof.
  split; [|split].
  - apply (proj1 spresult_sentinel_and_extraction_gate
             (tree comment_without_result) "CLIENTS_CHANGE_LIST_OUT").
    vm_compute. reflexivity.
  - apply (proj1 spresult_sentinel_and_extraction_gate (tree empty_comment) "CLIENT_ADD_OUT").
    vm_compute. reflexivity.
  - refine (proj1 (proj2 (proj2 (proj2 spresult_sentinel_and_extraction_gate)
                            (tree comment_without_result) (-999) "busy" _)) _).
    + vm_compute. reflexivity.
    + discriminate.
Defined.

(** ** Patient registration: required keys *)

(** C10: when the patient mapping lacks LASTNAME, FIRSTNAME or BDATE,
    [client_add] raises the key error of the first missing key while it
    builds the request body; nothing has been sent by then, and no empty
    element stands in for the missing field. *)
Theorem client_add_missing_required_key
    (w : World) (patient : gmap string string) (key : string) :
  In key required_fields ->
  patient !! key = None ->
  exists missing,
    In missing required_fields
    /\ patient !! missing = None
    /\ client_add_body (_build_msh_xml w "CLIENT_ADD" None) patient = Raise (KeyError missing)
    /\ client_add w (Some patient) = (Raise (KeyError missing), []).
Proof.
  intros Hin Hnone.
  assert (Hfirst : exists missing,
             In missing required_fields /\ patient !! missing = None
             /\ client_add_body (_build_msh_xml w "CLIENT_ADD" None) patient
                = Raise (KeyError missing)).
  { unfold client_add_body, subscript.
    destruct (patient !! "LASTNAME") as [l|] eqn:HL;
      [|exists "LASTNAME"; simpl; tauto].
    destruct (patient !! "FIRSTNAME") as [f|] eqn:HF;
      [|exists "FIRSTNAME"; simpl; tauto].
    destruct (patient !! "BDATE") as [b|] eqn:HB;
      [|exists "BDATE"; simpl; tauto].
    exfalso. simpl in Hin. destruct Hin as [<-|[<-|[<-|[]]]]; congruence. }
  destruct Hfirst as [missing [H1 [H2 H3]]].
  exists missing. repeat split; try assumption.
  unfold client_add. simpl default. unfold lift. rewrite H3. reflexivity.
Qed.

Lemma client_add_missing_required_key_witness :
  exists missing,
    In missing required_fields
    /\ no_birth_date !! missing = None
    /\ client_add_body (_build_msh_xml echo "CLIENT_ADD" None) no_birth_date
       = Raise (KeyError missing)
    /\ client_add echo (Some no_birth_date) = (Raise (KeyError missing), []).
Proof.
  apply (client_add_missing_required_key echo no_birth_date "BDATE").
  - simpl. tauto.
  - vm_compute. reflexivity.
Defined.

(** ** Transport: error statuses *)

(** C4, as amended: when the server answers with an error status, which
    the library reports as an HTTPError, the try block of the transport reads
    the whole body from the error, prints a warning about the status code
    and that body, and raises the same error again. The error that is raised
    carries the status code; its body has been read to the end by the
    transport, so that nothing is left for the caller to read from it. *)
Theorem send_request_http_error (w : World) (req : Request) (code : Z) (body : string) :
  urlopen w req = Failure (HTTPError code body) ->
  fetch w req = (Raise (HTTPError code ""), [Sent req; Warned code body])
  /\ read body = (body, "").
Proof. intros H. split; [exact (fetch_http_error w req code body H)|reflexivity]. Qed.

(** C4, counterexample: status 500 with a body; the error that the block
    raises holds the status and no body. *)
Lemma http_error_body_is_consumed :
  fst (fetch (failing 500 "<error/>") a_request) = Raise (HTTPError 500 "")
  /\ fst (fetch (failing 500 "<error/>") a_request) <> Raise (HTTPError 500 "<error/>").
Proof. split; [vm_compute; reflexivity|]. vm_compute. discriminate. Qed.

Lemma send_request_http_error_witness :
  fetch (failing 404 "<error>not found</error>") a_request
  = (Raise (HTTPError 404 ""), [Sent a_request; Warned 404 "<error>not found</error>"]).
Proof.
  apply (send_request_http_error (failing 404 "<error>not found</error>")). reflexivity.
Defined.

(** ** Text *)

Lemma append_cons x (a b : string) : String x a +:+ b = String x (a +:+ b).
Proof. reflexivity. Qed.

Lemma append_assoc (a b c : string) : (a +:+ b) +:+ c = a +:+ (b +:+ c).
Proof. induction a as [|x a IH]; [reflexivity|]. rewrite !append_cons, IH. reflexivity. Qed.

Lemma append_nil_l (a : string) : "" +:+ a = a.
Proof. reflexivity. Qed.

Lemma all_chars_app p (a b : string) :
  Text.all_chars p (a +:+ b) = Text.all_chars p a && Text.all_chars p b.
Proof.
  induction a as [|x a IH]; [reflexivity|].
  rewrite append_cons. simpl. rewrite IH. apply andb_assoc.
Qed.

Lemma all_chars_impl (p q : ascii -> bool) (s : string) :
  (forall c, p c = true -> q c = true) ->
  Text.all_chars p s = true -> Text.all_chars q s = true.
Proof.
  intros Hpq. induction s as [|x s IH]; [reflexivity|]. simpl.
  intros [Hx Hs]%andb_true_iff. rewrite (Hpq _ Hx), (IH Hs). reflexivity.
Qed.

Lemma all_chars_take p n s :
  Text.all_chars p s = true -> Text.all_chars p (Text.take n s) = true.
Proof.
  revert s. induction n as [|n IH]; intros [|x s]; simpl; try reflexivity.
  intros [Hx Hs]%andb_true_iff. rewrite Hx, (IH _ Hs). reflexivity.
Qed.

Lemma all_chars_substring_from p n s :
  Text.all_chars p s = true -> Text.all_chars p (Uuid.substring_from n s) = true.
Proof.
  revert s. induction n as [|n IH]; intros [|x s]; simpl; try tauto.
  intros [Hx Hs]%andb_true_iff. exact (IH _ Hs).
Qed.

Lemma all_chars_remove_char p c s :
  Text.all_chars (fun x => p x || Ascii.eqb x c) s = true ->
  Text.all_chars p (Text.remove_char c s) = true.
Proof.
  induction s as [|x s IH]; [reflexivity|]. simpl.
  intros [Hx Hs]%andb_true_iff.
  destruct (Ascii.eqb x c); [exact (IH Hs)|].
  simpl. rewrite orb_false_r in Hx. rewrite Hx, (IH Hs). reflexivity.
Qed.

Lemma all_chars_iter_zero p n s :
  p "0"%char = true -> Text.all_chars p s = true ->
  Text.all_chars p (Nat.iter n (String "0") s) = true.
Proof. intros H0 Hs. induction n as [|n IH]; [exact Hs|]. simpl. rewrite H0, IH. reflexivity. Qed.

Lemma digits_of_uint u :
  Text.all_chars PyInt.is_digit (NilEmpty.string_of_uint u) = true.
Proof. induction u; simpl; try rewrite IHu; reflexivity. Qed.

Lemma digits_zero_pad width n : Text.all_chars PyInt.is_digit (zero_pad width n) = true.
Proof.
  unfold zero_pad. apply all_chars_iter_zero; [reflexivity|].
  unfold NilZero.string_of_uint. destruct (Nat.to_uint n); try apply digits_of_uint.
  reflexivity.
Qed.

Lemma digits_now_ts w : Text.all_chars PyInt.is_digit (_now_ts w) = true.
Proof.
  unfold _now_ts. rewrite !all_chars_app, !digits_zero_pad. reflexivity.
Qed.

Lemma hex_digit_is_hex n : is_hex (Uuid.hex_digit n) = true.
Proof.
  destruct n as [|p]; [reflexivity|].
  do 4 (try (destruct p as [p|p|]; try reflexivity)).
Qed.

Lemma hex_is_hex k n acc :
  Text.all_chars is_hex acc = true -> Text.all_chars is_hex (Uuid.hex k n acc) = true.
Proof.
  revert n acc. induction k as [|k IH]; intros n acc H; [exact H|].
  simpl. apply IH. simpl. rewrite hex_digit_is_hex, H. reflexivity.
Qed.

Lemma hex_msg_id w : Text.all_chars is_hex (_msg_id w) = true.
Proof.
  unfold _msg_id. apply all_chars_take, all_chars_remove_char.
  unfold Uuid.str.
  assert (H : Text.all_chars (fun x => is_hex x || Ascii.eqb x "-")
                (Uuid.hex 32 (Uuid.uuid4 (urandom16 w)) "") = true).
  { eapply all_chars_impl; [|apply hex_is_hex; reflexivity].
    intros c ->. reflexivity. }
  rewrite !all_chars_app.
  rewrite (all_chars_take _ 8 _ H).
  rewrite !(fun n => all_chars_take _ 4 _ (all_chars_substring_from _ n _ H)).
  rewrite (all_chars_substring_from _ 20 _ H).
  reflexivity.
Qed.

Lemma digit_not_lt c : PyInt.is_digit c = true -> not_lt c = true.
Proof.
  unfold not_lt. destruct (Ascii.eqb_spec c "<"); [subst; discriminate|reflexivity].
Qed.

Lemma hex_not_lt c : is_hex c = true -> not_lt c = true.
Proof.
  unfold not_lt. destruct (Ascii.eqb_spec c "<"); [subst; discriminate|reflexivity].
Qed.

Lemma no_lt_now_ts w : no_lt (_now_ts w) = true.
Proof. exact (all_chars_impl _ _ _ digit_not_lt (digits_now_ts w)). Qed.

Lemma no_lt_msg_id w : no_lt (_msg_id w) = true.
Proof. exact (all_chars_impl _ _ _ hex_not_lt (hex_msg_id w)). Qed.

(** *** Occurrences of a needle *)

Lemma starts_with_app_split n l rest :
  Text.starts_with n (l +:+ rest) = true ->
  Text.starts_with n l = true \/ Text.starts_with l n = true.
Proof.
  revert l. induction n as [|a n IH]; intros l H; [left; reflexivity|].
  destruct l as [|b l]; [right; reflexivity|].
  rewrite append_cons in H. simpl in H. simpl.
  destruct (Ascii.eqb a b) eqn:E; [|discriminate]. simpl in H.
  rewrite Ascii.eqb_sym, E. simpl. exact (IH _ H).
Qed.

Lemma starts_with_app_l a b s :
  Text.starts_with (a +:+ b) s = true -> Text.starts_with a s = true.
Proof.
  revert s. induction a as [|x a IH]; intros s H; [reflexivity|].
  rewrite append_cons in H. destruct s as [|y s]; [discriminate|]. simpl in *.
  apply andb_true_iff in H as [-> H]. exact (IH _ H).
Qed.

Lemma starts_with_same a b c :
  Text.starts_with (a +:+ b) (a +:+ c) = Text.starts_with b c.
Proof.
  induction a as [|x a IH]; [reflexivity|].
  rewrite !append_cons. simpl. rewrite Ascii.eqb_refl. exact IH.
Qed.

Lemma starts_with_refl_app a c : Text.starts_with a (a +:+ c) = true.
Proof.
  induction a as [|x a IH]; [reflexivity|].
  rewrite append_cons. simpl. rewrite Ascii.eqb_refl. exact IH.
Qed.

Lemma starts_with_cons a p b r :
  Text.starts_with (String a p) (String b r) = Ascii.eqb a b && Text.starts_with p r.
Proof. reflexivity. Qed.

Lemma clear_cons n x l :
  Text.clear n (String x l) = true <->
  Text.starts_with n (String x l) = false
  /\ Text.starts_with (String x l) n = false
  /\ Text.clear n l = true.
Proof.
  change (Text.clear n (String x l))
    with (negb (Text.starts_with n (String x l))
          && negb (Text.starts_with (String x l) n) && Text.clear n l).
  rewrite !andb_true_iff, !negb_true_iff. tauto.
Qed.

Lemma contains_cons n x r :
  Text.contains n (String x r) = Text.starts_with n (String x r) || Text.contains n r.
Proof. reflexivity. Qed.

Lemma starts_with_chunk n x l rest :
  Text.starts_with n (String x l) = false ->
  Text.starts_with (String x l) n = false ->
  Text.starts_with n (String x l +:+ rest) = false.
Proof.
  intros H1 H2.
  destruct (Text.starts_with n (String x l +:+ rest)) eqn:E; [|reflexivity].
  apply starts_with_app_split in E as [E|E]; congruence.
Qed.

Lemma contains_clear n l rest :
  Text.clear n l = true -> Text.contains n (l +:+ rest) = Text.contains n rest.
Proof.
  induction l as [|x l IH]; intros H; [reflexivity|].
  apply clear_cons in H as (H1 & H2 & H3).
  pose proof (starts_with_chunk n x l rest H1 H2) as E.
  rewrite append_cons in *. rewrite contains_cons, E, (IH H3). reflexivity.
Qed.

Lemma clear_not_contained a n s :
  Text.clear (String a n) s = true -> Text.contains (String a n) s = false.
Proof.
  induction s as [|x s IH]; intros H; [reflexivity|].
  apply clear_cons in H as (H1 & H2 & H3).
  rewrite contains_cons, H1, (IH H3). reflexivity.
Qed.

Lemma clear_app n a b :
  Text.clear n a = true -> Text.clear n b = true -> Text.clear n (a +:+ b) = true.
Proof.
  intros Ha Hb. induction a as [|x a IH]; [exact Hb|].
  apply clear_cons in Ha as (H1 & H2 & H3).
  rewrite append_cons. apply clear_cons. split; [|split].
  - rewrite <- append_cons. apply starts_with_chunk; assumption.
  - destruct (Text.starts_with (String x (a +:+ b)) n) eqn:E; [|reflexivity].
    rewrite <- append_cons in E. apply starts_with_app_l in E. congruence.
  - exact (IH H3).
Qed.

Lemma clear_no_lt n s : no_lt s = true -> Text.clear (String "<" n) s = true.
Proof.
  induction s as [|x s IH]; [reflexivity|].
  unfold no_lt. simpl Text.all_chars. intros [Hx Hs]%andb_true_iff.
  unfold not_lt in Hx. apply negb_true_iff in Hx.
  apply clear_cons. split; [|split].
  - rewrite starts_with_cons, (Ascii.eqb_sym "<" x), Hx. reflexivity.
  - rewrite starts_with_cons, Hx. reflexivity.
  - exact (IH Hs).
Qed.

Lemma contains_skip n l rest :
  Text.contains n rest = true -> Text.contains n (l +:+ rest) = true.
Proof.
  intros H. induction l as [|x l IH]; [exact H|].
  rewrite append_cons, contains_cons, IH. apply orb_true_r.
Qed.

Lemma contains_here n rest : Text.contains n (n +:+ rest) = true.
Proof.
  destruct (n +:+ rest) eqn:E.
  - destruct n; [reflexivity|discriminate].
  - rewrite contains_cons, <- E, starts_with_refl_app. reflexivity.
Qed.

Lemma contains_starts n s : Text.starts_with n s = true -> Text.contains n s = true.
Proof. intros H. destruct s; simpl; rewrite H; reflexivity. Qed.

Lemma contains_straddle before opening v closing after rest :
  Text.contains (opening +:+ v +:+ closing)
    ((before +:+ opening) +:+ v +:+ (closing +:+ after) +:+ rest) = true.
Proof.
  rewrite append_assoc. apply contains_skip.
  rewrite <- !append_assoc. rewrite (append_assoc _ after rest).
  rewrite (append_assoc opening v closing). apply contains_here.
Qed.

Ltac clear_chunk :=
  lazymatch goal with
  | |- Text.clear _ (_now_ts _) = true => apply clear_no_lt, no_lt_now_ts
  | |- Text.clear _ (_msg_id _) = true => apply clear_no_lt, no_lt_msg_id
  | |- Text.clear _ ?c = true =>
      first [ is_var c; apply clear_no_lt; solve [eauto] | vm_compute; reflexivity ]
  end.

Ltac clear_chunks :=
  lazymatch goal with
  | |- Text.clear _ (_ +:+ _) = true => apply clear_app; [clear_chunk | clear_chunks]
  | |- _ => clear_chunk
  end.

(** ** Patient registration: which fields the body holds *)

Lemma element_chunks key v :
  element key v = ("<" +:+ key +:+ ">") +:+ v +:+ ("</" +:+ key +:+ ">").
Proof. unfold element. rewrite !append_assoc. reflexivity. Qed.

Lemma opt_empty patient key : field patient key = "" -> _opt patient key = "".
Proof. unfold _opt, field. intros ->. reflexivity. Qed.

Lemma opt_present patient key :
  field patient key <> "" -> _opt patient key = element key (field patient key).
Proof.
  unfold _opt, field, element. destruct (default "" (patient !! key)); [congruence|].
  reflexivity.
Qed.

Lemma opt_empty_iff patient key : _opt patient key = "" <-> field patient key = "".
Proof.
  split; [|apply opt_empty].
  destruct (string_dec (field patient key) "") as [E|E]; [tauto|].
  rewrite (opt_present _ _ E). discriminate.
Qed.

Lemma field_no_lt patient key :
  (forall k v, patient !! k = Some v -> no_lt v = true) -> no_lt (field patient key) = true.
Proof.
  intros H. unfold field. destruct (patient !! key) as [v|] eqn:E; [exact (H _ _ E)|].
  reflexivity.
Qed.

Lemma clear_opt n patient key :
  Text.clear (String "<" n) ("<" +:+ key +:+ ">") = true ->
  Text.clear (String "<" n) ("</" +:+ key +:+ ">") = true ->
  (forall k v, patient !! k = Some v -> no_lt v = true) ->
  Text.clear (String "<" n) (_opt patient key) = true.
Proof.
  intros Ho Hc Hv.
  destruct (string_dec (field patient key) "") as [E|E].
  - rewrite (opt_empty _ _ E). reflexivity.
  - rewrite (opt_present _ _ E), element_chunks.
    apply clear_app; [exact Ho|]. apply clear_app; [|exact Hc].
    apply clear_no_lt, field_no_lt, Hv.
Qed.

Lemma contains_element_tag key v rest :
  Text.contains ("<" +:+ key) (element key v +:+ rest) = true.
Proof.
  unfold element. rewrite <- (append_assoc "<" key), (append_assoc ("<" +:+ key)).
  apply contains_here.
Qed.

Lemma tag_absent key s :
  Text.clear (String "<" key) s = true -> Text.contains ("<" +:+ key) s = false.
Proof. exact (clear_not_contained "<" key s). Qed.

(** The chunks of a request body: text, the header, and field slots. *)
Ltac body_chunk Hvalues :=
  lazymatch goal with
  | |- Text.clear _ (_opt _ _) = true =>
      apply clear_opt; [vm_compute; reflexivity | vm_compute; reflexivity | exact Hvalues]
  | |- Text.clear _ (_build_msh_xml _ _ _) = true =>
      unfold _build_msh_xml; cbv beta zeta iota; clear_chunks
  | |- _ => clear_chunk
  end.

Ltac body_chunks Hvalues :=
  lazymatch goal with
  | |- Text.clear _ (_ +:+ _) = true =>
      apply clear_app; [body_chunk Hvalues | body_chunks Hvalues]
  | |- _ => body_chunk Hvalues
  end.

(** Walks to the slot of the field whose presence is known. *)
Ltac find_slot Hpresent :=
  lazymatch goal with
  | |- Text.contains _ (_opt _ _ +:+ _) = true =>
      first [ rewrite (opt_present _ _ Hpresent);
              first [apply contains_here | apply contains_element_tag]
            | apply contains_skip; find_slot Hpresent ]
  | |- Text.contains _ (_ +:+ _) = true => apply contains_skip; find_slot Hpresent
  end.

Lemma client_add_body_ret msh patient body :
  client_add_body msh patient = Ret body ->
  exists lastname firstname bdate,
    patient !! "LASTNAME" = Some lastname
    /\ patient !! "FIRSTNAME" = Some firstname
    /\ patient !! "BDATE" = Some bdate
    /\ client_add_body msh patient = Ret body.
Proof.
  intros H. pose proof H as H'. unfold client_add_body, subscript in H'.
  destruct (patient !! "LASTNAME") as [l|]; [|discriminate].
  destruct (patient !! "FIRSTNAME") as [f|]; [|discriminate].
  destruct (patient !! "BDATE") as [b|]; [|discriminate].
  exists l, f, b. tauto.
Qed.

(** Unfolds the body of a request whose required keys are present. *)
Ltac open_body H :=
  let l := fresh "lastname" in
  let f := fresh "firstname" in
  let b := fresh "bdate" in
  let Hl := fresh "Hlastname" in
  let Hf := fresh "Hfirstname" in
  let Hb := fresh "Hbdate" in
  apply client_add_body_ret in H as (l & f & b & Hl & Hf & Hb & H);
  unfold client_add_body, subscript in H;
  rewrite Hl, Hf, Hb in H; cbv beta iota delta [bind] in H;
  injection H as <-.

(** X16: an optional field contributes to the CLIENT_ADD body either
    nothing, when its value is empty or the key is absent, or the element
    that holds its value, when the value is not empty; the three required
    fields are in every body that is built, with whatever value they have,
    the empty string included. When no value holds an opening angle bracket,
    the serialized body holds a tag of an optional field exactly when the
    value of that field is not empty. *)
Theorem optional_slots_of_the_body :
  (forall patient key,
      (_opt patient key = "" <-> field patient key = "")
      /\ (field patient key <> "" -> _opt patient key = element key (field patient key)))
  /\ (forall msh patient body,
        client_add_body msh patient = Ret body ->
        (forall key, In key required_fields ->
                     exists v, patient !! key = Some v
                               /\ Text.contains (element key v) body = true)
        /\ (forall key, In key optional_fields -> field patient key <> "" ->
                        Text.contains (element key (field patient key)) body = true))
  /\ (forall w patient body,
        client_add_body (_build_msh_xml w "CLIENT_ADD" None) patient = Ret body ->
        (forall k v, patient !! k = Some v -> no_lt v = true) ->
        forall key, In key optional_fields ->
                    (Text.contains ("<" +:+ key) body = true <-> field patient key <> "")).
Proof.
  split; [|split].
  - intros patient key. split; [apply opt_empty_iff|apply opt_present].
  - intros msh patient body Hbody. open_body Hbody. split.
    + intros key [<-|[<-|[<-|[]]]].
      * exists lastname. split; [assumption|]. do 5 apply contains_skip.
        exact (contains_straddle "
    <CLIENT_ADD_IN>
        " "<LASTNAME>" lastname "</LASTNAME>" "
        <FIRSTNAME>" _).
      * exists firstname. split; [assumption|]. do 7 apply contains_skip.
        exact (contains_straddle "</LASTNAME>
        " "<FIRSTNAME>" firstname "</FIRSTNAME>" "
        " _).
      * exists bdate. split; [assumption|]. do 15 apply contains_skip.
        exact (contains_straddle "
        " "<BDATE>" bdate "</BDATE>" "
        " _).
    + intros key Hin Hpresent. simpl in Hin.
      repeat (destruct Hin as [<-|Hin]; [find_slot Hpresent|]). destruct Hin.
  - intros w patient body Hbody Hvalues key Hin. open_body Hbody.
    assert (Hl : no_lt lastname = true) by eauto.
    assert (Hf : no_lt firstname = true) by eauto.
    assert (Hb : no_lt bdate = true) by eauto.
    destruct (string_dec (field patient key) "") as [E|E].
    + split; [|tauto]. intros Hc. exfalso.
      simpl in Hin.
      repeat (destruct Hin as [<-|Hin];
              [rewrite tag_absent in Hc; [discriminate|];
               rewrite (opt_empty _ _ E); body_chunks Hvalues|]).
      destruct Hin.
    + split; [tauto|]. intros _. simpl in Hin.
      repeat (destruct Hin as [<-|Hin]; [find_slot E|]). destruct Hin.
Qed.

Lemma optional_slots_of_the_body_witness :
  Text.contains ("<" +:+ "EMAIL")
    (match client_add_body (_build_msh_xml echo "CLIENT_ADD" None) only_required with
     | Ret body => body
     | _ => ""
     end) = true
  <-> field only_required "EMAIL" <> "".
Proof.
  apply (proj2 (proj2 optional_slots_of_the_body) echo only_required).
  - vm_compute. reflexivity.
  - intros k v H. unfold only_required in H.
    repeat (apply lookup_insert_Some in H as [[_ <-]|[_ H]]; [reflexivity|]).
    rewrite lookup_empty in H. discriminate.
  - simpl. tauto.
Defined.

Example only_required_has_no_optional_tag :
  forallb (fun key =>
             negb (Text.contains ("<" +:+ key)
                     (match client_add_body (_build_msh_xml echo "CLIENT_ADD" None)
                              only_required with
                      | Ret body => body
                      | _ => ""
                      end)))
          optional_fields = true.
Proof. vm_compute. reflexivity. Qed.

(** C5, the code at the failing input: a patient record with the three
    required keys and no other, whose last name holds markup. The record has
    no EMAIL, and the value of every optional field is empty; yet the body
    that is built holds an EMAIL element, because the values are written into
    the body as they are, and a reader of the body finds that element among
    the fields. *)
Theorem markup_injects_an_optional_field :
  with_markup !! "EMAIL" = None
  /\ field with_markup "EMAIL" = ""
  /\ forallb (fun key => String.eqb (field with_markup key) "") optional_fields = true
  /\ exists body,
       client_add_body (_build_msh_xml echo "CLIENT_ADD" None) with_markup = Ret body
       /\ Text.contains ("<" +:+ "EMAIL") body = true
       /\ Text.contains (element "EMAIL" "x@example.com") body = true
       /\ find (tree body) [Descendant "CLIENT_ADD_IN"; Child "EMAIL"]
          = Some (Elem "EMAIL" (Some "x@example.com") []).
Proof.
  split; [vm_compute; reflexivity|]. split; [vm_compute; reflexivity|].
  split; [vm_compute; reflexivity|].
  eexists. split; [vm_compute; reflexivity|].
  split; [vm_compute; reflexivity|]. split; vm_compute; reflexivity.
Qed.

(** ** The parse path on the body of a request *)

(** *** Decoding *)

Lemma utf8_run_app st (a b : string) :
  Utf8.run st (a +:+ b) = Utf8.run (Utf8.run st a) b.
Proof. revert st. induction a as [|x a IH]; intros st; [reflexivity|]. apply IH. Qed.

Lemma well_formed_app (a b : string) :
  Utf8.well_formed a = true -> Utf8.well_formed b = true ->
  Utf8.well_formed (a +:+ b) = true.
Proof.
  unfold Utf8.well_formed. rewrite utf8_run_app.
  destruct (Utf8.run Utf8.Boundary a); try discriminate. tauto.
Qed.

Lemma ascii_well_formed (s : string) :
  Text.all_chars is_ascii s = true -> Utf8.well_formed s = true.
Proof.
  induction s as [|x s IH]; [reflexivity|].
  simpl. intros [Hx Hs]%andb_true_iff.
  unfold Utf8.well_formed. simpl. unfold Utf8.lead.
  unfold is_ascii in Hx. rewrite Hx. exact (IH Hs).
Qed.

(** *** Removal of the namespace declarations *)

Lemma all_chars_drop p n s :
  Text.all_chars p s = true -> Text.all_chars p (NsRegex.drop n s) = true.
Proof.
  revert s. induction n as [|n IH]; intros [|x s]; simpl; try tauto.
  intros [_ Hs]%andb_true_iff. exact (IH _ Hs).
Qed.

Lemma all_chars_strip_prefix p lit s s' :
  NsRegex.strip_prefix lit s = Some s' ->
  Text.all_chars p s = true -> Text.all_chars p s' = true.
Proof.
  revert s. induction lit as [|a lit IH]; intros s; simpl.
  - intros H. injection H as <-. tauto.
  - destruct s as [|b s]; [discriminate|].
    destruct (Ascii.eqb a b); [|discriminate].
    intros H [_ Hs]%andb_true_iff. exact (IH _ H Hs).
Qed.

Lemma strip_prefix_app lit rest : NsRegex.strip_prefix lit (lit +:+ rest) = Some rest.
Proof.
  induction lit as [|a lit IH]; [destruct rest; reflexivity|].
  rewrite append_cons. simpl. rewrite Ascii.eqb_refl. exact IH.
Qed.

Lemma value_part_quote_free before high s :
  Text.all_chars not_quote s = true -> NsRegex.value_part before high s = NsRegex.NoMatch.
Proof.
  destruct s as [|e [|q r]]; try reflexivity.
  simpl. intros [_ [Hq _]%andb_true_iff]%andb_true_iff.
  unfold not_quote in Hq. apply negb_true_iff in Hq. rewrite Hq, andb_false_r.
  reflexivity.
Qed.

Lemma match_here_quote_free s :
  Text.all_chars not_quote s = true -> NsRegex.match_here s = NsRegex.NoMatch.
Proof.
  intros H. unfold NsRegex.match_here.
  destruct (NsRegex.space_run s) as [|n1]; [reflexivity|].
  destruct (NsRegex.strip_prefix _ _) as [s2|] eqn:E; [|reflexivity].
  pose proof (all_chars_strip_prefix _ _ _ _ E (all_chars_drop _ _ _ H)) as H2.
  destruct s2 as [|c s3]; [reflexivity|].
  destruct (Ascii.eqb c ":").
  - destruct (NsRegex.word_run s3) as [[|n2] high]; [reflexivity|].
    apply value_part_quote_free, all_chars_drop.
    simpl in H2. apply andb_true_iff in H2 as [_ H2]. exact H2.
  - apply value_part_quote_free. exact H2.
Qed.

Lemma sub_go_quote_free s :
  Text.all_chars not_quote s = true -> NsRegex.sub_go 0 s = Some s.
Proof.
  induction s as [|x s IH]; [reflexivity|]. intros H.
  change (NsRegex.sub_go 0 (String x s))
    with (match NsRegex.match_here (String x s) with
          | NsRegex.NoMatch => option_map (String x) (NsRegex.sub_go 0 s)
          | NsRegex.Match n => NsRegex.sub_go (Nat.pred n) s
          | NsRegex.Unknown => None
          end).
  rewrite (match_here_quote_free _ H).
  simpl in H. apply andb_true_iff in H as [_ H]. rewrite (IH H). reflexivity.
Qed.

Lemma sub_go_no_match x s :
  NsRegex.match_here (String x s) = NsRegex.NoMatch ->
  NsRegex.sub_go 0 (String x s) = option_map (String x) (NsRegex.sub_go 0 s).
Proof.
  intros H.
  change (NsRegex.sub_go 0 (String x s))
    with (match NsRegex.match_here (String x s) with
          | NsRegex.NoMatch => option_map (String x) (NsRegex.sub_go 0 s)
          | NsRegex.Match n => NsRegex.sub_go (Nat.pred n) s
          | NsRegex.Unknown => None
          end).
  rewrite H. reflexivity.
Qed.

Lemma sub_go_match x s n :
  NsRegex.match_here (String x s) = NsRegex.Match n ->
  NsRegex.sub_go 0 (String x s) = NsRegex.sub_go (Nat.pred n) s.
Proof.
  intros H.
  change (NsRegex.sub_go 0 (String x s))
    with (match NsRegex.match_here (String x s) with
          | NsRegex.NoMatch => option_map (String x) (NsRegex.sub_go 0 s)
          | NsRegex.Match n => NsRegex.sub_go (Nat.pred n) s
          | NsRegex.Unknown => None
          end).
  rewrite H. reflexivity.
Qed.

Lemma sub_go_skip k x s : NsRegex.sub_go (S k) (String x s) = NsRegex.sub_go k s.
Proof. reflexivity. Qed.

Lemma sub_go_client_add_root rest :
  Text.all_chars not_quote rest = true ->
  NsRegex.sub_go 0
    (Xml.declaration +:+ "
<WEB_CLIENT_ADD xmlns=" +:+ Xml.quoted "http://sdsys.ru/" +:+ rest)
  = Some (Xml.declaration +:+ "
<WEB_CLIENT_ADD" +:+ rest).
Proof.
  intros H. pose proof (sub_go_quote_free rest H) as E.
  cbv [Xml.declaration Xml.quoted String.append ascii_of_nat ascii_of_pos].
  repeat first
    [ rewrite sub_go_no_match by (vm_compute; reflexivity)
    | erewrite sub_go_match by (vm_compute; reflexivity) ].
  cbv [Nat.pred]. rewrite !sub_go_skip, E. reflexivity.
Qed.

(** *** Parsing *)

Lemma append_nil_r (a : string) : a +:+ "" = a.
Proof. induction a as [|x a IH]; [reflexivity|]. rewrite append_cons, IH. reflexivity. Qed.

Lemma xml_run_app st (a b : string) : Xml.run st (a +:+ b) = Xml.run (Xml.run st a) b.
Proof. revert st. induction a as [|x a IH]; intros st; [reflexivity|]. apply IH. Qed.

Lemma xml_run_cons st c (s : string) : Xml.run st (String c s) = Xml.run (Xml.step st c) s.
Proof. reflexivity. Qed.

Lemma step_plain c stack :
  xml_plain c = true -> Xml.step (Xml.Content stack) c = Xml.data c stack.
Proof.
  unfold xml_plain, Xml.step. destruct (Xml.classify c); intros H;
    try discriminate; reflexivity.
Qed.

Lemma run_text t txt outer v :
  Text.all_chars xml_plain v = true ->
  Xml.run (Xml.Content (Xml.Frame t txt [] :: outer)) v
  = Xml.Content (Xml.Frame t (txt +:+ v) [] :: outer).
Proof.
  revert txt. induction v as [|c v IH]; intros txt H.
  - rewrite append_nil_r. reflexivity.
  - simpl in H. apply andb_true_iff in H as [Hc Hv].
    rewrite xml_run_cons. rewrite (step_plain _ _ Hc).
    unfold Xml.data; cbn [Xml.fkids Xml.ftag Xml.ftext].
    rewrite (IH _ Hv). unfold Xml.snoc. rewrite append_assoc. reflexivity.
Qed.

Lemma run_discard t txt kids outer v :
  kids <> [] ->
  Text.all_chars xml_plain v = true ->
  Xml.run (Xml.Content (Xml.Frame t txt kids :: outer)) v
  = Xml.Content (Xml.Frame t txt kids :: outer).
Proof.
  intros Hk. induction v as [|c v IH]; intros H; [reflexivity|].
  simpl in H. apply andb_true_iff in H as [Hc Hv].
  rewrite xml_run_cons. rewrite (step_plain _ _ Hc).
  destruct kids as [|k kids]; [congruence|].
  unfold Xml.data; cbn [Xml.fkids Xml.ftag Xml.ftext]. exact (IH Hv).
Qed.

Lemma is_name_chars key : is_name key = true -> Text.all_chars name_char key = true.
Proof.
  destruct key as [|c r]; [discriminate|]. unfold is_name. intros H.
  change (Text.all_chars name_char (String c r))
    with (name_char c && Text.all_chars name_char r).
  unfold name_char at 1. destruct (Xml.classify c); try discriminate; exact H.
Qed.

Lemma run_open_name acc stack r :
  Text.all_chars name_char r = true ->
  Xml.run (Xml.OpenName acc stack) (r +:+ ">")
  = Xml.Content (Xml.Frame (acc +:+ r) EmptyString [] :: stack).
Proof.
  revert acc. induction r as [|c r IH]; intros acc H.
  - rewrite append_nil_r. reflexivity.
  - simpl in H. apply andb_true_iff in H as [Hc Hr].
    rewrite append_cons. rewrite xml_run_cons.
    assert (E : Xml.step (Xml.OpenName acc stack) c = Xml.OpenName (Xml.snoc acc c) stack).
    { unfold name_char in Hc. simpl. destruct (Xml.classify c); try discriminate; reflexivity. }
    rewrite E, (IH _ Hr). unfold Xml.snoc. rewrite append_assoc. reflexivity.
Qed.

Lemma run_markup_open key stack :
  is_name key = true ->
  Xml.run (Xml.Markup stack) (key +:+ ">")
  = Xml.Content (Xml.Frame key EmptyString [] :: stack).
Proof.
  destruct key as [|c r]; [discriminate|]. simpl is_name.
  destruct (Xml.classify c) eqn:E; try discriminate. intros H.
  rewrite append_cons, xml_run_cons.
  assert (S : Xml.step (Xml.Markup stack) c = Xml.OpenName (String c EmptyString) stack).
  { simpl. rewrite E. reflexivity. }
  rewrite S. exact (run_open_name _ _ _ H).
Qed.

Lemma run_open key stack :
  is_name key = true ->
  Xml.run (Xml.Content stack) (open_tag key)
  = Xml.Content (Xml.Frame key EmptyString [] :: stack).
Proof. intros H. exact (run_markup_open key stack H). Qed.

Lemma run_prolog_open key :
  is_name key = true ->
  Xml.run Xml.Prolog (open_tag key) = Xml.Content [Xml.Frame key EmptyString []].
Proof. intros H. exact (run_markup_open key [] H). Qed.

Lemma run_close_name acc stack r :
  Text.all_chars name_char r = true ->
  Xml.run (Xml.CloseName acc stack) (r +:+ ">") = Xml.close (acc +:+ r) stack.
Proof.
  revert acc. induction r as [|c r IH]; intros acc H.
  - rewrite append_nil_r. reflexivity.
  - simpl in H. apply andb_true_iff in H as [Hc Hr].
    rewrite append_cons. rewrite xml_run_cons.
    assert (E : Xml.step (Xml.CloseName acc stack) c = Xml.CloseName (Xml.snoc acc c) stack).
    { unfold name_char in Hc. simpl. destruct (Xml.classify c); try discriminate; reflexivity. }
    rewrite E, (IH _ Hr). unfold Xml.snoc. rewrite append_assoc. reflexivity.
Qed.

Lemma run_close key txt kids outer :
  is_name key = true ->
  Xml.run (Xml.Content (Xml.Frame key txt kids :: outer)) (close_tag key)
  = Xml.add_child (Elem key (Xml.text_of txt) (List.rev kids)) outer.
Proof.
  intros H. apply is_name_chars in H.
  change (Xml.run (Xml.Content (Xml.Frame key txt kids :: outer)) (close_tag key))
    with (Xml.run (Xml.CloseName EmptyString (Xml.Frame key txt kids :: outer)) (key +:+ ">")).
  rewrite (run_close_name _ _ _ H). unfold Xml.close. simpl.
  rewrite String.eqb_refl. reflexivity.
Qed.

Lemma add_child_frame e t txt kids outer :
  Xml.add_child e (Xml.Frame t txt kids :: outer)
  = Xml.Content (Xml.Frame t txt (e :: kids) :: outer).
Proof. reflexivity. Qed.

Lemma element_tags key v : element key v = open_tag key +:+ v +:+ close_tag key.
Proof. exact (element_chunks key v). Qed.

Lemma run_element key v t txt kids outer :
  is_name key = true ->
  Text.all_chars xml_plain v = true ->
  Xml.run (Xml.Content (Xml.Frame t txt kids :: outer)) (element key v)
  = Xml.Content (Xml.Frame t txt (leaf key v :: kids) :: outer).
Proof.
  intros Hk Hv. rewrite element_tags, !xml_run_app.
  rewrite (run_open _ _ Hk), (run_text _ _ _ _ Hv), append_nil_l, (run_close _ _ _ _ Hk).
  reflexivity.
Qed.

Lemma run_slot key patient t txt kids outer :
  is_name key = true ->
  (forall k v, patient !! k = Some v -> plain_text v = true) ->
  Xml.run (Xml.Content (Xml.Frame t txt kids :: outer)) (_opt patient key)
  = Xml.Content (Xml.Frame t txt (slot patient key ++ kids) :: outer).
Proof.
  intros Hk Hv.
  destruct (string_dec (field patient key) "") as [E|E].
  - rewrite (opt_empty _ _ E). unfold slot. rewrite E. reflexivity.
  - rewrite (opt_present _ _ E). rewrite run_element; [|exact Hk|].
    + unfold slot. destruct (field patient key); [congruence|]. reflexivity.
    + unfold field. destruct (patient !! key) as [v|] eqn:L; [|reflexivity].
      apply Hv in L. unfold plain_text in L. apply andb_true_iff in L. tauto.
Qed.

(** *** The header *)

Lemma hex_plain c : is_hex c = true -> xml_plain c = true.
Proof.
  destruct c as [[] [] [] [] [] [] [] []]; vm_compute; intros H;
    first [reflexivity | discriminate H].
Qed.

Lemma hex_ascii c : is_hex c = true -> is_ascii c = true.
Proof.
  destruct c as [[] [] [] [] [] [] [] []]; vm_compute; intros H;
    first [reflexivity | discriminate H].
Qed.

Lemma digit_hex c : PyInt.is_digit c = true -> is_hex c = true.
Proof. unfold is_hex, PyInt.is_digit. intros ->. reflexivity. Qed.

Lemma plain_not_quote c : xml_plain c = true -> not_quote c = true.
Proof. unfold xml_plain, not_quote. destruct (Xml.classify c); try discriminate; tauto. Qed.

Lemma plain_now_ts w : Text.all_chars xml_plain (_now_ts w) = true.
Proof.
  eapply all_chars_impl; [|apply digits_now_ts]. intros c H. apply hex_plain, digit_hex, H.
Qed.

Lemma plain_msg_id w : Text.all_chars xml_plain (_msg_id w) = true.
Proof. exact (all_chars_impl _ _ _ hex_plain (hex_msg_id w)). Qed.

Lemma ascii_now_ts w : Text.all_chars is_ascii (_now_ts w) = true.
Proof.
  eapply all_chars_impl; [|apply digits_now_ts]. intros c H. apply hex_ascii, digit_hex, H.
Qed.

Lemma ascii_msg_id w : Text.all_chars is_ascii (_msg_id w) = true.
Proof. exact (all_chars_impl _ _ _ hex_ascii (hex_msg_id w)). Qed.

Lemma header_pieces w :
  _build_msh_xml w "CLIENT_ADD" None
  = open_tag "MSH" +:+ indent4
    +:+ element "MSH.3" EXTERNAL_SYSTEM_ID +:+ indent4
    +:+ open_tag "MSH.7" +:+ element "TS.1" (_now_ts w) +:+ close_tag "MSH.7" +:+ indent4
    +:+ open_tag "MSH.9" +:+ indent8
    +:+ element "MSG.1" "WEB" +:+ indent8
    +:+ element "MSG.2" "CLIENT_ADD" +:+ indent4
    +:+ close_tag "MSH.9" +:+ indent4
    +:+ element "MSH.10" (_msg_id w) +:+ indent4
    +:+ element "MSH.18" "UTF-8" +:+ indent4 +:+ indent0
    +:+ close_tag "MSH".
Proof.
  unfold _build_msh_xml, element, open_tag, close_tag, indent0, indent4, indent8.
  cbv beta zeta iota. rewrite !append_assoc. reflexivity.
Qed.

Lemma app_not_nil {A : Type} (l kids : list A) : kids <> [] -> (l ++ kids)%list <> [].
Proof. destruct l; [tauto|discriminate]. Qed.

Ltac run_side :=
  first
    [ assumption
    | apply plain_now_ts
    | apply plain_msg_id
    | discriminate
    | apply app_not_nil; run_side
    | vm_compute; reflexivity ].

Ltac run_piece :=
  first
    [ rewrite run_prolog_open by run_side
    | rewrite run_open by run_side
    | rewrite run_close by run_side; rewrite ?add_child_frame
    | rewrite run_element by run_side
    | rewrite run_slot by run_side
    | rewrite run_text by run_side
    | rewrite run_discard by run_side ].

Lemma run_header w t txt kids outer :
  Xml.run (Xml.Content (Xml.Frame t txt kids :: outer)) (_build_msh_xml w "CLIENT_ADD" None)
  = Xml.Content (Xml.Frame t txt (header_tree w "CLIENT_ADD" :: kids) :: outer).
Proof.
  rewrite header_pieces, !xml_run_app.
  repeat run_piece. reflexivity.
Qed.

(** *** The body of [client_add] *)

Lemma client_add_body_pieces msh patient lastname firstname bdate :
  patient !! "LASTNAME" = Some lastname ->
  patient !! "FIRSTNAME" = Some firstname ->
  patient !! "BDATE" = Some bdate ->
  client_add_body msh patient
  = Ret (Xml.declaration +:+ "
<WEB_CLIENT_ADD xmlns=" +:+ Xml.quoted "http://sdsys.ru/"
         +:+ ">" +:+ client_add_content msh lastname firstname bdate patient).
Proof.
  intros Hl Hf Hb. unfold client_add_body, subscript. rewrite Hl, Hf, Hb.
  cbv beta iota delta [bind]. f_equal.
  unfold client_add_content, element, open_tag, close_tag, indent0, indent4, indent8.
  rewrite !append_assoc. reflexivity.
Qed.

Section PlainPatient.

Variable w : World.
Variable patient : gmap string string.
Variables lastname firstname bdate : string.

Hypothesis Hplain : forall k v, patient !! k = Some v -> plain_text v = true.
Hypothesis Hlastname : patient !! "LASTNAME" = Some lastname.
Hypothesis Hfirstname : patient !! "FIRSTNAME" = Some firstname.
Hypothesis Hbdate : patient !! "BDATE" = Some bdate.

Let content : string :=
  client_add_content (_build_msh_xml w "CLIENT_ADD" None) lastname firstname bdate patient.

Lemma value_plain k v : patient !! k = Some v -> Text.all_chars xml_plain v = true.
Proof. intros H. apply Hplain in H. apply andb_true_iff in H. tauto. Qed.

Lemma value_well_formed k v : patient !! k = Some v -> Utf8.well_formed v = true.
Proof. intros H. apply Hplain in H. apply andb_true_iff in H. tauto. Qed.

Lemma field_plain k : Text.all_chars xml_plain (field patient k) = true.
Proof.
  unfold field. destruct (patient !! k) as [v|] eqn:E; [exact (value_plain _ _ E)|].
  reflexivity.
Qed.

Lemma field_well_formed k : Utf8.well_formed (field patient k) = true.
Proof.
  unfold field. destruct (patient !! k) as [v|] eqn:E; [exact (value_well_formed _ _ E)|].
  reflexivity.
Qed.

Lemma opt_good (p : ascii -> bool) key :
  (forall c, xml_plain c = true -> p c = true) ->
  Text.all_chars p (open_tag key) = true ->
  Text.all_chars p (close_tag key) = true ->
  Text.all_chars p (_opt patient key) = true.
Proof.
  intros Hp Ho Hc.
  destruct (string_dec (field patient key) "") as [E|E].
  - rewrite (opt_empty _ _ E). reflexivity.
  - rewrite (opt_present _ _ E), element_tags, !all_chars_app, Ho, Hc.
    rewrite (all_chars_impl _ _ _ Hp (field_plain key)). reflexivity.
Qed.

Lemma opt_well_formed key :
  Utf8.well_formed (open_tag key) = true ->
  Utf8.well_formed (close_tag key) = true ->
  Utf8.well_formed (_opt patient key) = true.
Proof.
  intros Ho Hc.
  destruct (string_dec (field patient key) "") as [E|E].
  - rewrite (opt_empty _ _ E). reflexivity.
  - rewrite (opt_present _ _ E), element_tags.
    apply well_formed_app; [exact Ho|]. apply well_formed_app; [|exact Hc].
    apply field_well_formed.
Qed.

Lemma element_well_formed key v :
  Utf8.well_formed (open_tag key) = true ->
  Utf8.well_formed (close_tag key) = true ->
  Utf8.well_formed v = true ->
  Utf8.well_formed (element key v) = true.
Proof.
  intros Ho Hc Hv. rewrite element_tags.
  apply well_formed_app; [exact Ho|]. apply well_formed_app; [exact Hv|exact Hc].
Qed.

Lemma header_well_formed : Utf8.well_formed (_build_msh_xml w "CLIENT_ADD" None) = true.
Proof.
  apply ascii_well_formed. rewrite header_pieces.
  unfold element. rewrite !all_chars_app, ascii_now_ts, ascii_msg_id. reflexivity.
Qed.

Lemma header_not_quote : Text.all_chars not_quote (_build_msh_xml w "CLIENT_ADD" None) = true.
Proof.
  rewrite header_pieces. unfold element. rewrite !all_chars_app.
  rewrite (all_chars_impl _ _ _ plain_not_quote (plain_now_ts w)).
  rewrite (all_chars_impl _ _ _ plain_not_quote (plain_msg_id w)). reflexivity.
Qed.

Ltac wf_chunk :=
  lazymatch goal with
  | |- Utf8.well_formed (_opt _ _) = true =>
      apply opt_well_formed; vm_compute; reflexivity
  | |- Utf8.well_formed (element _ _) = true =>
      apply element_well_formed;
      [vm_compute; reflexivity | vm_compute; reflexivity | eapply value_well_formed; eassumption]
  | |- Utf8.well_formed (_build_msh_xml _ _ _) = true => apply header_well_formed
  | |- _ => vm_compute; reflexivity
  end.

Ltac wf_chunks :=
  lazymatch goal with
  | |- Utf8.well_formed (_ +:+ _) = true => apply well_formed_app; [wf_chunk | wf_chunks]
  | |- _ => wf_chunk
  end.

Lemma content_well_formed : Utf8.well_formed content = true.
Proof. unfold content, client_add_content. wf_chunks. Qed.

Lemma content_not_quote : Text.all_chars not_quote content = true.
Proof.
  unfold content, client_add_content, element.
  rewrite !all_chars_app, header_not_quote.
  rewrite !(opt_good not_quote _ plain_not_quote) by (vm_compute; reflexivity).
  rewrite (all_chars_impl _ _ _ plain_not_quote (value_plain _ _ Hlastname)).
  rewrite (all_chars_impl _ _ _ plain_not_quote (value_plain _ _ Hfirstname)).
  rewrite (all_chars_impl _ _ _ plain_not_quote (value_plain _ _ Hbdate)).
  reflexivity.
Qed.

End PlainPatient.

Ltac run_body_piece :=
  first [ rewrite run_header | run_piece ].

Lemma rev_cons_snoc {A : Type} (x : A) (l : list A) : List.rev (x :: l) = (List.rev l ++ [x])%list.
Proof. reflexivity. Qed.

Lemma rev_slot patient key : List.rev (slot patient key) = slot patient key.
Proof. unfold slot. destruct (field patient key); reflexivity. Qed.

Lemma parse_client_add_body w patient lastname firstname bdate body :
  (forall k v, patient !! k = Some v -> plain_text v = true) ->
  patient !! "LASTNAME" = Some lastname ->
  patient !! "FIRSTNAME" = Some firstname ->
  patient !! "BDATE" = Some bdate ->
  client_add_body (_build_msh_xml w "CLIENT_ADD" None) patient = Ret body ->
  parse_response body = Ret (client_add_tree w patient).
Proof.
  intros Hplain Hl Hf Hb Hbody.
  rewrite (client_add_body_pieces _ _ _ _ _ Hl Hf Hb) in Hbody. injection Hbody as <-.
  pose proof (content_well_formed w patient lastname firstname bdate Hplain Hl Hf Hb) as Hwf.
  pose proof (content_not_quote w patient lastname firstname bdate Hplain Hl Hf Hb) as Hnq.
  pose proof (value_plain patient Hplain _ _ Hl) as Pl.
  pose proof (value_plain patient Hplain _ _ Hf) as Pf.
  pose proof (value_plain patient Hplain _ _ Hb) as Pb.
  cbv zeta in Hwf, Hnq.
  unfold parse_response, Utf8.decode.
  rewrite well_formed_app;
    [|vm_compute; reflexivity
     |apply well_formed_app;
        [vm_compute; reflexivity
        |apply well_formed_app;
           [vm_compute; reflexivity
           |apply well_formed_app; [vm_compute; reflexivity|exact Hwf]]]].
  cbv beta iota delta [bind]. unfold NsRegex.strip_namespaces.
  rewrite sub_go_client_add_root by (rewrite all_chars_app, Hnq; reflexivity).
  unfold Xml.fromstring. rewrite strip_prefix_app.
  change ("
<WEB_CLIENT_ADD" +:+ ">"
          +:+ client_add_content (_build_msh_xml w "CLIENT_ADD" None)
                lastname firstname bdate patient)
    with (indent0 +:+ open_tag "WEB_CLIENT_ADD"
          +:+ client_add_content (_build_msh_xml w "CLIENT_ADD" None)
                lastname firstname bdate patient).
  unfold client_add_content. rewrite !xml_run_app.
  change (Xml.run Xml.Prolog indent0) with Xml.Prolog.
  repeat run_body_piece.
  unfold Xml.add_child, Xml.finish, client_add_tree, fields_tree, field.
  rewrite Hl, Hf, Hb. cbn [default from_option].
  repeat first [ rewrite rev_app_distr | rewrite rev_slot | rewrite rev_cons_snoc ].
  rewrite <- !app_assoc. reflexivity.
Qed.

(** *** Looking the fields up in the tree *)

Lemma filter_leaf name key v :
  filter (fun d => has_tag name d = true) [leaf key v]
  = if String.eqb key name then [leaf key v] else [].
Proof.
  destruct (String.eqb key name) eqn:E.
  - rewrite filter_cons_True by exact E. reflexivity.
  - rewrite filter_cons_False by (unfold has_tag; simpl; rewrite E; discriminate).
    reflexivity.
Qed.

Lemma filter_slot name patient key :
  filter (fun d => has_tag name d = true) (slot patient key)
  = if String.eqb key name then slot patient key else [].
Proof.
  unfold slot. destruct (field patient key).
  - destruct (String.eqb key name); reflexivity.
  - apply filter_leaf.
Qed.

Lemma iter_slot patient key : flat_map iter (slot patient key) = slot patient key.
Proof. unfold slot. destruct (field patient key); reflexivity. Qed.

Lemma iter_fields patient : flat_map iter (fields_tree patient) = fields_tree patient.
Proof.
  unfold fields_tree. rewrite !flat_map_app, !iter_slot. reflexivity.
Qed.

Lemma filter_fields name patient :
  filter (fun d => has_tag name d = true) (fields_tree patient)
  = ((if String.eqb "LASTNAME" name then [leaf "LASTNAME" (field patient "LASTNAME")] else [])
     ++ (if String.eqb "FIRSTNAME" name then [leaf "FIRSTNAME" (field patient "FIRSTNAME")] else [])
     ++ (if String.eqb "MIDNAME" name then slot patient "MIDNAME" else [])
     ++ (if String.eqb "EMAIL" name then slot patient "EMAIL" else [])
     ++ (if String.eqb "PHONE" name then slot patient "PHONE" else [])
     ++ (if String.eqb "BDATE" name then [leaf "BDATE" (field patient "BDATE")] else [])
     ++ (if String.eqb "GENDER" name then slot patient "GENDER" else [])
     ++ (if String.eqb "SNILS" name then slot patient "SNILS" else [])
     ++ (if String.eqb "NSP" name then slot patient "NSP" else [])
     ++ (if String.eqb "CHECKMODE" name then slot patient "CHECKMODE" else [])
     ++ (if String.eqb "REFUSECALL" name then slot patient "REFUSECALL" else [])
     ++ (if String.eqb "REFUSESMS" name then slot patient "REFUSESMS" else []))%list.
Proof.
  unfold fields_tree. rewrite !filter_app, !filter_leaf, !filter_slot. reflexivity.
Qed.

Lemma header_has_no_fields_section w :
  filter (fun d => has_tag "CLIENT_ADD_IN" d = true) (iter (header_tree w "CLIENT_ADD")) = [].
Proof. reflexivity. Qed.

Lemma iterfind_field w patient key :
  iterfind (client_add_tree w patient) [Descendant "CLIENT_ADD_IN"; Child key]
  = filter (fun d => has_tag key d = true) (fields_tree patient).
Proof.
  unfold iterfind, client_add_tree.
  cbn [fold_left select children flat_map].
  rewrite !app_nil_r, filter_app, header_has_no_fields_section.
  rewrite iter_unfold. cbn [children].
  rewrite filter_cons_True by reflexivity.
  rewrite iter_fields, filter_fields. cbn [String.eqb Ascii.eqb Bool.eqb app].
  cbn [flat_map children]. rewrite app_nil_r. reflexivity.
Qed.

Lemma text_of_leaf key v : text_or_empty (leaf key v) = v.
Proof. destruct v; reflexivity. Qed.

Lemma lookup_required w patient key :
  In key required_fields ->
  iterfind (client_add_tree w patient) [Descendant "CLIENT_ADD_IN"; Child key]
  = [leaf key (field patient key)].
Proof.
  intros Hin. rewrite iterfind_field, filter_fields. simpl in Hin.
  destruct Hin as [<-|[<-|[<-|[]]]]; reflexivity.
Qed.

Lemma lookup_optional w patient key :
  In key optional_fields ->
  iterfind (client_add_tree w patient) [Descendant "CLIENT_ADD_IN"; Child key]
  = slot patient key.
Proof.
  intros Hin. rewrite iterfind_field, filter_fields. simpl in Hin.
  repeat (destruct Hin as [<-|Hin];
          [cbn [String.eqb Ascii.eqb Bool.eqb]; rewrite ?app_nil_r; reflexivity|]).
  destruct Hin.
Qed.

(** ** Round trip of a patient record *)

(** C9, the code at the failing inputs: the values of a patient record are
    written into the body as they are. A last name with an ampersand gives a
    body that the parse path of the client rejects, so that nothing is
    recovered; a last name with markup is not recovered, and gives an EMAIL
    element to a record that had no EMAIL. *)
Theorem markup_breaks_round_trip :
  bind (client_add_body (_build_msh_xml echo "CLIENT_ADD" None) with_ampersand)
       parse_response
  = Raise ParseError
  /\ with_markup !! "EMAIL" = None
  /\ bind (client_add_body (_build_msh_xml echo "CLIENT_ADD" None) with_markup)
       (fun body =>
          bind (parse_response body) (fun root =>
          Ret (findtext root [Descendant "CLIENT_ADD_IN"; Child "LASTNAME"] "",
               find root [Descendant "CLIENT_ADD_IN"; Child "EMAIL"])))
     = Ret ("Ivanov", Some (Elem "EMAIL" (Some "x@example.com") []))
  /\ with_markup !! "LASTNAME" <> Some "Ivanov".
Proof.
  split; [vm_compute; reflexivity|]. split; [vm_compute; reflexivity|].
  split; [vm_compute; reflexivity|]. vm_compute. discriminate.
Qed.

(** X17: for every patient record that has the three required keys and
    whose values need no escaping (well-formed UTF-8 without opening or
    closing angle bracket, ampersand, double quote, carriage return or
    other control character below U+0020 except tab and newline, and without
    the byte EF, the lead byte of U+F000..U+FFFF), the CLIENT_ADD body that
    is built is accepted by the parse path of the client, and in the tree
    every field that was present is found with its value unchanged, every
    required field has one element, and an optional field has an element
    exactly when its value is not empty, so none when it was absent. *)
Theorem plain_record_round_trip
    (w : World) (patient : gmap string string) (xml_body : string) :
  (forall k v, patient !! k = Some v -> plain_text v = true) ->
  client_add_body (_build_msh_xml w "CLIENT_ADD" None) patient = Ret xml_body ->
  exists root,
    parse_response xml_body = Ret root
    /\ (forall key v,
          In key (required_fields ++ optional_fields) ->
          patient !! key = Some v ->
          findtext root [Descendant "CLIENT_ADD_IN"; Child key] "" = v)
    /\ (forall key,
          In key required_fields ->
          exists v, patient !! key = Some v
                    /\ findall root [Descendant "CLIENT_ADD_IN"; Child key] = [leaf key v])
    /\ (forall key,
          In key optional_fields ->
          field patient key <> "" ->
          findall root [Descendant "CLIENT_ADD_IN"; Child key]
          = [Elem key (Some (field patient key)) []])
    /\ (forall key,
          In key optional_fields ->
          field patient key = "" ->
          find root [Descendant "CLIENT_ADD_IN"; Child key] = None).
Proof.
  intros Hplain Hbody.
  destruct (client_add_body_ret _ _ _ Hbody) as (l & f & b & Hl & Hf & Hb & _).
  exists (client_add_tree w patient). split; [|split; [|split; [|split]]].
  - exact (parse_client_add_body w patient l f b xml_body Hplain Hl Hf Hb Hbody).
  - intros key v Hin Hv. unfold findtext, find.
    apply in_app_or in Hin as [Hin|Hin].
    + rewrite (lookup_required _ _ _ Hin). simpl. rewrite text_of_leaf.
      unfold field. rewrite Hv. reflexivity.
    + rewrite (lookup_optional _ _ _ Hin). unfold slot, field. rewrite Hv. simpl.
      destruct v; reflexivity.
  - intros key Hin. exists (field patient key). split.
    + unfold field. simpl in Hin. destruct Hin as [<-|[<-|[<-|[]]]];
        [rewrite Hl|rewrite Hf|rewrite Hb]; reflexivity.
    + exact (lookup_required _ _ _ Hin).
  - intros key Hin Hne. unfold findall. rewrite (lookup_optional _ _ _ Hin).
    unfold slot, leaf. destruct (field patient key); [congruence|reflexivity].
  - intros key Hin He. unfold find. rewrite (lookup_optional _ _ _ Hin).
    unfold slot. rewrite He. reflexivity.
Qed.

Lemma test_patient_is_plain k v : TEST_PATIENT !! k = Some v -> plain_text v = true.
Proof.
  intros H. unfold TEST_PATIENT in H.
  repeat (apply lookup_insert_Some in H as [[_ <-]|[_ H]]; [vm_compute; reflexivity|]).
  rewrite lookup_empty in H. discriminate.
Qed.

Lemma plain_record_round_trip_witness :
  exists root,
    parse_response
      (match client_add_body (_build_msh_xml echo "CLIENT_ADD" None) TEST_PATIENT with
       | Ret body => body
       | _ => ""
       end) = Ret root
    /\ findtext root [Descendant "CLIENT_ADD_IN"; Child "LASTNAME"] "" = "Тестов"
    /\ findtext root [Descendant "CLIENT_ADD_IN"; Child "PHONE"] "" = "+7(999)000-00-00"
    /\ find root [Descendant "CLIENT_ADD_IN"; Child "SNILS"] = None.
Proof.
  destruct (plain_record_round_trip echo TEST_PATIENT
              (match client_add_body (_build_msh_xml echo "CLIENT_ADD" None) TEST_PATIENT with
               | Ret body => body
               | _ => ""
               end))
    as (root & Hsend & Hpresent & _ & _ & Habsent).
  - exact test_patient_is_plain.
  - vm_compute. reflexivity.
  - exists root. split; [exact Hsend|]. split; [|split].
    + apply Hpresent; [simpl; tauto|vm_compute; reflexivity].
    + apply Hpresent; [simpl; tauto|vm_compute; reflexivity].
    + apply Habsent; [simpl; tauto|vm_compute; reflexivity].
Defined.

(** ** What the request body depends on *)

(** X1: the body of the CLIENT_ADD request, and with it the whole call,
    depends on the patient mapping through the twelve known keys only: two
    mappings that agree on them give the same body and the same call, so a
    key the builder does not know is dropped without notice. *)
Theorem client_add_ignores_unknown_keys
    (w : World) (msh : string) (patient other : gmap string string) :
  (forall key, In key (required_fields ++ optional_fields) ->
               patient !! key = other !! key) ->
  client_add_body msh patient = client_add_body msh other
  /\ client_add w (Some patient) = client_add w (Some other).
Proof.
  intros H.
  assert (Hbody : forall m, client_add_body m patient = client_add_body m other).
  { intros m. unfold client_add_body, subscript, _opt.
    rewrite !H by (simpl; tauto). reflexivity. }
  split; [apply Hbody|].
  unfold client_add. cbn [default from_option]. rewrite Hbody. reflexivity.
Qed.

Lemma client_add_ignores_unknown_keys_witness :
  client_add_body "<MSH/>" with_unknown_key = client_add_body "<MSH/>" only_required
  /\ client_add echo (Some with_unknown_key) = client_add echo (Some only_required).
Proof.
  apply client_add_ignores_unknown_keys. intros key Hin. unfold with_unknown_key.
  apply lookup_insert_ne. simpl in Hin. intros <-.
  repeat (destruct Hin as [Hin|Hin]; [discriminate Hin|]). destruct Hin.
Defined.

(** ** Responses without an output section *)

Lemma iterfind_below_nothing root name child :
  findall root [Descendant name] = [] ->
  iterfind root [Descendant name; Child child] = [].
Proof.
  unfold findall, iterfind. cbn [fold_left]. intros ->. reflexivity.
Qed.

(** X2: when a parsed response holds no CLIENT_ADD_OUT element, whatever
    else it holds, what [client_add] makes of it is the empty identifier, the
    sentinel -999 and the empty comment; when it holds no
    CLIENTS_CHANGE_LIST_OUT element, what [clients_change_list] makes of it
    is the empty list, even when the response is acknowledged and holds
    change events. *)
Theorem missing_output_section (root : Element) :
  (findall root [Descendant "CLIENT_ADD_OUT"] = [] ->
   _spresult root "CLIENT_ADD_OUT" = Ret (-999, "")
   /\ client_add_result root = Ret {| pcode := ""; spresult := -999; spcomment := "" |})
  /\ (findall root [Descendant "CLIENTS_CHANGE_LIST_OUT"] = [] ->
      _spresult root "CLIENTS_CHANGE_LIST_OUT" = Ret (-999, "")
      /\ clients_change_list_result root = Ret []).
Proof.
  split; intros Hnone.
  - unfold client_add_result, _spresult, findtext, find.
    rewrite !(iterfind_below_nothing _ _ _ Hnone). split; reflexivity.
  - unfold clients_change_list_result, _spresult, findtext, find.
    rewrite !(iterfind_below_nothing _ _ _ Hnone). simpl.
    rewrite andb_false_r. split; reflexivity.
Qed.

Lemma missing_output_section_witness :
  findtext (tree acknowledged_only) [Descendant "MSA.1"] "" = "AA"
  /\ client_add_result (tree acknowledged_only)
     = Ret {| pcode := ""; spresult := -999; spcomment := "" |}
  /\ clients_change_list_result (tree acknowledged_only) = Ret [].
Proof.
  split; [vm_compute; reflexivity|]. split.
  - apply (proj1 (missing_output_section (tree acknowledged_only))).
    vm_compute. reflexivity.
  - apply (proj2 (missing_output_section (tree acknowledged_only))).
    vm_compute. reflexivity.
Defined.

(** ** Failures of the transport and of the parse path *)



(** X4: how the steps of the transport fail, step by step. In the try
    block, when [urlopen] fails with an error that is no HTTPError, that
    error is raised after the one call of [urlopen], without a warning. In
    the parse path, bytes that are not well-formed UTF-8 raise
    UnicodeDecodeError, and a decoded text that the parser rejects raises
    ParseError. *)
Theorem send_request_failures :
  (forall w req e,
      urlopen w req = Failure e ->
      is_http_error e = false ->
      fetch w req = (Raise e, [Sent req]))
  /\ (forall raw,
        Utf8.well_formed raw = false ->
        parse_response raw = Raise UnicodeDecodeError)
  /\ (forall raw stripped,
        Utf8.well_formed raw = true ->
        NsRegex.strip_namespaces raw = Ret stripped ->
        Xml.fromstring stripped = Raise ParseError ->
        parse_response raw = Raise ParseError).
Proof.
  split; [|split].
  - intros w req e H He. exact (fetch_other_error w req e H He).
  - intros raw Hraw. unfold parse_response, Utf8.decode. rewrite Hraw. reflexivity.
  - intros raw stripped Hraw Hstrip Hparse.
    unfold parse_response, Utf8.decode. rewrite Hraw. cbn [bind].
    rewrite Hstrip. cbn [bind]. exact Hparse.
Qed.

Lemma send_request_failures_witness :
  fetch unreachable a_request = (Raise (OSError "timed out"), [Sent a_request])
  /\ parse_response (String (ascii_of_nat 255) "<R/>") = Raise UnicodeDecodeError
  /\ parse_response "<R>A&B</R>" = Raise ParseError.
Proof.
  split; [|split].
  - apply (proj1 send_request_failures unreachable a_request); reflexivity.
  - apply (proj1 (proj2 send_request_failures)). vm_compute. reflexivity.
  - apply (proj2 (proj2 send_request_failures) "<R>A&B</R>" "<R>A&B</R>");
      vm_compute; reflexivity.
Defined.

(** ** The requests a call sends *)

Lemma sent_requests_app (t u : list event) :
  sent_requests (t ++ u) = (sent_requests t ++ sent_requests u)%list.
Proof. unfold sent_requests. apply flat_map_app. Qed.

(** X5: as the code is written, no call reaches [urlopen].
    [_send_request] raises the TypeError of [load_verify_locations], which
    is given nothing to load, before the try block, so that it calls
    [urlopen] not once and prints no warning; [clients_change_list] raises
    that TypeError on every call, and [client_add] raises it whenever the
    three required keys are present, and the KeyError of the first missing
    key otherwise. *)
Theorem no_call_reaches_urlopen (w : World) :
  (forall xml_body filial_id,
      _send_request w xml_body filial_id = (Raise nothing_to_load, []))
  /\ (forall filial_id,
        clients_change_list w filial_id = (Raise nothing_to_load, []))
  /\ (forall patient,
        client_add w patient = (Raise nothing_to_load, [])
        \/ exists key,
             In key required_fields
             /\ default TEST_PATIENT patient !! key = None
             /\ client_add w patient = (Raise (KeyError key), []))
  /\ (forall filial_id, sent_requests (snd (clients_change_list w filial_id)) = [])
  /\ (forall patient, sent_requests (snd (client_add w patient)) = []).
Proof.
  assert (Hadd : forall patient,
             client_add w patient = (Raise nothing_to_load, [])
             \/ exists key,
                  In key required_fields
                  /\ default TEST_PATIENT patient !! key = None
                  /\ client_add w patient = (Raise (KeyError key), [])).
  { intros patient. rewrite client_add_ends. unfold client_add_body, subscript.
    destruct (_ !! "LASTNAME") eqn:HL;
      [|right; exists "LASTNAME"; simpl; tauto].
    destruct (_ !! "FIRSTNAME") eqn:HF;
      [|right; exists "FIRSTNAME"; simpl; tauto].
    destruct (_ !! "BDATE") eqn:HB;
      [|right; exists "BDATE"; simpl; tauto].
    left. reflexivity. }
  split; [intros; apply send_request_raises|].
  split; [intros; apply clients_change_list_raises|].
  split; [exact Hadd|]. split.
  - intros filial_id. rewrite clients_change_list_raises. reflexivity.
  - intros patient. destruct (Hadd patient) as [->|(key & _ & _ & ->)]; reflexivity.
Qed.

(** X6: the request [_send_request] builds is a POST to the fixed address
    with the XML content type, the XML accept header and the body as data; it
    names the clinic host in the header X-Forwarded-Host exactly when a
    branch id is given. The try block hands the request it is given to
    [urlopen] once, and no other. *)
Theorem request_headers_by_operation (xml_body : string) (filial_id : option Z) :
  url (request_for xml_body filial_id) = API_URL
  /\ method (request_for xml_body filial_id) = "POST"
  /\ data (request_for xml_body filial_id) = xml_body
  /\ headers (request_for xml_body filial_id) !! "Content-Type"
     = Some "application/xml; charset=utf-8"
  /\ headers (request_for xml_body filial_id) !! "Accept" = Some "application/xml"
  /\ headers (request_for xml_body filial_id) !! "X-Forwarded-Host"
     = match filial_id with
       | Some _ => Some CLINIC_HOST
       | None => None
       end
  /\ (forall w, sent_requests (snd (fetch w (request_for xml_body filial_id)))
                = [request_for xml_body filial_id]).
Proof.
  repeat split; try reflexivity.
  - destruct filial_id; reflexivity.
  - destruct filial_id; reflexivity.
  - destruct filial_id; reflexivity.
  - intros w. apply fetch_sent.
Qed.

(** ** Change records *)

Lemma dom_fold_insert (kids : list Element) (d : gmap string string) :
  dom (fold_left (fun d child => <[tag child := Text.strip (text_or_empty child)]> d) kids d)
  = dom d ∪ list_to_set (tag <$> kids).
Proof.
  revert d. induction kids as [|k l IH]; intros d.
  - simpl. set_solver.
  - simpl fold_left. rewrite IH, dom_insert_L. simpl. set_solver.
Qed.

Lemma size_fold_insert (kids : list Element) (d : gmap string string) :
  (size (fold_left (fun d child => <[tag child := Text.strip (text_or_empty child)]> d) kids d)
   <= size d + length kids)%nat.
Proof.
  revert d. induction kids as [|k l IH]; intros d; [simpl; lia|].
  simpl fold_left. etransitivity; [apply IH|].
  rewrite map_size_insert. destruct (d !! tag k); simpl; lia.
Qed.

(** X7: the names of a change record are exactly the tags of the
    children of its element, so a record has at most as many entries as the
    element has children, fewer when two children bear the same tag, and an
    element without children gives the empty record. *)
Theorem change_record_names (node : Element) :
  dom (change_of node) = list_to_set (tag <$> children node)
  /\ (size (change_of node) <= length (children node))%nat
  /\ (children node = [] -> change_of node = ∅).
Proof.
  assert (Hdom : dom (change_of node) = list_to_set (tag <$> children node)).
  { unfold change_of. rewrite dom_fold_insert, dom_empty_L. set_solver. }
  split; [exact Hdom|]. split.
  - unfold change_of. pose proof (size_fold_insert (children node) ∅) as H.
    rewrite map_size_empty in H. exact H.
  - unfold change_of. intros ->. reflexivity.
Qed.

(** ** Lengths of texts *)

Lemma length_append (a b : string) :
  String.length (a +:+ b) = (String.length a + String.length b)%nat.
Proof. induction a as [|c a IH]; [reflexivity|]. rewrite append_cons. simpl. rewrite IH. reflexivity. Qed.

(** ** The result code as a decimal numeral *)

Lemma digits_stop count acc b :
  Text.all_chars Text.c_space b = true ->
  PyInt.digits false count acc b = Some (count, acc, b).
Proof.
  destruct b as [|c r]; [reflexivity|]. simpl. intros H.
  apply andb_true_iff in H as [H _].
  destruct c as [[] [] [] [] [] [] [] []]; try discriminate H; reflexivity.
Qed.

Lemma skip_space_all a s :
  Text.all_chars Text.c_space a = true -> PyInt.skip_space (a +:+ s) = PyInt.skip_space s.
Proof.
  induction a as [|c a IH]; [reflexivity|]. intros H. simpl in H.
  apply andb_true_iff in H as [Hc Ha]. rewrite append_cons.
  change (PyInt.skip_space (String c (a +:+ s)))
    with (if Text.c_space c then PyInt.skip_space (a +:+ s) else String c (a +:+ s)).
  rewrite Hc. exact (IH Ha).
Qed.

Lemma skip_space_only b :
  Text.all_chars Text.c_space b = true -> PyInt.skip_space b = "".
Proof.
  intros H. rewrite <- (append_nil_r b). rewrite (skip_space_all _ _ H). reflexivity.
Qed.

Lemma digits_step c count acc r :
  PyInt.is_digit c = true ->
  PyInt.digits false count acc (String c r)
  = PyInt.digits false (S count) (10 * acc + PyInt.digit_value c) r.
Proof. intros H. simpl. rewrite H. reflexivity. Qed.

(** The numeral of [d] read by [digits] in front of an accumulator. *)
Lemma digits_uint d count p rest :
  PyInt.digits false count (Z.pos p) (NilEmpty.string_of_uint d +:+ rest)
  = PyInt.digits false (Decimal.nb_digits d + count)%nat (Z.pos (Pos.of_uint_acc d p)) rest.
Proof.
  revert count p. induction d; intros count p; [reflexivity|..];
    cbn [NilEmpty.string_of_uint Decimal.nb_digits Pos.of_uint_acc];
    rewrite append_cons, digits_step by reflexivity;
    rewrite Nat.add_succ_l, plus_n_Sm, <- IHd; f_equal;
    match goal with
    | |- context [PyInt.digit_value ?c] =>
        let v := eval vm_compute in (PyInt.digit_value c) in
        change (PyInt.digit_value c) with v
    end; lia.
Qed.

(** The same from zero: leading zeros do not count for the value. *)
Lemma digits_uint_zero d count rest :
  PyInt.digits false count 0 (NilEmpty.string_of_uint d +:+ rest)
  = PyInt.digits false (Decimal.nb_digits d + count)%nat (Z.of_N (Pos.of_uint d)) rest.
Proof.
  revert count. induction d; intros count; [reflexivity|..];
    cbn [NilEmpty.string_of_uint Decimal.nb_digits Pos.of_uint];
    rewrite append_cons, digits_step by reflexivity;
    rewrite Nat.add_succ_l, plus_n_Sm;
    match goal with
    | |- context [PyInt.digit_value ?c] =>
        let v := eval vm_compute in (PyInt.digit_value c) in
        change (10 * 0 + PyInt.digit_value c) with v
    end;
    [apply IHd | apply digits_uint ..].
Qed.

Lemma any_char_ascii s :
  Text.all_chars is_ascii s = true -> Text.any_char Text.non_ascii s = false.
Proof.
  induction s as [|c r IH]; [reflexivity|]. simpl. intros H.
  apply andb_true_iff in H as [Hc Hr]. unfold is_ascii in Hc.
  apply negb_true_iff in Hc. rewrite Hc, (IH Hr). reflexivity.
Qed.

Lemma space_ascii c : Text.c_space c = true -> is_ascii c = true.
Proof. destruct c as [[] [] [] [] [] [] [] []]; try discriminate; reflexivity. Qed.

Lemma digit_ascii c : PyInt.is_digit c = true -> is_ascii c = true.
Proof. destruct c as [[] [] [] [] [] [] [] []]; try discriminate; reflexivity. Qed.

Lemma length_string_of_uint d :
  String.length (NilEmpty.string_of_uint d) = Decimal.nb_digits d.
Proof. induction d; simpl; congruence. Qed.

Lemma numeral_head d :
  d <> Decimal.Nil ->
  exists c r, NilEmpty.string_of_uint d = String c r /\ PyInt.is_digit c = true.
Proof. destruct d; [congruence|..]; intros _; eexists _, _; split; reflexivity. Qed.

(** [int] on a sign, a numeral and white space around them. *)
Lemma int_signed_numeral s sign c r count value rest :
  Text.any_char Text.non_ascii s = false ->
  PyInt.signed (PyInt.skip_space s) = (sign, String c r) ->
  PyInt.is_digit c = true ->
  PyInt.digits false 0 0 (String c r) = Some (S count, value, rest) ->
  PyInt.skip_space rest = "" ->
  (S count <= PyInt.max_str_digits)%nat ->
  PyInt.int s = Ret (sign * value).
Proof.
  intros Ha Hs Hc Hd Hr Hn. unfold PyInt.int. rewrite Ha, Hs.
  assert (U : Text.is_byte 95 c = false).
  { destruct c as [[] [] [] [] [] [] [] []]; try discriminate Hc; reflexivity. }
  rewrite U, Hd, Hr.
  destruct (Nat.ltb_spec PyInt.max_str_digits (S count)); [lia|reflexivity].
Qed.

Lemma int_of_numeral a d b :
  Text.all_chars Text.c_space a = true ->
  Text.all_chars Text.c_space b = true ->
  d <> Decimal.Nil ->
  (Decimal.nb_digits d <= PyInt.max_str_digits)%nat ->
  PyInt.int (a +:+ NilEmpty.string_of_uint d +:+ b) = Ret (Z.of_N (Pos.of_uint d))
  /\ PyInt.int (a +:+ "-" +:+ NilEmpty.string_of_uint d +:+ b) = Ret (- Z.of_N (Pos.of_uint d)).
Proof.
  intros Ha Hb Hd Hn.
  destruct (numeral_head d Hd) as (c & r & E & Hc).
  assert (Hnum : Text.all_chars is_ascii (NilEmpty.string_of_uint d) = true).
  { exact (all_chars_impl _ _ _ digit_ascii (digits_of_uint d)). }
  pose proof (all_chars_impl _ _ _ space_ascii Ha) as Aa.
  pose proof (all_chars_impl _ _ _ space_ascii Hb) as Ab.
  assert (Hdig : PyInt.digits false 0 0 (String c r +:+ b)
                 = Some (S (pred (Decimal.nb_digits d)), Z.of_N (Pos.of_uint d), b)).
  { rewrite <- E, digits_uint_zero, Nat.add_0_r, (digits_stop _ _ _ Hb).
    destruct d; [congruence|..]; reflexivity. }
  assert (Hcount : (S (pred (Decimal.nb_digits d)) <= PyInt.max_str_digits)%nat).
  { destruct d; [congruence|..]; exact Hn. }
  assert (Sc : Text.c_space c = false).
  { destruct c as [[] [] [] [] [] [] [] []]; try discriminate Hc; reflexivity. }
  split.
  - replace (Z.of_N (Pos.of_uint d)) with (1 * Z.of_N (Pos.of_uint d)) by lia.
    apply int_signed_numeral with (c := c) (r := r +:+ b)
      (count := pred (Decimal.nb_digits d)) (rest := b).
    + apply any_char_ascii. rewrite !all_chars_app, Aa, Hnum, Ab. reflexivity.
    + rewrite (skip_space_all _ _ Ha), E, append_cons. simpl. rewrite Sc.
      destruct c as [[] [] [] [] [] [] [] []]; try discriminate Hc; reflexivity.
    + exact Hc.
    + rewrite <- append_cons. exact Hdig.
    + exact (skip_space_only _ Hb).
    + exact Hcount.
  - replace (- Z.of_N (Pos.of_uint d)) with (-1 * Z.of_N (Pos.of_uint d)) by lia.
    apply int_signed_numeral with (c := c) (r := r +:+ b)
      (count := pred (Decimal.nb_digits d)) (rest := b).
    + apply any_char_ascii. rewrite !all_chars_app, Aa, Hnum, Ab. reflexivity.
    + rewrite (skip_space_all _ _ Ha), E. reflexivity.
    + exact Hc.
    + rewrite <- append_cons. exact Hdig.
    + exact (skip_space_only _ Hb).
    + exact Hcount.
Qed.

(** [int(str(n))], with white space around the numeral. *)
Lemma int_str_of_int a n b :
  Text.all_chars Text.c_space a = true ->
  Text.all_chars Text.c_space b = true ->
  (String.length (Text.str_of_int n) <= PyInt.max_str_digits)%nat ->
  PyInt.int (a +:+ Text.str_of_int n +:+ b) = Ret n.
Proof.
  intros Ha Hb Hn. unfold Text.str_of_int in *.
  destruct n as [|p|p].
  - apply (int_of_numeral a (Decimal.D0 Decimal.Nil) b Ha Hb); [discriminate|].
    unfold PyInt.max_str_digits. simpl. lia.
  - cbn [Z.to_int NilZero.string_of_int] in *.
    pose proof (DecimalPos.Unsigned.to_uint_nonnil p) as Hd.
    pose proof (DecimalPos.Unsigned.of_to p) as Hv.
    unfold NilZero.string_of_uint in *.
    destruct (Pos.to_uint p) as [| | | | | | | | | |] eqn:E; try congruence;
      rewrite <- E in *;
      (rewrite (proj1 (int_of_numeral a _ b Ha Hb Hd
                 ltac:(rewrite <- length_string_of_uint; exact Hn))), Hv; reflexivity).
  - cbn [Z.to_int NilZero.string_of_int] in *.
    pose proof (DecimalPos.Unsigned.to_uint_nonnil p) as Hd.
    pose proof (DecimalPos.Unsigned.of_to p) as Hv.
    unfold NilZero.string_of_uint in *.
    destruct (Pos.to_uint p) as [| | | | | | | | | |] eqn:E; try congruence;
      rewrite <- E in *; simpl String.length in Hn;
      (pose proof (proj2 (int_of_numeral a _ b Ha Hb Hd
                 ltac:(rewrite <- length_string_of_uint; lia))) as H;
       rewrite Hv in H; rewrite append_cons; exact H).
Qed.

(** X8: a result code written in decimal is read as that number. When the
    text of the SPRESULT element of the output section is the decimal
    numeral of [n] as [str] writes it, with any white space of the C locale
    before and after it, [_spresult] returns [n] and the comment of the
    section; the numeral may have up to 4300 characters. *)
Theorem spresult_reads_decimal (root : Element) (out_tag a b : string) (n : Z) :
  findtext root [Descendant out_tag; Child "SPRESULT"] "-999"
    = a +:+ Text.str_of_int n +:+ b ->
  Text.all_chars Text.c_space a = true ->
  Text.all_chars Text.c_space b = true ->
  (String.length (Text.str_of_int n) <= 4300)%nat ->
  _spresult root out_tag
  = Ret (n, findtext root [Descendant out_tag; Child "SPCOMMENT"] "").
Proof.
  intros Hfound Ha Hb Hn. unfold _spresult. rewrite Hfound.
  rewrite (int_str_of_int a n b Ha Hb Hn).
  destruct (String.eqb_spec (a +:+ Text.str_of_int n +:+ b) "") as [E|_]; [|reflexivity].
  exfalso. apply (f_equal PyInt.int) in E.
  rewrite (int_str_of_int a n b Ha Hb Hn) in E. discriminate E.
Qed.

Lemma spresult_reads_decimal_witness :
  _spresult padded_result "CLIENT_ADD_OUT" = Ret (-17, "late").
Proof.
  apply (spresult_reads_decimal padded_result "CLIENT_ADD_OUT" " " "
" (-17)); [reflexivity | reflexivity | reflexivity | apply Nat.leb_le; reflexivity].
Defined.

(** ** The timestamp *)

Lemma of_uint_acc_bounds d acc :
  (acc * 10 ^ Decimal.nb_digits d <= Nat.of_uint_acc d acc
   /\ Nat.of_uint_acc d acc < (acc + 1) * 10 ^ Decimal.nb_digits d)%nat.
Proof.
  revert acc. induction d; intros acc;
    cbn [Nat.of_uint_acc Decimal.nb_digits];
    [rewrite Nat.pow_0_r; lia|..];
    rewrite Nat.tail_mul_spec, Nat.pow_succ_r';
    match goal with
    | |- context [Nat.of_uint_acc _ ?a] => specialize (IHd a)
    end;
    set (P := (10 ^ Decimal.nb_digits d)%nat) in *; nia.
Qed.

Lemma to_uint_normal n : Decimal.unorm (Nat.to_uint n) = Nat.to_uint n.
Proof.
  rewrite <- (DecimalNat.Unsigned.of_to n) at 2.
  symmetry. apply DecimalNat.Unsigned.to_of.
Qed.

Lemma to_uint_not_nil n : Nat.to_uint n <> Decimal.Nil.
Proof.
  rewrite <- to_uint_normal. unfold Decimal.unorm.
  destruct (Decimal.nzhead (Nat.to_uint n)); discriminate.
Qed.

Lemma nzhead_shorter d : Decimal.nzhead (Decimal.D0 d) <> Decimal.D0 d.
Proof.
  intros H. pose proof (DecimalFacts.nb_digits_nzhead d) as L.
  apply (f_equal Decimal.nb_digits) in H. simpl in H. lia.
Qed.

Lemma digits_of_nat w n :
  (0 < w)%nat -> (n < 10 ^ w)%nat -> (Decimal.nb_digits (Nat.to_uint n) <= w)%nat.
Proof.
  intros Hw Hn.
  pose proof (to_uint_normal n) as Hnorm.
  pose proof (DecimalNat.Unsigned.of_to n) as Hval.
  destruct (Nat.to_uint n) as [|d|d|d|d|d|d|d|d|d|d] eqn:E.
  1: { simpl. lia. }
  1: { unfold Decimal.unorm in Hnorm.
       destruct (Decimal.nzhead (Decimal.D0 d)) eqn:Z;
         try (exfalso; apply (nzhead_shorter d); congruence).
       injection Hnorm as <-. simpl. lia. }
  all: unfold Nat.of_uint in Hval; cbn [Nat.of_uint_acc] in Hval;
    match type of Hval with
    | Nat.of_uint_acc ?x ?a = _ => pose proof (proj1 (of_uint_acc_bounds x a)) as B
    end;
    rewrite Hval, Nat.tail_mul_spec in B; cbn [Decimal.nb_digits];
    apply Nat.le_succ_l, (Nat.pow_lt_mono_r_iff 10); [lia|];
    set (P := (10 ^ Decimal.nb_digits d)%nat) in *; nia.
Qed.

Lemma length_iter_zero k s :
  String.length (Nat.iter k (String "0") s) = (k + String.length s)%nat.
Proof. induction k as [|k IH]; [reflexivity|]. simpl. rewrite IH. reflexivity. Qed.

Lemma zero_pad_length w n :
  (0 < w)%nat -> (n < 10 ^ w)%nat -> String.length (zero_pad w n) = w.
Proof.
  intros Hw Hn. unfold zero_pad. rewrite length_iter_zero.
  pose proof (digits_of_nat w n Hw Hn) as L.
  assert (E : String.length (NilZero.string_of_uint (Nat.to_uint n))
              = Decimal.nb_digits (Nat.to_uint n)).
  { unfold NilZero.string_of_uint.
    pose proof (to_uint_not_nil n) as N.
    destruct (Nat.to_uint n); try congruence; apply length_string_of_uint. }
  rewrite E. lia.
Qed.

Lemma uint_of_zeros k d :
  NilEmpty.uint_of_string (Nat.iter k (String "0") (NilEmpty.string_of_uint d))
  = Some (Nat.iter k Decimal.D0 d).
Proof.
  induction k as [|k IH]; [apply NilEmpty.usu|].
  simpl. rewrite IH. reflexivity.
Qed.

Lemma of_uint_zeros k d : Nat.of_uint (Nat.iter k Decimal.D0 d) = Nat.of_uint d.
Proof. induction k as [|k IH]; [reflexivity|]. exact IH. Qed.

(** The number a padded numeral stands for. *)
Lemma zero_pad_decodes w n :
  option_map Nat.of_uint (NilEmpty.uint_of_string (zero_pad w n)) = Some n.
Proof.
  unfold zero_pad, NilZero.string_of_uint.
  pose proof (to_uint_not_nil n) as N.
  pose proof (DecimalNat.Unsigned.of_to n) as V.
  destruct (Nat.to_uint n) eqn:E; try congruence;
    rewrite <- E in *; rewrite uint_of_zeros; simpl; rewrite of_uint_zeros, V; reflexivity.
Qed.

Lemma append_inj_length (a a' b b' : string) :
  String.length a = String.length a' -> a +:+ b = a' +:+ b' -> a = a' /\ b = b'.
Proof.
  revert a'. induction a as [|c a IH]; intros [|c' a'] Hl H; try discriminate Hl.
  - split; [reflexivity|exact H].
  - rewrite !append_cons in H. injection H as -> H. injection Hl as Hl.
    destruct (IH _ Hl H) as [-> ->]. split; reflexivity.
Qed.

Lemma zero_pad_inj w n m r r' :
  (0 < w)%nat -> (n < 10 ^ w)%nat -> (m < 10 ^ w)%nat ->
  zero_pad w n +:+ r = zero_pad w m +:+ r' -> n = m /\ r = r'.
Proof.
  intros Hw Hn Hm H.
  apply append_inj_length in H as [H ->];
    [|rewrite !zero_pad_length by assumption; reflexivity].
  split; [|reflexivity].
  pose proof (zero_pad_decodes w n) as Dn. rewrite H, zero_pad_decodes in Dn.
  congruence.
Qed.

Lemma four_digits n : (n <= 9999)%nat -> (n < 10 ^ 4)%nat.
Proof. intros H. exact (proj2 (Nat.lt_succ_r n 9999) H). Qed.

Lemma two_digits n : (n <= 59)%nat -> (n < 10 ^ 2)%nat.
Proof. intros H. change (10 ^ 2)%nat with 100%nat. lia. Qed.

(** X9: the timestamp of the header has fourteen characters, all of them
    decimal digits, and it determines the instant to the second: two
    instants with the same timestamp are the same. *)
Theorem now_ts_fourteen_digits (w : World) :
  in_range (now w) ->
  String.length (_now_ts w) = 14%nat
  /\ Text.all_chars PyInt.is_digit (_now_ts w) = true
  /\ (forall w', in_range (now w') -> _now_ts w = _now_ts w' -> now w = now w').
Proof.
  intros ((_ & Hy) & Hmo & Hd & Hh & Hmi & Hs).
  apply four_digits in Hy.
  pose proof (two_digits (month (now w)) ltac:(lia)) as Mo.
  pose proof (two_digits (day (now w)) ltac:(lia)) as D.
  pose proof (two_digits (hour (now w)) ltac:(lia)) as H.
  pose proof (two_digits (minute (now w)) ltac:(lia)) as Mi.
  pose proof (two_digits (second (now w)) ltac:(lia)) as S.
  split; [|split].
  - unfold _now_ts. cbv zeta. rewrite !length_append.
    rewrite !zero_pad_length by (assumption || lia). reflexivity.
  - apply digits_now_ts.
  - intros w' ((_ & Hy') & Hmo' & Hd' & Hh' & Hmi' & Hs') E.
    apply four_digits in Hy'.
    unfold _now_ts in E. cbv zeta in E.
    destruct (now w) as [y mo d h mi s], (now w') as [y' mo' d' h' mi' s'].
    cbn [year month day hour minute second] in *.
    apply zero_pad_inj in E as [-> E]; [|lia|assumption|assumption].
    apply zero_pad_inj in E as [-> E]; [|lia|assumption|apply two_digits; lia].
    apply zero_pad_inj in E as [-> E]; [|lia|assumption|apply two_digits; lia].
    apply zero_pad_inj in E as [-> E]; [|lia|assumption|apply two_digits; lia].
    apply zero_pad_inj in E as [-> E]; [|lia|assumption|apply two_digits; lia].
    rewrite <- (append_nil_r (zero_pad 2 s)), <- (append_nil_r (zero_pad 2 s')) in E.
    apply zero_pad_inj in E as [-> _]; [|lia|assumption|apply two_digits; lia].
    reflexivity.
Qed.

Lemma now_ts_fourteen_digits_witness :
  String.length (_now_ts (canned registered)) = 14%nat.
Proof.
  apply (now_ts_fourteen_digits (canned registered)).
  unfold in_range. repeat split; apply Nat.leb_le; vm_compute; reflexivity.
Defined.

(** ** The message identifier *)

Lemma take_substring_from n s : Text.take n s +:+ Uuid.substring_from n s = s.
Proof.
  revert s. induction n as [|n IH]; intros [|c s]; try reflexivity.
  simpl Text.take. simpl Uuid.substring_from. rewrite append_cons, IH. reflexivity.
Qed.

Lemma substring_from_add n m s :
  Uuid.substring_from (n + m) s = Uuid.substring_from m (Uuid.substring_from n s).
Proof.
  revert s. induction n as [|n IH]; intros s; [reflexivity|].
  destruct s as [|c s]; [destruct m; reflexivity|]. exact (IH s).
Qed.

Lemma remove_char_app c (a b : string) :
  Text.remove_char c (a +:+ b) = Text.remove_char c a +:+ Text.remove_char c b.
Proof.
  induction a as [|x a IH]; [reflexivity|]. rewrite append_cons. simpl.
  destruct (Ascii.eqb x c); [exact IH|]. rewrite append_cons, IH. reflexivity.
Qed.

Lemma remove_char_absent c s :
  Text.all_chars (fun x => negb (Ascii.eqb x c)) s = true -> Text.remove_char c s = s.
Proof.
  induction s as [|x s IH]; [reflexivity|]. simpl. intros [Hx Hs]%andb_true_iff.
  apply negb_true_iff in Hx. rewrite Hx, (IH Hs). reflexivity.
Qed.

Lemma hex_not_dash c : is_hex c = true -> negb (Ascii.eqb c "-") = true.
Proof. destruct (Ascii.eqb_spec c "-"); [subst; discriminate|reflexivity]. Qed.

Lemma remove_dashes_str u : Text.remove_char "-" (Uuid.str u) = Uuid.hex 32 u "".
Proof.
  unfold Uuid.str. cbv zeta. set (h := Uuid.hex 32 u "").
  assert (H : Text.all_chars (fun x => negb (Ascii.eqb x "-")) h = true).
  { apply (all_chars_impl _ _ _ hex_not_dash). apply hex_is_hex. reflexivity. }
  rewrite !remove_char_app.
  rewrite !(remove_char_absent _ _ (all_chars_take _ _ _ H)).
  rewrite !(fun n => remove_char_absent _ _ (all_chars_take _ 4 _ (all_chars_substring_from _ n _ H))).
  rewrite (remove_char_absent _ _ (all_chars_substring_from _ 20 _ H)).
  change (Text.remove_char "-" "-") with "". rewrite !append_nil_l.
  rewrite (substring_from_add 16 4 h : Uuid.substring_from 20 h = _), take_substring_from.
  reflexivity.
Qed.

Lemma hex_acc k n acc : Uuid.hex k n acc = Uuid.hex k n "" +:+ acc.
Proof.
  revert n acc. induction k as [|k IH]; intros n acc; [reflexivity|].
  simpl. rewrite (IH _ (String _ acc)), (IH _ (String _ "")), append_assoc. reflexivity.
Qed.

Lemma hex_split a b n acc :
  Uuid.hex (a + b) n acc = Uuid.hex a (N.shiftr n (4 * N.of_nat b)) (Uuid.hex b n acc).
Proof.
  revert n acc. induction b as [|b IH]; intros n acc.
  - rewrite Nat.add_0_r. reflexivity.
  - rewrite <- plus_n_Sm. simpl Uuid.hex. rewrite IH, N.shiftr_shiftr.
    do 2 f_equal. lia.
Qed.

Lemma length_hex k n acc : String.length (Uuid.hex k n acc) = (k + String.length acc)%nat.
Proof.
  revert n acc. induction k as [|k IH]; intros n acc; [reflexivity|].
  simpl. rewrite IH. simpl. lia.
Qed.

Lemma take_length_app (a b : string) : Text.take (String.length a) (a +:+ b) = a.
Proof. induction a as [|c a IH]; [destruct b; reflexivity|]. simpl. rewrite IH. reflexivity. Qed.

(** The identifier is the hexadecimal numeral of the bits 48 to 127 of the
    UUID. *)
Lemma msg_id_high_bits w :
  _msg_id w = Uuid.hex 20 (N.shiftr (Uuid.uuid4 (urandom16 w)) 48) "".
Proof.
  unfold _msg_id. rewrite remove_dashes_str.
  change 32%nat with (20 + 12)%nat. rewrite hex_split, hex_acc.
  change (4 * N.of_nat 12)%N with 48%N.
  pose proof (take_length_app (Uuid.hex 20 (N.shiftr (Uuid.uuid4 (urandom16 w)) 48) "")
                (Uuid.hex 12 (Uuid.uuid4 (urandom16 w)) "")) as T.
  rewrite length_hex in T. exact T.
Qed.

Lemma uuid4_high_bits r :
  N.shiftr (Uuid.uuid4 r) 48
  = N.lor (N.ldiff (N.lor (N.ldiff (N.land (N.shiftr r 48) (N.ones 80)) 49152) 32768)
             (N.shiftl 61440 16)) (N.shiftl 4 28).
Proof.
  unfold Uuid.uuid4. cbv zeta.
  rewrite !N.shiftr_lor, !N.shiftr_ldiff, !N.shiftr_lor, !N.shiftr_ldiff, N.shiftr_land.
  reflexivity.
Qed.

(** The version digit: bits 28 to 31 of the eighty are 0100. *)
Lemma version_nibble x :
  N.land (N.shiftr (N.lor (N.ldiff x (N.shiftl 61440 16)) (N.shiftl 4 28)) 28) 15 = 4%N.
Proof.
  rewrite N.shiftr_lor, N.shiftr_ldiff, N.land_lor_distr_l.
  change (N.shiftr (N.shiftl 61440 16) 28) with 15%N.
  change (N.land (N.shiftr (N.shiftl 4 28) 28) 15) with 4%N.
  replace (N.land (N.ldiff (N.shiftr x 28) 15) 15) with 0%N; [reflexivity|].
  symmetry. apply N.bits_inj. intros i.
  rewrite N.land_spec, N.ldiff_spec, N.bits_0.
  destruct (N.testbit 15 i), (N.testbit (N.shiftr x 28) i); reflexivity.
Qed.

(** X10: the message identifier has twenty characters, all of them
    hexadecimal digits in lower case. It is the numeral of the bits 48 to 127
    of the UUID, so the last six bytes of the random value do not enter it,
    and its thirteenth character is always the version digit 4. *)
Theorem msg_id_twenty_hex_digits (w : World) :
  String.length (_msg_id w) = 20%nat
  /\ Text.all_chars is_hex (_msg_id w) = true
  /\ String.get 12 (_msg_id w) = Some "4"%char
  /\ (forall w', N.shiftr (urandom16 w) 48 = N.shiftr (urandom16 w') 48 ->
                 _msg_id w = _msg_id w').
Proof.
  split; [|split; [|split]].
  - rewrite msg_id_high_bits. apply length_hex.
  - apply hex_msg_id.
  - rewrite msg_id_high_bits, uuid4_high_bits.
    set (x := N.lor _ 32768).
    cbn [Uuid.hex String.get]. rewrite !N.shiftr_shiftr.
    change (4 + 4 + 4 + 4 + 4 + 4 + 4)%N with 28%N.
    unfold x. rewrite version_nibble. reflexivity.
  - intros w' H. rewrite !msg_id_high_bits, !uuid4_high_bits, H. reflexivity.
Qed.

Lemma msg_id_twenty_hex_digits_witness :
  _msg_id (with_random (N.shiftl 12345 48 + 5)) = _msg_id (with_random (N.shiftl 12345 48 + 77)).
Proof.
  apply (proj2 (proj2 (proj2 (msg_id_twenty_hex_digits (with_random (N.shiftl 12345 48 + 5)))))
           (with_random (N.shiftl 12345 48 + 77))).
  reflexivity.
Defined.

(** ** The header for any message type and branch *)

Lemma digits_string_of_uint d :
  Text.all_chars PyInt.is_digit (NilZero.string_of_uint d) = true.
Proof. destruct d; try apply digits_of_uint. reflexivity. Qed.

Lemma digit_plain c : PyInt.is_digit c = true -> xml_plain c = true.
Proof. intros H. apply hex_plain, digit_hex, H. Qed.

Lemma plain_str_of_int n : Text.all_chars xml_plain (Text.str_of_int n) = true.
Proof.
  unfold Text.str_of_int. destruct (Z.to_int n) as [d|d]; cbn [NilZero.string_of_int].
  - exact (all_chars_impl _ _ _ digit_plain (digits_string_of_uint d)).
  - simpl Text.all_chars.
    rewrite (all_chars_impl _ _ _ digit_plain (digits_string_of_uint d)). reflexivity.
Qed.

Lemma plain_ascii_not_quote s :
  Text.all_chars xml_plain s = true -> Text.all_chars not_quote s = true.
Proof. exact (all_chars_impl _ _ _ plain_not_quote). Qed.

Lemma element_app key v rest :
  element key v +:+ rest = open_tag key +:+ v +:+ close_tag key +:+ rest.
Proof. rewrite element_tags, !append_assoc. reflexivity. Qed.

Lemma msh_pieces w msg_type filial_id :
  _build_msh_xml w msg_type filial_id = open_tag "MSH" +:+ msh_content w msg_type filial_id.
Proof.
  unfold msh_content, branch_element. rewrite !element_app.
  unfold _build_msh_xml. cbv zeta.
  destruct filial_id as [n|].
  - change ("<MSH.99>" +:+ Text.str_of_int n +:+ "</MSH.99>")
      with (element "MSH.99" (Text.str_of_int n)).
    rewrite !element_app.
    unfold open_tag, close_tag, indent0, indent4, indent8.
    cbv [String.append]. reflexivity.
  - unfold open_tag, close_tag, indent0, indent4, indent8.
    cbv [String.append]. reflexivity.
Qed.

Lemma run_branch filial_id t txt kids outer :
  Xml.run (Xml.Content (Xml.Frame t txt kids :: outer)) (branch_element filial_id)
  = Xml.Content (Xml.Frame t txt (branch_tree filial_id ++ kids) :: outer).
Proof.
  destruct filial_id as [n|]; [|reflexivity].
  apply run_element; [reflexivity|apply plain_str_of_int].
Qed.

Lemma run_msh_content w msg_type filial_id stack :
  Text.all_chars xml_plain msg_type = true ->
  Xml.run (Xml.Content (Xml.Frame "MSH" "" [] :: stack)) (msh_content w msg_type filial_id)
  = Xml.add_child (msh_tree w msg_type filial_id) stack.
Proof.
  intros Hplain. unfold msh_content. rewrite !xml_run_app.
  repeat first [ rewrite run_branch | run_piece ].
  unfold msh_tree, header_tree, children.
  rewrite rev_app_distr. destruct filial_id; reflexivity.
Qed.

Lemma run_msh w msg_type filial_id t txt kids outer :
  Text.all_chars xml_plain msg_type = true ->
  Xml.run (Xml.Content (Xml.Frame t txt kids :: outer)) (_build_msh_xml w msg_type filial_id)
  = Xml.Content (Xml.Frame t txt (msh_tree w msg_type filial_id :: kids) :: outer).
Proof.
  intros Hplain. rewrite msh_pieces, xml_run_app, run_open by reflexivity.
  rewrite (run_msh_content _ _ _ _ Hplain). reflexivity.
Qed.

(** X11: the header is a well-formed element for every message type that
    holds no markup and for every branch: parsed, it is the tree with the
    system identifier, the timestamp, the message type, the message
    identifier and the character set, followed by the element MSH.99 with
    the decimal numeral of the branch when a branch is given and by nothing
    when none is. *)
Theorem msh_header_parses (w : World) (msg_type : string) (filial_id : option Z) :
  Text.all_chars xml_plain msg_type = true ->
  Xml.fromstring (_build_msh_xml w msg_type filial_id) = Ret (msh_tree w msg_type filial_id)
  /\ findtext (msh_tree w msg_type filial_id) [Descendant "MSG.2"] "" = msg_type
  /\ findtext (msh_tree w msg_type filial_id) [Child "MSH.99"] ""
     = from_option Text.str_of_int "" filial_id.
Proof.
  intros Hplain. split; [|split].
  - unfold Xml.fromstring.
    assert (E : NsRegex.strip_prefix Xml.declaration (_build_msh_xml w msg_type filial_id) = None)
      by reflexivity.
    rewrite E, msh_pieces, xml_run_app, run_prolog_open by reflexivity.
    rewrite (run_msh_content _ _ _ _ Hplain). reflexivity.
  - transitivity (text_or_empty (leaf "MSG.2" msg_type)); [|apply text_of_leaf].
    destruct filial_id; reflexivity.
  - destruct filial_id as [n|]; [|reflexivity].
    transitivity (text_or_empty (leaf "MSH.99" (Text.str_of_int n))); [|apply text_of_leaf].
    reflexivity.
Qed.

Lemma msh_header_parses_witness :
  Xml.fromstring (_build_msh_xml echo "CLIENTS_CHANGE_LIST" (Some 42))
  = Ret (msh_tree echo "CLIENTS_CHANGE_LIST" (Some 42)).
Proof. apply (msh_header_parses echo "CLIENTS_CHANGE_LIST" (Some 42)). reflexivity. Defined.

(** ** Envelope builder: the branch id *)

Lemma str_of_int_decodes (n : Z) :
  option_map Z.of_int (NilZero.int_of_string (Text.str_of_int n)) = Some n.
Proof.
  unfold Text.str_of_int. rewrite NilZero.isi.
  - simpl. rewrite DecimalZ.of_to. reflexivity.
  - destruct n as [|p|p]; simpl; try discriminate.
    intros [= H]. exact (DecimalPos.Unsigned.to_uint_nonnil p H).
  - destruct n as [|p|p]; simpl; try discriminate.
    intros [= H]. exact (DecimalPos.Unsigned.to_uint_nonnil p H).
Qed.

(** C6, as amended: whether the header holds the branch id element MSH.99
    is decided by the branch id that is passed to the builder, not by the
    message type. A header built without a branch id holds no MSH.99 tag,
    for every message type that holds no opening angle bracket; a header
    built with the branch id [b] holds, for every message type, the element
    MSH.99 whose content is the decimal numeral of [b], a numeral that reads
    back as [b]. *)
Theorem branch_id_only_in_branch_scoped_header (w : World) (msg_type : string) :
  (no_lt msg_type = true ->
   Text.contains "<MSH.99" (_build_msh_xml w msg_type None) = false)
  /\ (forall b : Z,
        Text.contains (element "MSH.99" (Text.str_of_int b))
          (_build_msh_xml w msg_type (Some b)) = true
        /\ option_map Z.of_int (NilZero.int_of_string (Text.str_of_int b)) = Some b).
Proof.
  split.
  - intros Hlt. apply clear_not_contained.
    unfold _build_msh_xml. cbv beta zeta iota. clear_chunks.
  - intros b. split; [|apply str_of_int_decodes].
    unfold _build_msh_xml. cbv beta zeta.
    do 9 apply contains_skip.
    exact (contains_here (element "MSH.99" (Text.str_of_int b)) _).
Qed.

(** C6, counterexample: a header built for the message type CLIENT_ADD
    with the branch id 7 holds the element MSH.99 with the content 7. *)
Lemma client_add_header_with_branch :
  Text.contains "<MSH.99>7</MSH.99>" (_build_msh_xml echo "CLIENT_ADD" (Some 7)) = true
  /\ option_map (fun header => findall header [Descendant "MSH.99"])
       (match Xml.fromstring (_build_msh_xml echo "CLIENT_ADD" (Some 7)) with
        | Ret header => Some header
        | _ => None
        end)
     = Some [leaf "MSH.99" "7"].
Proof. split; vm_compute; reflexivity. Qed.

Lemma branch_id_only_in_branch_scoped_header_witness :
  Text.contains "<MSH.99" (_build_msh_xml echo "CLIENT_ADD" None) = false
  /\ Text.contains "<MSH.99>42</MSH.99>"
       (_build_msh_xml echo "CLIENTS_CHANGE_LIST" (Some 42)) = true.
Proof.
  split.
  - apply (proj1 (branch_id_only_in_branch_scoped_header echo "CLIENT_ADD")).
    reflexivity.
  - apply (proj1 (proj2 (branch_id_only_in_branch_scoped_header echo
                           "CLIENTS_CHANGE_LIST") 42)).
Defined.

Example branch_numerals :
  Text.str_of_int 42 = "42" /\ Text.str_of_int 0 = "0" /\ Text.str_of_int (-7) = "-7".
Proof. repeat split; reflexivity. Qed.

(** ** The request of [clients_change_list] *)

Lemma digit_or_dash_ascii n : Text.all_chars is_ascii (Text.str_of_int n) = true.
Proof.
  unfold Text.str_of_int. destruct (Z.to_int n) as [d|d]; cbn [NilZero.string_of_int].
  - exact (all_chars_impl _ _ _ digit_ascii (digits_string_of_uint d)).
  - simpl Text.all_chars.
    rewrite (all_chars_impl _ _ _ digit_ascii (digits_string_of_uint d)). reflexivity.
Qed.

Lemma msh_ascii w msg_type filial_id :
  Text.all_chars is_ascii msg_type = true ->
  Text.all_chars is_ascii (_build_msh_xml w msg_type filial_id) = true.
Proof.
  intros H. rewrite msh_pieces. unfold msh_content, branch_element, element.
  destruct filial_id as [n|];
    rewrite !all_chars_app, ?digit_or_dash_ascii, ascii_now_ts, ascii_msg_id, H; reflexivity.
Qed.

Lemma msh_not_quote w msg_type filial_id :
  Text.all_chars not_quote msg_type = true ->
  Text.all_chars not_quote (_build_msh_xml w msg_type filial_id) = true.
Proof.
  intros H. rewrite msh_pieces. unfold msh_content, branch_element, element.
  destruct filial_id as [n|];
    rewrite !all_chars_app, ?(plain_ascii_not_quote _ (plain_str_of_int _)),
      (plain_ascii_not_quote _ (plain_now_ts w)),
      (plain_ascii_not_quote _ (plain_msg_id w)), H; reflexivity.
Qed.

Lemma sub_go_change_list_root rest :
  Text.all_chars not_quote rest = true ->
  NsRegex.sub_go 0
    (Xml.declaration +:+ "
<WEB_CLIENTS_CHANGE_LIST xmlns=" +:+ Xml.quoted "http://sdsys.ru/" +:+ rest)
  = Some (Xml.declaration +:+ "
<WEB_CLIENTS_CHANGE_LIST" +:+ rest).
Proof.
  intros H. pose proof (sub_go_quote_free rest H) as E.
  cbv [Xml.declaration Xml.quoted String.append ascii_of_nat ascii_of_pos].
  repeat first
    [ rewrite sub_go_no_match by (vm_compute; reflexivity)
    | erewrite sub_go_match by (vm_compute; reflexivity) ].
  cbv [Nat.pred]. rewrite !sub_go_skip, E. reflexivity.
Qed.

Lemma run_empty_input t txt kids outer :
  Xml.run (Xml.Content (Xml.Frame t txt kids :: outer)) "<CLIENTS_CHANGE_LIST_IN/>"
  = Xml.Content (Xml.Frame t txt (Elem "CLIENTS_CHANGE_LIST_IN" None [] :: kids) :: outer).
Proof. reflexivity. Qed.

Lemma change_list_body_pieces msh :
  clients_change_list_body msh
  = Xml.declaration +:+ "
<WEB_CLIENTS_CHANGE_LIST xmlns=" +:+ Xml.quoted "http://sdsys.ru/"
    +:+ ">" +:+ indent4 +:+ msh +:+ indent4 +:+ "<CLIENTS_CHANGE_LIST_IN/>"
    +:+ indent0 +:+ close_tag "WEB_CLIENTS_CHANGE_LIST".
Proof.
  unfold clients_change_list_body, indent0, indent4, close_tag, Xml.declaration, Xml.quoted.
  cbv [String.append]. reflexivity.
Qed.

(** X12: the request of [clients_change_list] is a well-formed document for
    every branch and at every instant: decoded, cleared of the namespace
    declaration and parsed as a response would be, it is the root
    WEB_CLIENTS_CHANGE_LIST with the header for that branch and an empty
    CLIENTS_CHANGE_LIST_IN element. *)
Theorem change_list_request_parses (w : World) (filial_id : Z) :
  parse_response
    (clients_change_list_body (_build_msh_xml w "CLIENTS_CHANGE_LIST" (Some filial_id)))
  = Ret (change_list_tree w filial_id).
Proof.
  set (msh := _build_msh_xml w "CLIENTS_CHANGE_LIST" (Some filial_id)).
  assert (Ha : Text.all_chars is_ascii msh = true) by (apply msh_ascii; reflexivity).
  assert (Hq : Text.all_chars not_quote msh = true) by (apply msh_not_quote; reflexivity).
  rewrite change_list_body_pieces.
  unfold parse_response, Utf8.decode.
  rewrite ascii_well_formed
    by (rewrite !all_chars_app, Ha; reflexivity).
  cbv beta iota delta [bind]. unfold NsRegex.strip_namespaces.
  rewrite sub_go_change_list_root by (rewrite !all_chars_app, Hq; reflexivity).
  unfold Xml.fromstring. rewrite strip_prefix_app.
  change ("
<WEB_CLIENTS_CHANGE_LIST" +:+ ">" +:+ indent4 +:+ msh +:+ indent4
          +:+ "<CLIENTS_CHANGE_LIST_IN/>" +:+ indent0 +:+ close_tag "WEB_CLIENTS_CHANGE_LIST")
    with (indent0 +:+ open_tag "WEB_CLIENTS_CHANGE_LIST" +:+ indent4 +:+ msh +:+ indent4
          +:+ "<CLIENTS_CHANGE_LIST_IN/>" +:+ indent0 +:+ close_tag "WEB_CLIENTS_CHANGE_LIST").
  rewrite !xml_run_app.
  change (Xml.run Xml.Prolog indent0) with Xml.Prolog.
  unfold msh.
  repeat first [ rewrite run_msh by reflexivity | rewrite run_empty_input | run_piece ].
  reflexivity.
Qed.

(** ** A namespace declaration in a response *)

Lemma match_here_solid c s : solid c = true -> NsRegex.match_here (String c s) = NsRegex.NoMatch.
Proof.
  unfold solid, is_ascii. intros [Ha Hs]%andb_true_iff.
  apply negb_true_iff in Ha, Hs.
  assert (E : NsRegex.space_run (String c s) = O).
  { assert (H2 : forall b, Text.space2 c b = false).
    { intros b. unfold Text.space2.
      destruct (Text.is_byte 194 c) eqn:B; [|reflexivity].
      apply Nat.eqb_eq in B. unfold Text.non_ascii in Ha. rewrite B in Ha. discriminate Ha. }
    assert (H3 : forall b d, Text.space3 c b d = false).
    { intros b d. unfold Text.space3.
      destruct (Text.is_byte 225 c) eqn:B1;
        [apply Nat.eqb_eq in B1; unfold Text.non_ascii in Ha; rewrite B1 in Ha; discriminate Ha|].
      destruct (Text.is_byte 226 c) eqn:B2;
        [apply Nat.eqb_eq in B2; unfold Text.non_ascii in Ha; rewrite B2 in Ha; discriminate Ha|].
      destruct (Text.is_byte 227 c) eqn:B3;
        [apply Nat.eqb_eq in B3; unfold Text.non_ascii in Ha; rewrite B3 in Ha; discriminate Ha|].
      reflexivity. }
    simpl. rewrite Hs. destruct s as [|b [|d s]]; rewrite ?H2, ?H3; reflexivity. }
  unfold NsRegex.match_here. rewrite E. reflexivity.
Qed.

Lemma sub_go_solid pre s :
  Text.all_chars solid pre = true ->
  NsRegex.sub_go 0 (pre +:+ s) = option_map (String.append pre) (NsRegex.sub_go 0 s).
Proof.
  induction pre as [|c pre IH]; intros H.
  - rewrite append_nil_l. destruct (NsRegex.sub_go 0 s); reflexivity.
  - simpl in H. apply andb_true_iff in H as [Hc Hp].
    rewrite append_cons, sub_go_no_match by (apply match_here_solid, Hc).
    rewrite (IH Hp). destruct (NsRegex.sub_go 0 s); reflexivity.
Qed.

Lemma sub_go_skip_all a rest :
  NsRegex.sub_go (String.length a) (a +:+ rest) = NsRegex.sub_go 0 rest.
Proof. induction a as [|c a IH]; [reflexivity|]. exact IH. Qed.

Lemma space_run_spaces space s :
  Text.all_chars Text.space1 space = true ->
  NsRegex.space_run (space +:+ String "x" s) = String.length space.
Proof.
  induction space as [|c r IH]; intros H.
  - destruct s as [|b [|d s]]; reflexivity.
  - simpl in H. apply andb_true_iff in H as [Hc Hr].
    rewrite append_cons. simpl. rewrite Hc, (IH Hr). reflexivity.
Qed.

Lemma drop_length_app a rest : NsRegex.drop (String.length a) (a +:+ rest) = rest.
Proof. induction a as [|c a IH]; [destruct rest; reflexivity|]. exact IH. Qed.

Lemma to_quote_value uri rest :
  Text.all_chars not_quote uri = true ->
  NsRegex.to_quote (uri +:+ String NsRegex.dquote rest) = Some (S (String.length uri)).
Proof.
  induction uri as [|c r IH]; intros H.
  - reflexivity.
  - simpl in H. apply andb_true_iff in H as [Hc Hr]. unfold not_quote in Hc.
    apply negb_true_iff in Hc. rewrite append_cons. simpl. rewrite Hc, (IH Hr). reflexivity.
Qed.

Lemma xmlns_shape space uri rest :
  xmlns space uri +:+ rest
  = space +:+ String "x" ("mlns=" +:+ String NsRegex.dquote (uri +:+ String NsRegex.dquote rest)).
Proof.
  unfold xmlns, Xml.quoted. rewrite !append_assoc, !append_cons, append_assoc. reflexivity.
Qed.

Lemma match_here_xmlns c space uri rest :
  Text.all_chars Text.space1 (String c space) = true ->
  Text.all_chars not_quote uri = true ->
  NsRegex.match_here (xmlns (String c space) uri +:+ rest)
  = NsRegex.Match (S (String.length (space +:+ "xmlns=" +:+ Xml.quoted uri))).
Proof.
  intros Hs Hu. rewrite xmlns_shape. unfold NsRegex.match_here.
  rewrite (space_run_spaces _ _ Hs). cbn [String.length].
  rewrite (drop_length_app (String c space) _ : NsRegex.drop (S (String.length space)) _ = _).
  set (value := uri +:+ String NsRegex.dquote rest).
  change (NsRegex.strip_prefix "xmlns"
            (String "x" ("mlns=" +:+ String NsRegex.dquote value)))
    with (Some (String "=" (String NsRegex.dquote value))).
  cbv beta iota. change (Ascii.eqb "=" ":") with false. cbv iota.
  unfold NsRegex.value_part.
  change (Ascii.eqb "=" "=" && Ascii.eqb NsRegex.dquote NsRegex.dquote) with true.
  cbv iota. unfold value. rewrite (to_quote_value _ _ Hu). f_equal.
  unfold Xml.quoted. rewrite !length_append. simpl String.length.
  rewrite length_append. simpl String.length. lia.
Qed.

Lemma sub_go_xmlns space uri rest :
  space <> "" ->
  Text.all_chars Text.space1 space = true ->
  Text.all_chars not_quote uri = true ->
  NsRegex.sub_go 0 (xmlns space uri +:+ rest) = NsRegex.sub_go 0 rest.
Proof.
  intros Hne Hs Hu. destruct space as [|c space]; [congruence|].
  assert (E : xmlns (String c space) uri +:+ rest
              = String c ((space +:+ "xmlns=" +:+ Xml.quoted uri) +:+ rest)).
  { unfold xmlns. rewrite !append_cons, !append_assoc. reflexivity. }
  rewrite E, (sub_go_match _ _ _ (eq_trans (f_equal _ (eq_sym E)) (match_here_xmlns _ _ _ _ Hs Hu))).
  cbn [Nat.pred]. apply sub_go_skip_all.
Qed.

Lemma run_well_formed a b :
  Utf8.well_formed a = true -> Utf8.run Utf8.Boundary (a +:+ b) = Utf8.run Utf8.Boundary b.
Proof.
  unfold Utf8.well_formed. rewrite utf8_run_app.
  destruct (Utf8.run Utf8.Boundary a); try discriminate. reflexivity.
Qed.

Lemma solid_ascii c : solid c = true -> is_ascii c = true.
Proof. unfold solid. intros [H _]%andb_true_iff. exact H. Qed.

Lemma space1_ascii c : Text.space1 c = true -> is_ascii c = true.
Proof. destruct c as [[] [] [] [] [] [] [] []]; try discriminate; reflexivity. Qed.

(** X13: a declaration of the default namespace leaves no trace in what
    [_send_request] returns. Put after any text without white space, as the
    name of the root element is, with any white space in front of it and any
    address without a double quote in it, the declaration changes nothing:
    the response with it and the response without it are parsed to the same
    tree, or fail in the same way. *)
Theorem namespace_declaration_is_ignored (pre space uri rest : string) :
  Text.all_chars solid pre = true ->
  space <> "" ->
  Text.all_chars Text.space1 space = true ->
  Text.all_chars not_quote uri = true ->
  Utf8.well_formed uri = true ->
  parse_response (pre +:+ xmlns space uri +:+ rest) = parse_response (pre +:+ rest).
Proof.
  intros Hpre Hne Hs Hq Hu. unfold parse_response, Utf8.decode.
  assert (W : Utf8.well_formed (pre +:+ xmlns space uri +:+ rest)
              = Utf8.well_formed (pre +:+ rest)).
  { pose proof (ascii_well_formed _ (all_chars_impl _ _ _ solid_ascii Hpre)) as Wp.
    assert (Wx : Utf8.well_formed (xmlns space uri) = true).
    { unfold xmlns, Xml.quoted. 
      apply well_formed_app;
        [exact (ascii_well_formed _ (all_chars_impl _ _ _ space1_ascii Hs))|].
      apply well_formed_app; [reflexivity|].
      change (String (ascii_of_nat 34) (uri +:+ String (ascii_of_nat 34) ""))
        with (String (ascii_of_nat 34) "" +:+ uri +:+ String (ascii_of_nat 34) "").
      apply well_formed_app; [reflexivity|].
      apply well_formed_app; [exact Hu|reflexivity]. }
    unfold Utf8.well_formed.
    rewrite (run_well_formed _ _ Wp), (run_well_formed _ _ Wx), (run_well_formed _ _ Wp).
    reflexivity. }
  rewrite W. destruct (Utf8.well_formed (pre +:+ rest)); [|reflexivity].
  cbv beta iota delta [bind]. unfold NsRegex.strip_namespaces.
  rewrite !(sub_go_solid _ _ Hpre), (sub_go_xmlns _ _ _ Hne Hs Hq). reflexivity.
Qed.

Lemma namespace_declaration_is_ignored_witness :
  parse_response ("<WEB_CLIENT_ADD" +:+ xmlns " " "urn:other" +:+ after_root)
  = parse_response ("<WEB_CLIENT_ADD" +:+ after_root).
Proof.
  apply namespace_declaration_is_ignored;
    [reflexivity | discriminate | reflexivity | reflexivity | reflexivity].
Defined.

(** ** Trimming *)

Section DropWhile.

Variable p1 : ascii -> bool.
Variable p2 : ascii -> ascii -> bool.
Variable p3 : ascii -> ascii -> ascii -> bool.

Let dw := Text.drop_while p1 p2 p3.

Lemma drop_while_unfold a s1 :
  dw (String a s1)
  = if p1 a then dw s1 else
    match s1 with
    | String b s2 =>
        if p2 a b then dw s2 else
        match s2 with
        | String c s3 => if p3 a b c then dw s3 else String a s1
        | EmptyString => String a s1
        end
    | EmptyString => String a s1
    end.
Proof. reflexivity. Qed.

Lemma string_length_ind (P : string -> Prop) :
  (forall s, (forall t, (String.length t < String.length s)%nat -> P t) -> P s) ->
  forall s, P s.
Proof.
  intros H s. remember (String.length s) as n eqn:E.
  revert s E. induction n as [n IH] using lt_wf_ind. intros s ->.
  apply H. intros t Ht. exact (IH _ Ht t eq_refl).
Qed.

Lemma drop_while_shorter s : (String.length (dw s) <= String.length s)%nat.
Proof.
  induction s as [s IH] using string_length_ind.
  destruct s as [|a s1]; [reflexivity|]. rewrite drop_while_unfold.
  destruct (p1 a); [specialize (IH s1 ltac:(simpl; lia)); simpl; lia|].
  destruct s1 as [|b s2]; [reflexivity|].
  destruct (p2 a b); [specialize (IH s2 ltac:(simpl; lia)); simpl; lia|].
  destruct s2 as [|c s3]; [reflexivity|].
  destruct (p3 a b c); [specialize (IH s3 ltac:(simpl; lia)); simpl; lia|reflexivity].
Qed.

Lemma drop_while_suffix s : exists a, s = a +:+ dw s.
Proof.
  induction s as [s IH] using string_length_ind.
  destruct s as [|a s1]; [exists ""; reflexivity|]. rewrite drop_while_unfold.
  destruct (p1 a).
  { destruct (IH s1 ltac:(simpl; lia)) as [x E]. exists (String a x).
    rewrite append_cons, <- E. reflexivity. }
  destruct s1 as [|b s2]; [exists ""; reflexivity|].
  destruct (p2 a b).
  { destruct (IH s2 ltac:(simpl; lia)) as [x E]. exists (String a (String b x)).
    rewrite !append_cons, <- E. reflexivity. }
  destruct s2 as [|c s3]; [exists ""; reflexivity|].
  destruct (p3 a b c); [|exists ""; reflexivity].
  destruct (IH s3 ltac:(simpl; lia)) as [x E]. exists (String a (String b (String c x))).
  rewrite !append_cons, <- E. reflexivity.
Qed.

Lemma drop_while_idempotent s : dw (dw s) = dw s.
Proof.
  induction s as [s IH] using string_length_ind.
  destruct s as [|a s1]; [reflexivity|]. rewrite drop_while_unfold.
  destruct (p1 a) eqn:E1; [apply IH; simpl; lia|].
  destruct s1 as [|b s2]; [rewrite drop_while_unfold, E1; reflexivity|].
  destruct (p2 a b) eqn:E2; [apply IH; simpl; lia|].
  destruct s2 as [|c s3]; [rewrite drop_while_unfold, E1, E2; reflexivity|].
  destruct (p3 a b c) eqn:E3; [apply IH; simpl; lia|].
  rewrite drop_while_unfold, E1, E2, E3. reflexivity.
Qed.

(** What is kept whole is kept whole when cut short at its end. *)
Lemma drop_while_fixed_prefix t u :
  t <> "" -> dw (t +:+ u) = t +:+ u -> dw t = t.
Proof.
  intros Hne H. destruct t as [|a t1]; [congruence|].
  assert (L : forall x z, dw x = z -> (String.length x < String.length z)%nat -> False).
  { intros x z E Hl. subst z. pose proof (drop_while_shorter x). lia. }
  rewrite append_cons, drop_while_unfold in H. rewrite drop_while_unfold.
  destruct (p1 a).
  { exfalso. apply (L _ _ H). simpl. lia. }
  destruct t1 as [|b t2]; [reflexivity|].
  rewrite append_cons in H.
  destruct (p2 a b).
  { exfalso. apply (L _ _ H). simpl. lia. }
  destruct t2 as [|c t3]; [reflexivity|].
  rewrite append_cons in H.
  destruct (p3 a b c); [|reflexivity].
  exfalso. apply (L _ _ H). simpl. lia.
Qed.

Lemma drop_while_not_leading s : leading p1 p2 p3 (dw s) = false.
Proof.
  induction s as [s IH] using string_length_ind.
  destruct s as [|a s1]; [reflexivity|]. rewrite drop_while_unfold.
  destruct (p1 a) eqn:E1; [apply IH; simpl; lia|].
  destruct s1 as [|b s2]; [simpl; rewrite E1; reflexivity|].
  destruct (p2 a b) eqn:E2; [apply IH; simpl; lia|].
  destruct s2 as [|c s3]; [simpl; rewrite E1, E2; reflexivity|].
  destruct (p3 a b c) eqn:E3; [apply IH; simpl; lia|].
  simpl. rewrite E1, E2, E3. reflexivity.
Qed.

Lemma leading_prefix t u :
  t <> "" -> leading p1 p2 p3 (t +:+ u) = false -> leading p1 p2 p3 t = false.
Proof.
  intros Hne H. destruct t as [|a t1]; [congruence|].
  rewrite append_cons in H. simpl in H. apply orb_false_iff in H as [H1 H].
  simpl. rewrite H1. destruct t1 as [|b t2]; [reflexivity|].
  rewrite append_cons in H. apply orb_false_iff in H as [H2 H]. rewrite H2.
  destruct t2 as [|c t3]; [reflexivity|].
  rewrite append_cons in H. rewrite H. reflexivity.
Qed.

(** What is dropped is dropped whole when it stands alone. *)
Lemma drop_while_split s : exists a, s = a +:+ dw s /\ dw a = "".
Proof.
  induction s as [s IH] using string_length_ind.
  destruct s as [|a s1]; [exists ""; split; reflexivity|]. rewrite drop_while_unfold.
  destruct (p1 a) eqn:E1.
  { destruct (IH s1 ltac:(simpl; lia)) as (x & E & D). exists (String a x). split.
    - rewrite append_cons, <- E. reflexivity.
    - rewrite drop_while_unfold, E1. exact D. }
  destruct s1 as [|b s2]; [exists ""; split; reflexivity|].
  destruct (p2 a b) eqn:E2.
  { destruct (IH s2 ltac:(simpl; lia)) as (x & E & D). exists (String a (String b x)). split.
    - rewrite !append_cons, <- E. reflexivity.
    - rewrite drop_while_unfold, E1, E2. exact D. }
  destruct s2 as [|c s3]; [exists ""; split; reflexivity|].
  destruct (p3 a b c) eqn:E3; [|exists ""; split; reflexivity].
  destruct (IH s3 ltac:(simpl; lia)) as (x & E & D).
  exists (String a (String b (String c x))). split.
  - rewrite !append_cons, <- E. reflexivity.
  - rewrite drop_while_unfold, E1, E2, E3. exact D.
Qed.

End DropWhile.

Lemma rev_onto_app acc s : Text.rev_onto acc s = Text.rev s +:+ acc.
Proof.
  unfold Text.rev. revert acc. induction s as [|c s IH]; intros acc; [reflexivity|].
  simpl. rewrite (IH (String c acc)), (IH (String c "")), append_assoc. reflexivity.
Qed.

Lemma text_rev_app (a b : string) : Text.rev (a +:+ b) = Text.rev b +:+ Text.rev a.
Proof.
  induction a as [|c a IH]; [rewrite append_nil_l, append_nil_r; reflexivity|].
  rewrite append_cons. unfold Text.rev at 1 3. simpl.
  rewrite !rev_onto_app, IH, append_assoc. reflexivity.
Qed.

Lemma text_rev_involutive s : Text.rev (Text.rev s) = s.
Proof.
  induction s as [|c s IH]; [reflexivity|].
  unfold Text.rev at 2. simpl. rewrite rev_onto_app, text_rev_app, IH. reflexivity.
Qed.

Lemma text_rev_nil s : Text.rev s = "" -> s = "".
Proof. intros H. apply (f_equal Text.rev) in H. rewrite text_rev_involutive in H. exact H. Qed.

Lemma rstrip_idempotent s : Text.rstrip (Text.rstrip s) = Text.rstrip s.
Proof. unfold Text.rstrip. rewrite text_rev_involutive, drop_while_idempotent. reflexivity. Qed.

(** Trimming on the left does not uncover white space on the right. *)
Lemma rstrip_lstrip s : Text.rstrip s = s -> Text.rstrip (Text.lstrip s) = Text.lstrip s.
Proof.
  intros H. unfold Text.lstrip.
  destruct (drop_while_suffix Text.space1 Text.space2 Text.space3 s) as [a E].
  set (z := Text.drop_while Text.space1 Text.space2 Text.space3 s) in *.
  destruct (string_dec z "") as [->|Hz]; [reflexivity|].
  unfold Text.rstrip in *.
  apply (f_equal Text.rev) in H. rewrite text_rev_involutive in H.
  rewrite E, text_rev_app in H.
  rewrite (drop_while_fixed_prefix _ _ _ _ _ (fun N => Hz (text_rev_nil _ N)) H).
  apply text_rev_involutive.
Qed.

Lemma strip_idempotent s : Text.strip (Text.strip s) = Text.strip s.
Proof.
  unfold Text.strip.
  rewrite (rstrip_lstrip _ (rstrip_idempotent s)).
  apply drop_while_idempotent.
Qed.

Lemma space2_lead a b : Text.space2 a b = true -> Text.space1 a = false.
Proof.
  unfold Text.space2. intros [H _]%andb_true_iff. apply Nat.eqb_eq in H.
  unfold Text.space1, Text.c_space, Text.between, Text.is_byte. rewrite H. reflexivity.
Qed.

Lemma space3_lead a b c :
  Text.space3 a b c = true -> Text.space1 a = false /\ Text.space2 a b = false.
Proof.
  unfold Text.space3, Text.space2, Text.space1, Text.c_space, Text.between, Text.is_byte.
  intros H.
  assert (E : Text.code a = 225%nat \/ Text.code a = 226%nat \/ Text.code a = 227%nat).
  { repeat (apply orb_true_iff in H as [H|H]);
      repeat (apply andb_true_iff in H as [H ?]);
      apply Nat.eqb_eq in H; tauto. }
  destruct E as [E|[E|E]]; rewrite E; split; reflexivity.
Qed.

Lemma white_space_unfold a s1 :
  white_space (String a s1)
  = if Text.space1 a then white_space s1 else
    match s1 with
    | String b s2 =>
        if Text.space2 a b then white_space s2 else
        match s2 with
        | String c s3 => Text.space3 a b c && white_space s3
        | EmptyString => false
        end
    | EmptyString => false
    end.
Proof. reflexivity. Qed.

Lemma white_space_app (x y : string) :
  white_space x = true -> white_space y = true -> white_space (x +:+ y) = true.
Proof.
  intros Hx Hy. induction x as [x IH] using string_length_ind.
  destruct x as [|a x1]; [exact Hy|].
  rewrite append_cons, white_space_unfold. rewrite white_space_unfold in Hx.
  destruct (Text.space1 a); [apply IH; [simpl; lia|exact Hx]|].
  destruct x1 as [|b x2]; [discriminate Hx|]. rewrite append_cons.
  destruct (Text.space2 a b); [apply IH; [simpl; lia|exact Hx]|].
  destruct x2 as [|c x3]; [discriminate Hx|]. rewrite append_cons.
  apply andb_true_iff in Hx as [H3 Hx]. rewrite H3. apply IH; [simpl; lia|exact Hx].
Qed.

(** What [lstrip] drops is white space. *)
Lemma dropped_is_white_space a :
  Text.drop_while Text.space1 Text.space2 Text.space3 a = "" -> white_space a = true.
Proof.
  induction a as [a IH] using string_length_ind.
  destruct a as [|x a1]; [reflexivity|].
  rewrite drop_while_unfold, white_space_unfold.
  destruct (Text.space1 x); [apply IH; simpl; lia|].
  destruct a1 as [|b a2]; [discriminate|].
  destruct (Text.space2 x b); [apply IH; simpl; lia|].
  destruct a2 as [|c a3]; [discriminate|].
  destruct (Text.space3 x b c); [apply IH; simpl; lia|discriminate].
Qed.

(** What [rstrip] drops, read from its start, is white space. *)
Lemma dropped_from_the_end_is_white_space a :
  Text.drop_while Text.space1 (fun b a => Text.space2 a b)
    (fun c b a => Text.space3 a b c) a = "" ->
  white_space (Text.rev a) = true.
Proof.
  induction a as [a IH] using string_length_ind.
  destruct a as [|z a1]; [reflexivity|]. rewrite drop_while_unfold.
  destruct (Text.space1 z) eqn:E1.
  { intros H.
    change (String z a1) with (String z "" +:+ a1). rewrite text_rev_app.
    apply white_space_app; [apply IH; [simpl; lia|exact H]|].
    change (Text.rev (String z "")) with (String z "").
    rewrite white_space_unfold, E1. reflexivity. }
  destruct a1 as [|y a2]; [discriminate|].
  destruct (Text.space2 y z) eqn:E2.
  { intros H.
    change (String z (String y a2)) with (String z (String y "") +:+ a2).
    rewrite text_rev_app.
    apply white_space_app; [apply IH; [simpl; lia|exact H]|].
    change (Text.rev (String z (String y ""))) with (String y (String z "")).
    rewrite white_space_unfold, (space2_lead _ _ E2), E2. reflexivity. }
  destruct a2 as [|x a3]; [discriminate|].
  destruct (Text.space3 x y z) eqn:E3; [|discriminate].
  intros H.
  change (String z (String y (String x a3))) with (String z (String y (String x "")) +:+ a3).
  rewrite text_rev_app.
  apply white_space_app; [apply IH; [simpl; lia|exact H]|].
  change (Text.rev (String z (String y (String x "")))) with (String x (String y (String z ""))).
  destruct (space3_lead _ _ _ E3) as [L1 L2].
  rewrite white_space_unfold, L1, L2, E3. reflexivity.
Qed.

Lemma lstrip_spec s :
  exists a, s = a +:+ Text.lstrip s /\ white_space a = true
            /\ starts_with_space (Text.lstrip s) = false.
Proof.
  unfold Text.lstrip, starts_with_space.
  destruct (drop_while_split Text.space1 Text.space2 Text.space3 s) as (a & E & D).
  exists a. split; [exact E|]. split; [exact (dropped_is_white_space a D)|].
  apply drop_while_not_leading.
Qed.

Lemma rstrip_spec s :
  exists b, s = Text.rstrip s +:+ b /\ white_space b = true
            /\ ends_with_space (Text.rstrip s) = false.
Proof.
  unfold Text.rstrip, ends_with_space.
  destruct (drop_while_split Text.space1 (fun b a => Text.space2 a b)
              (fun c b a => Text.space3 a b c) (Text.rev s)) as (a & E & D).
  exists (Text.rev a). split; [|split].
  - rewrite <- text_rev_app, <- E. symmetry. apply text_rev_involutive.
  - exact (dropped_from_the_end_is_white_space a D).
  - rewrite text_rev_involutive. apply drop_while_not_leading.
Qed.

(** [strip]: white space, and only white space, is taken from both ends
    until none is left at either. *)
Lemma strip_spec s :
  exists a b,
    s = a +:+ Text.strip s +:+ b
    /\ white_space a = true /\ white_space b = true
    /\ starts_with_space (Text.strip s) = false
    /\ ends_with_space (Text.strip s) = false.
Proof.
  unfold Text.strip.
  destruct (rstrip_spec s) as (b & Eb & Wb & Rb).
  destruct (lstrip_spec (Text.rstrip s)) as (a & Ea & Wa & La).
  exists a, b. split; [|split; [|split; [|split]]]; try assumption.
  - rewrite <- append_assoc, <- Ea. exact Eb.
  - destruct (string_dec (Text.lstrip (Text.rstrip s)) "") as [->|Hne]; [reflexivity|].
    unfold ends_with_space in *. rewrite Ea, text_rev_app in Rb.
    exact (leading_prefix _ _ _ _ _ (fun N => Hne (text_rev_nil _ N)) Rb).
Qed.

(** ** Change records: what a record holds *)

Example white_space_characters :
  white_space " 	
" = true
  /\ white_space " a " = false
  /\ starts_with_space " a" = true
  /\ starts_with_space "a " = false
  /\ ends_with_space "a " = true
  /\ ends_with_space " a" = false
  /\ Text.strip "
   Ivanov  " = "Ivanov".
Proof. repeat split; vm_compute; reflexivity. Qed.

Lemma change_of_value node name v :
  change_of node !! name = Some v ->
  exists child before after,
    last (filter (fun c => has_tag name c = true) (children node)) = Some child
    /\ text_or_empty child = before +:+ v +:+ after
    /\ white_space before = true
    /\ white_space after = true
    /\ starts_with_space v = false
    /\ ends_with_space v = false.
Proof.
  rewrite change_of_lookup.
  destruct (last _) as [c|]; [|discriminate].
  simpl. intros [= <-].
  destruct (strip_spec (text_or_empty c)) as (a & b & E & Ha & Hb & Hs & He).
  exists c, a, b. repeat split; assumption.
Qed.



Example three_changes_retrieved :
  parse_response three_changes = Ret (tree three_changes)
  /\ clients_change_list_result (tree three_changes)
     = Ret [ <["CHANGEID" := "1"]> (<["PCODE" := "10"]> ∅);
             <["CHANGEID" := "2"]> (<["PCODE" := ""]> ∅);
             <["CHANGEID" := "3"]> (<["LASTNAME" := "Ivanov"]> ∅) ].
Proof. split; vm_compute; reflexivity. Qed.

(** X14: the value a change record holds under a name comes from the last
    child with that tag: the text of that child, the empty string when it has
    none, is the value between two runs of white space characters, and the
    value neither starts nor ends with a white space character; trimming it
    again changes nothing. *)
Theorem change_record_values (node : Element) (name v : string) :
  change_of node !! name = Some v ->
  (exists child before after,
     last (filter (fun c => has_tag name c = true) (children node)) = Some child
     /\ text_or_empty child = before +:+ v +:+ after
     /\ white_space before = true
     /\ white_space after = true
     /\ starts_with_space v = false
     /\ ends_with_space v = false)
  /\ Text.strip v = v.
Proof.
  intros H. split; [exact (change_of_value node name v H)|].
  rewrite change_of_lookup in H.
  destruct (last _) as [c|]; [|discriminate].
  simpl in H. injection H as <-. apply strip_idempotent.
Qed.

Lemma change_record_values_witness :
  (exists child before after,
     last (filter (fun c => has_tag "LASTNAME" c = true) (children padded_change))
     = Some child
     /\ text_or_empty child = before +:+ "Petrov" +:+ after
     /\ white_space before = true
     /\ white_space after = true
     /\ starts_with_space "Petrov" = false
     /\ ends_with_space "Petrov" = false)
  /\ Text.strip "Petrov" = "Petrov".
Proof.
  apply (change_record_values padded_change "LASTNAME" "Petrov").
  vm_compute. reflexivity.
Defined.

Example padded_name_is_trimmed :
  text_or_empty (Elem "LASTNAME" (Some "
  Petrov") []) = "
  Petrov"
  /\ change_of padded_change !! "LASTNAME" = Some "Petrov".
Proof. split; vm_compute; reflexivity. Qed.

(** ** The entry point *)

Lemma attempt_trace {A : Type} (c : call A) : snd (Main.attempt c) = snd c.
Proof. destruct c as [[a|e|] t]; reflexivity. Qed.

Lemma attempt_never_raises {A : Type} (c : call A) e : fst (Main.attempt c) <> Raise e.
Proof. destruct c as [[a|e'|] t]; discriminate. Qed.

Lemma sent_by_change_list w filial_id :
  (length (sent_requests (snd (clients_change_list w filial_id))) <= 1)%nat.
Proof. rewrite clients_change_list_raises. simpl. lia. Qed.

Lemma sent_by_client_add_with w patient_data :
  (length (sent_requests (snd (Main.client_add_with w patient_data))) <= 1)%nat.
Proof.
  assert (H : forall p, (length (sent_requests (snd (client_add w p))) <= 1)%nat).
  { intros p. rewrite client_add_ends.
    destruct (client_add_body _ _); simpl; lia. }
  destruct patient_data as [[d| |]|]; simpl; try lia; apply H.
Qed.

Lemma operations_trace first second args patient_data :
  fst (clients_change_list first (Main.filial args)) <> Beyond
  \/ Main.get_changes args || Main.all args = false ->
  snd (Main.operations first second args patient_data)
  = ((if Main.get_changes args || Main.all args
      then snd (clients_change_list first (Main.filial args)) else [])
     ++ (if Main.add_patient args || Main.all args
         then snd (Main.client_add_with second patient_data) else []))%list.
Proof.
  intros H. unfold Main.operations.
  destruct (Main.get_changes args || Main.all args).
  - destruct H as [H|H]; [|discriminate H].
    destruct (clients_change_list first (Main.filial args)) as [[l|e|] t1];
      [| |contradiction H; reflexivity];
      (destruct (Main.add_patient args || Main.all args);
       [destruct (Main.client_add_with second patient_data) as [[r|e'|] t2]; simpl;
        rewrite ?app_nil_r; reflexivity
       |simpl; rewrite ?app_nil_r; reflexivity]).
  - destruct (Main.add_patient args || Main.all args);
      [destruct (Main.client_add_with second patient_data) as [[r|e'|] t2]|];
      simpl; rewrite ?app_nil_r; reflexivity.
Qed.

Lemma operations_outcome first second args patient_data :
  fst (Main.operations first second args patient_data) = Ret Main.Returned
  \/ fst (Main.operations first second args patient_data) = Beyond.
Proof.
  unfold Main.operations.
  destruct (Main.get_changes args || Main.all args);
    [destruct (clients_change_list first (Main.filial args)) as [[l|e|] t1]|];
    (destruct (Main.add_patient args || Main.all args);
     [destruct (Main.client_add_with second patient_data) as [[r|e'|] t2]|]);
    simpl; tauto.
Qed.

Lemma operations_sent first second args patient_data :
  (length (sent_requests (snd (Main.operations first second args patient_data))) <= 2)%nat.
Proof.
  pose proof (sent_by_change_list first (Main.filial args)) as H1.
  pose proof (sent_by_client_add_with second patient_data) as H2.
  unfold Main.operations.
  destruct (Main.get_changes args || Main.all args);
    [destruct (clients_change_list first (Main.filial args)) as [[l|e|] t1]|];
    (destruct (Main.add_patient args || Main.all args);
     [destruct (Main.client_add_with second patient_data) as [[r|e'|] t2]|]);
    simpl in *; rewrite ?app_nil_r, ?sent_requests_app, ?length_app; simpl; lia.
Qed.


